(** * yamlforge: schema model, validation engine and SQLite statement compiler

    A shallow embedding of the Go packages [parser], [validation] and
    [database] of yamlforge and of the pure helpers of the request handlers
    of [api], followed by the properties proved about them.

    Conventions of the embedding.
    - Go [string] is [string] (a byte string); [int] and [int64] are [Z].
    - A Go [error] result is [option error] ([None] is [nil]); a result
      pair [(T, error)] is [error + T].
    - A Go [map[string]T] is an association list [list (string * T)] that
      lists the entries in the order in which a [range] loop visits them.
      Go leaves that order unspecified, so every statement below is
      quantified over the list: it holds for each possible visiting order.
    - [any] is the inductive [value]. *)

From Stdlib Require Import Bool List String Ascii ZArith Lia DecimalString.
From Stdlib Require Import SpecFloat.
Import ListNotations.
Open Scope string_scope.

Set Implicit Arguments.

(** ** Go runtime values and helpers *)

Module Go.

(** The dynamic values that reach the core through [any]. *)
#[warnings="-register-all"] Inductive value : Type :=
| VNil
| VString (s : string)
| VBool (b : bool)
| VInt (n : Z)
| VInt64 (n : Z)
| VFloat64 (f : spec_float)
| VBytes (b : string)
| VSlice (l : list value).

(** [error] values: [fmt.Errorf] messages, [parser.ValidationError],
    [sql.ErrNoRows], and errors raised by the storage driver. *)
Inductive error : Type :=
| Errorf (msg : string)
| ValidationError (Field Message : string)
| ErrNoRows
| DriverError (msg : string).

(** The [Error()] method. *)
Definition Error (e : error) : string :=
  match e with
  | Errorf msg => msg
  | ValidationError f m => f ++ ": " ++ m
  | ErrNoRows => "sql: no rows in result set"
  | DriverError msg => msg
  end.

(** A call either returns or panics (a failed type assertion, a nil
    pointer dereference, a division by zero). *)
Inductive outcome (A : Type) : Type :=
| Returns (a : A)
| Panics (msg : string).
Arguments Returns {A} a.
Arguments Panics {A} msg.

(** The message of the run-time panic on a nil pointer. *)
Definition nilDereference : string :=
  "runtime error: invalid memory address or nil pointer dereference".

(** [%d] of [fmt.Sprintf]. *)
Definition itoa (n : Z) : string := NilZero.string_of_int (Z.to_int n).

(** [float64(n)] for an integer [n]: round to nearest, ties to even. *)
Definition float64_of_int (n : Z) : spec_float :=
  binary_normalize 53 1024 n 0 false.

(** Wrap-around of 64-bit signed arithmetic. *)
Definition wrap64 (n : Z) : Z :=
  (n + 2 ^ 63) mod 2 ^ 64 - 2 ^ 63.

(** [append(s, x)]. *)
Definition append {A : Type} (s : list A) (x : A) : list A := (s ++ [x])%list.

(** [strings.Join]. *)
Definition Join (parts : list string) (sep : string) : string :=
  String.concat sep parts.

Definition is_upper (c : ascii) : bool :=
  (65 <=? nat_of_ascii c)%nat && (nat_of_ascii c <=? 90)%nat.

Definition lower_ascii (c : ascii) : ascii :=
  if is_upper c then ascii_of_nat (nat_of_ascii c + 32) else c.

(** The loop of [strings.ToLower] over an ASCII string: each byte from
    [A] to [Z] is moved by ['a' - 'A']. *)
Fixpoint lower_bytes (s : string) : string :=
  match s with
  | EmptyString => EmptyString
  | String c rest => String (lower_ascii c) (lower_bytes rest)
  end.

(** No byte of [s] reaches [utf8.RuneSelf]. *)
Fixpoint isASCII (s : string) : bool :=
  match s with
  | EmptyString => true
  | String c rest => (nat_of_ascii c <? 128)%nat && isASCII rest
  end.

Fixpoint hasUpper (s : string) : bool :=
  match s with
  | EmptyString => false
  | String c rest => is_upper c || hasUpper rest
  end.

(** [strings.ToLower]: an ASCII string is lower-cased byte by byte (and
    returned as it is when it holds no upper-case letter); any other
    string goes through [strings.Map(unicode.ToLower, s)], which is the
    parameter [Map_unicode_ToLower]. *)
Definition ToLower (Map_unicode_ToLower : string -> string) (s : string)
  : string :=
  if isASCII s then
    if hasUpper s then lower_bytes s else s
  else Map_unicode_ToLower s.

(** [strings.ReplaceAll(s, "'", "''")]. *)
Fixpoint double_single_quotes (s : string) : string :=
  match s with
  | EmptyString => EmptyString
  | String c rest =>
      if Ascii.eqb c "'"%char
      then String c (String c (double_single_quotes rest))
      else String c (double_single_quotes rest)
  end.

(** Lookup [m[k]] with the comma-ok form. *)
Fixpoint map_get {T : Type} (m : list (string * T)) (k : string) : option T :=
  match m with
  | [] => None
  | (k', v) :: rest => if String.eqb k' k then Some v else map_get rest k
  end.

(** Assignment [m[k] = v] to a key that may or may not be present. *)
Fixpoint map_set {T : Type} (m : list (string * T)) (k : string) (v : T)
  : list (string * T) :=
  match m with
  | [] => [(k, v)]
  | (k', v') :: rest =>
      if String.eqb k' k then (k', v) :: rest else (k', v') :: map_set rest k v
  end.

(** [s] occurs in [e] ([strings.Contains]). *)
Fixpoint Contains (e s : string) : bool :=
  prefix s e ||
  match e with
  | EmptyString => false
  | String _ rest => Contains rest s
  end.

End Go.

Import Go.

(** ** Package parser *)

Module Parser.

Record AppConfig := {
  App_Name : string;
  App_Version : string;
  App_Description : string
}.

Record DatabaseConfig := {
  Database_Type : string;
  Database_Path : string;
  Database_Connection : string
}.

Record FieldConfig := {
  FC_Type : string;
  FC_Primary : bool;
  FC_Required : bool;
  FC_Unique : bool;
  FC_Min : Z;
  FC_Max : Z;
  FC_Pattern : string;
  FC_Options : list string;
  FC_Default : value;
  FC_AutoNow : bool;
  FC_AutoNowAdd : bool;
  FC_Nullable : bool;
  FC_Index : bool;
  FC_To : string;
  FC_OnDelete : string;
  FC_Items : string
}.

Record UIListConfig := {
  ULC_Columns : list string;
  ULC_Sortable : list string;
  ULC_Searchable : list string
}.

Record UIFormConfig := { UFC_Fields : list string }.

(** [List] and [Form] are pointers: [None] is [nil], a [ui] section
    without that part. *)
Record UIModelConfig := {
  UMC_List : option UIListConfig;
  UMC_Form : option UIFormConfig
}.

Record PermissionsConfig := {
  PC_Create : string;
  PC_Read : string;
  PC_Update : string;
  PC_Delete : string
}.

Record ModelConfig := {
  MC_Fields : list (string * FieldConfig);
  MC_UI : option UIModelConfig;
  MC_Permissions : option PermissionsConfig
}.

(** The parts of [Config] read by validation and schema construction
    (the server and UI sections play no role there). *)
Record Config := {
  App : AppConfig;
  Database : DatabaseConfig;
  Models : list (string * ModelConfig)
}.

(** [FieldType] is a named string type. *)
Definition FieldType := string.

Definition FieldTypeText : FieldType := "text".
Definition FieldTypeNumber : FieldType := "number".
Definition FieldTypeBoolean : FieldType := "boolean".
Definition FieldTypeDatetime : FieldType := "datetime".
Definition FieldTypeDate : FieldType := "date".
Definition FieldTypeTime : FieldType := "time".
Definition FieldTypeID : FieldType := "id".
Definition FieldTypeEmail : FieldType := "email".
Definition FieldTypePassword : FieldType := "password".
Definition FieldTypePhone : FieldType := "phone".
Definition FieldTypeURL : FieldType := "url".
Definition FieldTypeSlug : FieldType := "slug".
Definition FieldTypeEnum : FieldType := "enum".
Definition FieldTypeColor : FieldType := "color".
Definition FieldTypeFile : FieldType := "file".
Definition FieldTypeImage : FieldType := "image".
Definition FieldTypeMarkdown : FieldType := "markdown".
Definition FieldTypeJSON : FieldType := "json".
Definition FieldTypeArray : FieldType := "array".
Definition FieldTypeRelation : FieldType := "relation".
Definition FieldTypeCurrency : FieldType := "currency".
Definition FieldTypeLocation : FieldType := "location".
Definition FieldTypeIP : FieldType := "ip".
Definition FieldTypeUUID : FieldType := "uuid".
Definition FieldTypeDuration : FieldType := "duration".

(** A [switch] case with several constants. *)
Definition one_of (f : FieldType) (cases : list FieldType) : bool :=
  existsb (String.eqb f) cases.

Definition IsValid (f : FieldType) : bool :=
  one_of f
    [FieldTypeText; FieldTypeNumber; FieldTypeBoolean; FieldTypeDatetime;
     FieldTypeDate; FieldTypeTime; FieldTypeID; FieldTypeEmail;
     FieldTypePassword; FieldTypePhone; FieldTypeURL; FieldTypeSlug;
     FieldTypeEnum; FieldTypeColor; FieldTypeFile; FieldTypeImage;
     FieldTypeMarkdown; FieldTypeJSON; FieldTypeArray; FieldTypeRelation;
     FieldTypeCurrency; FieldTypeLocation; FieldTypeIP; FieldTypeUUID;
     FieldTypeDuration].

Record UIList := {
  Columns : list string;
  Sortable : list string;
  Searchable : list string
}.

Record UIForm := { Form_Fields : list string }.

Record UIModel := { UI_List : UIList; UI_Form : UIForm }.

Record Permissions := {
  P_Create : string;
  P_Read : string;
  P_Update : string;
  P_Delete : string
}.

Record Field := {
  Name : string;
  Type_ : FieldType;
  Primary : bool;
  Required : bool;
  Unique : bool;
  Min : option Z;
  Max : option Z;
  Pattern : string;
  Options : list string;
  Default : value;
  AutoNow : bool;
  AutoNowAdd : bool;
  Nullable : bool;
  Index : bool;
  RelatedTo : string;
  OnDelete : string;
  ArrayType : string
}.

Record Model := {
  Model_Name : string;
  Fields : list Field;
  Model_Permissions : Permissions;
  UI : UIModel
}.

Record Schema := { Schema_Models : list (string * Model) }.

Record SortField := { Sort_Field : string; Desc : bool }.

Record Filter := {
  Filter_Field : string;
  Operator : string;
  Value : value
}.

Record QueryParams := {
  Page : Z;
  PageSize : Z;
  Sorts : list SortField;
  Filters : list Filter;
  Search : string
}.

(** *** Configuration validation *)

Definition validateField (modelName fieldName : string) (field : FieldConfig)
  : option error :=
  let fieldType : FieldType := FC_Type field in
  if negb (IsValid fieldType) then
    Some (Errorf ("invalid field type '" ++ FC_Type field ++ "' for "
                    ++ modelName ++ "." ++ fieldName))
  else if String.eqb fieldType FieldTypeEnum
          && (List.length (FC_Options field) =? 0)%nat then
    Some (Errorf ("enum field " ++ modelName ++ "." ++ fieldName
                    ++ " must have options"))
  else if String.eqb fieldType FieldTypeRelation
          && String.eqb (FC_To field) "" then
    Some (Errorf ("relation field " ++ modelName ++ "." ++ fieldName
                    ++ " must specify 'to' model"))
  else if String.eqb fieldType FieldTypeArray
          && String.eqb (FC_Items field) "" then
    Some (Errorf ("array field " ++ modelName ++ "." ++ fieldName
                    ++ " must specify 'items' type"))
  else if (FC_Min field >? FC_Max field)%Z && (FC_Max field >? 0)%Z then
    Some (Errorf ("field " ++ modelName ++ "." ++ fieldName
                    ++ " has min > max"))
  else None.

(** The loop of [validateModel] over the fields, carrying [hasPrimary];
    [inl] is an early [return err]. *)
Fixpoint validateModel_fields (name : string)
         (fields : list (string * FieldConfig)) (hasPrimary : bool)
  : error + bool :=
  match fields with
  | [] => inr hasPrimary
  | (fieldName, field) :: rest =>
      if FC_Primary field && hasPrimary then
        inl (Errorf ("model " ++ name ++ " has multiple primary keys"))
      else
        match validateField name fieldName field with
        | Some err => inl err
        | None =>
            validateModel_fields name rest (hasPrimary || FC_Primary field)
        end
  end.

Definition validateModel (name : string) (model : ModelConfig)
  : option error :=
  if (List.length (MC_Fields model) =? 0)%nat then
    Some (Errorf ("model " ++ name ++ " has no fields"))
  else
    match validateModel_fields name (MC_Fields model) false with
    | inl err => Some err
    | inr hasPrimary =>
        if negb hasPrimary then
          Some (Errorf ("model " ++ name ++ " has no primary key"))
        else None
    end.

Fixpoint validateConfig_models (models : list (string * ModelConfig))
  : option error :=
  match models with
  | [] => None
  | (modelName, model) :: rest =>
      match validateModel modelName model with
      | Some err => Some err
      | None => validateConfig_models rest
      end
  end.

(** The checks of [validateConfig] that precede the loop over models. *)
Definition validateConfig_header (config : Config) : option error :=
  let ty := Database_Type (Database config) in
  if String.eqb (App_Name (App config)) "" then
    Some (Errorf "app.name is required")
  else if negb (String.eqb ty "sqlite") && negb (String.eqb ty "postgresql")
          && negb (String.eqb ty "mysql") then
    Some (Errorf ("unsupported database type: " ++ ty))
  else if String.eqb ty "sqlite"
          && String.eqb (Database_Path (Database config)) "" then
    Some (Errorf "database.path is required for SQLite")
  else if negb (String.eqb ty "sqlite")
          && String.eqb (Database_Connection (Database config)) "" then
    Some (Errorf ("database.connection is required for " ++ ty))
  else None.

Definition validateConfig (config : Config) : option error :=
  match validateConfig_header config with
  | Some err => Some err
  | None => validateConfig_models (Models config)
  end.

(** *** Post-processing of a valid configuration *)

Definition with_Primary (f : FieldConfig) (b : bool) : FieldConfig :=
  {| FC_Type := FC_Type f; FC_Primary := b; FC_Required := FC_Required f;
     FC_Unique := FC_Unique f; FC_Min := FC_Min f; FC_Max := FC_Max f;
     FC_Pattern := FC_Pattern f; FC_Options := FC_Options f;
     FC_Default := FC_Default f; FC_AutoNow := FC_AutoNow f;
     FC_AutoNowAdd := FC_AutoNowAdd f; FC_Nullable := FC_Nullable f;
     FC_Index := FC_Index f; FC_To := FC_To f; FC_OnDelete := FC_OnDelete f;
     FC_Items := FC_Items f |}.

Definition with_Default (f : FieldConfig) (d : value) : FieldConfig :=
  {| FC_Type := FC_Type f; FC_Primary := FC_Primary f;
     FC_Required := FC_Required f; FC_Unique := FC_Unique f;
     FC_Min := FC_Min f; FC_Max := FC_Max f; FC_Pattern := FC_Pattern f;
     FC_Options := FC_Options f; FC_Default := d;
     FC_AutoNow := FC_AutoNow f; FC_AutoNowAdd := FC_AutoNowAdd f;
     FC_Nullable := FC_Nullable f; FC_Index := FC_Index f; FC_To := FC_To f;
     FC_OnDelete := FC_OnDelete f; FC_Items := FC_Items f |}.

Definition with_Required_Unique (f : FieldConfig) : FieldConfig :=
  {| FC_Type := FC_Type f; FC_Primary := FC_Primary f;
     FC_Required := true; FC_Unique := true;
     FC_Min := FC_Min f; FC_Max := FC_Max f; FC_Pattern := FC_Pattern f;
     FC_Options := FC_Options f; FC_Default := FC_Default f;
     FC_AutoNow := FC_AutoNow f; FC_AutoNowAdd := FC_AutoNowAdd f;
     FC_Nullable := FC_Nullable f; FC_Index := FC_Index f; FC_To := FC_To f;
     FC_OnDelete := FC_OnDelete f; FC_Items := FC_Items f |}.

(** The body of the inner loop of [processConfig]; the three tests read
    the unprocessed [field]. *)
Definition processField (field : FieldConfig) : FieldConfig :=
  let p1 :=
    if String.eqb (FC_Type field) "id" && negb (FC_Primary field)
    then with_Primary field true else field in
  let p2 :=
    if (String.eqb (FC_Type field) "datetime"
        || String.eqb (FC_Type field) "date"
        || String.eqb (FC_Type field) "time")
       && (FC_AutoNow field || FC_AutoNowAdd field)
    then with_Default p1 (VString "CURRENT_TIMESTAMP") else p1 in
  if FC_Primary field then with_Required_Unique p2 else p2.

(** [generateDefaultUI]: one pass appends to four lists; each list is
    the sub-sequence of field names that pass its own tests. *)
Definition generateDefaultUI (model : ModelConfig) : UIModelConfig :=
  let listed (e : string * FieldConfig) :=
    negb (String.eqb (FC_Type (snd e)) "password")
    && negb (FC_Primary (snd e)) in
  let columns := map fst (filter listed (MC_Fields model)) in
  let searchable :=
    map fst (filter (fun e =>
      listed e && (String.eqb (FC_Type (snd e)) "text"
                   || String.eqb (FC_Type (snd e)) "email"
                   || String.eqb (FC_Type (snd e)) "number"))
      (MC_Fields model)) in
  let sortable :=
    map fst (filter (fun e =>
      listed e && negb (String.eqb (FC_Type (snd e)) "file")
               && negb (String.eqb (FC_Type (snd e)) "image"))
      (MC_Fields model)) in
  let formFields :=
    map fst (filter (fun e =>
      negb (FC_Primary (snd e)) && negb (FC_AutoNow (snd e))
      && negb (FC_AutoNowAdd (snd e))) (MC_Fields model)) in
  let columns :=
    if (5 <? List.length columns)%nat then firstn 5 columns else columns in
  {| UMC_List := Some {| ULC_Columns := columns; ULC_Sortable := sortable;
                         ULC_Searchable := searchable |};
     UMC_Form := Some {| UFC_Fields := formFields |} |}.

Definition processModel (model : ModelConfig) : ModelConfig :=
  let fields := map (fun e => (fst e, processField (snd e))) (MC_Fields model) in
  let processed :=
    {| MC_Fields := fields; MC_UI := MC_UI model;
       MC_Permissions := MC_Permissions model |} in
  let ui :=
    match MC_UI model with
    | None => Some (generateDefaultUI processed)
    | Some u => Some u
    end in
  let perms :=
    match MC_Permissions model with
    | None => Some {| PC_Create := "authenticated"; PC_Read := "all";
                      PC_Update := "authenticated";
                      PC_Delete := "authenticated" |}
    | Some p => Some p
    end in
  {| MC_Fields := fields; MC_UI := ui; MC_Permissions := perms |}.

Definition processConfig (config : Config) : Config :=
  {| App := App config; Database := Database config;
     Models := map (fun e => (fst e, processModel (snd e))) (Models config) |}.

(** [ParseConfig] from the point where the file has been read and
    unmarshalled over [DefaultConfig()]: [config] is that value.  A
    failure returns the [nil] configuration, that is, no configuration. *)
Definition ParseConfig (config : Config) : error + Config :=
  match validateConfig config with
  | Some err => inl (Errorf ("invalid configuration: " ++ Error err))
  | None => inr (processConfig config)
  end.

(** *** Schema construction *)

Definition loadField (fieldName : string) (fieldConfig : FieldConfig) : Field :=
  {| Name := fieldName;
     Type_ := FC_Type fieldConfig;
     Primary := FC_Primary fieldConfig;
     Required := FC_Required fieldConfig;
     Unique := FC_Unique fieldConfig;
     Min := if (FC_Min fieldConfig >? 0)%Z then Some (FC_Min fieldConfig) else None;
     Max := if (FC_Max fieldConfig >? 0)%Z then Some (FC_Max fieldConfig) else None;
     Pattern := FC_Pattern fieldConfig;
     Options := FC_Options fieldConfig;
     Default := FC_Default fieldConfig;
     AutoNow := FC_AutoNow fieldConfig;
     AutoNowAdd := FC_AutoNowAdd fieldConfig;
     Nullable := FC_Nullable fieldConfig;
     Index := FC_Index fieldConfig;
     RelatedTo := FC_To fieldConfig;
     OnDelete := FC_OnDelete fieldConfig;
     ArrayType := FC_Items fieldConfig |}.

(** The [UIModel] literal of [LoadConfig]: [modelConfig.UI.List] and
    [modelConfig.UI.Form] are dereferenced without a nil check. *)
Definition loadUI (ui : option UIModelConfig) : outcome UIModel :=
  match ui with
  | Some u =>
      match UMC_List u with
      | None => Panics nilDereference
      | Some list =>
          match UMC_Form u with
          | None => Panics nilDereference
          | Some form =>
              Returns {| UI_List := {| Columns := ULC_Columns list;
                                       Sortable := ULC_Sortable list;
                                       Searchable := ULC_Searchable list |};
                         UI_Form := {| Form_Fields := UFC_Fields form |} |}
          end
      end
  | None =>
      Returns {| UI_List := {| Columns := []; Sortable := []; Searchable := [] |};
                 UI_Form := {| Form_Fields := [] |} |}
  end.

(** The body of the loop of [LoadConfig] over [config.Models]. *)
Definition loadModel (modelName : string) (modelConfig : ModelConfig)
  : outcome Model :=
  let fields :=
    map (fun e => loadField (fst e) (snd e)) (MC_Fields modelConfig) in
  let permissions :=
    match MC_Permissions modelConfig with
    | Some p => {| P_Create := PC_Create p; P_Read := PC_Read p;
                   P_Update := PC_Update p; P_Delete := PC_Delete p |}
    | None => {| P_Create := ""; P_Read := ""; P_Update := ""; P_Delete := "" |}
    end in
  match loadUI (MC_UI modelConfig) with
  | Panics msg => Panics msg
  | Returns ui =>
      Returns {| Model_Name := modelName; Fields := fields;
                 Model_Permissions := permissions; UI := ui |}
  end.

(** The loop of [LoadConfig]: the first model whose [ui] section lacks a
    part ends it with a panic. *)
Fixpoint loadModels (models : list (string * ModelConfig))
  : outcome (list (string * Model)) :=
  match models with
  | [] => Returns []
  | (modelName, modelConfig) :: rest =>
      match loadModel modelName modelConfig with
      | Panics msg => Panics msg
      | Returns model =>
          match loadModels rest with
          | Panics msg => Panics msg
          | Returns loaded => Returns ((modelName, model) :: loaded)
          end
      end
  end.

(** [LoadConfig]: its error result is always [nil]. *)
Definition LoadConfig (config : Config) : outcome (error + Schema) :=
  match loadModels (Models config) with
  | Panics msg => Panics msg
  | Returns models => Returns (inr {| Schema_Models := models |})
  end.

(** A configuration becomes a [Schema] along [handleServe] and
    [Server.initialize]: [ParseConfig], then [LoadConfig] on its result.
    A failed [ParseConfig] ends the process before [LoadConfig] runs. *)
Definition ParseAndLoad (config : Config) : outcome (error + Schema) :=
  match ParseConfig config with
  | inl err => Returns (inl err)
  | inr config' => LoadConfig config'
  end.

Definition GetModel (s : Schema) (name : string) : option Model :=
  map_get (Schema_Models s) name.

Fixpoint findField (fields : list Field) (fieldName : string) : option Field :=
  match fields with
  | [] => None
  | field :: rest =>
      if String.eqb (Name field) fieldName then Some field
      else findField rest fieldName
  end.

Definition GetField (s : Schema) (modelName fieldName : string) : option Field :=
  match GetModel s modelName with
  | None => None
  | Some model => findField (Fields model) fieldName
  end.

(** [FieldType.SQLType]. *)
Definition SQLType (f : FieldType) : string :=
  if one_of f [FieldTypeID; FieldTypeNumber] then "INTEGER"
  else if one_of f
            [FieldTypeText; FieldTypeEmail; FieldTypePassword; FieldTypePhone;
             FieldTypeURL; FieldTypeSlug; FieldTypeEnum; FieldTypeColor;
             FieldTypeMarkdown; FieldTypeJSON; FieldTypeCurrency; FieldTypeIP;
             FieldTypeUUID; FieldTypeDuration] then "TEXT"
  else if one_of f [FieldTypeBoolean] then "BOOLEAN"
  else if one_of f [FieldTypeDatetime; FieldTypeDate; FieldTypeTime]
  then "DATETIME"
  else if one_of f [FieldTypeFile; FieldTypeImage] then "TEXT"
  else if one_of f [FieldTypeArray] then "TEXT"
  else if one_of f [FieldTypeRelation] then "INTEGER"
  else if one_of f [FieldTypeLocation] then "TEXT"
  else "TEXT".

End Parser.

Import Parser.

(** ** Package validation *)

Module Validation.

(** The first failing check decides. *)
Definition or_else (a b : option error) : option error :=
  match a with
  | Some err => Some err
  | None => b
  end.

Definition invalid (field : Field) (message : string) : option error :=
  Some (ValidationError (Name field) message).

Section Validator.

(** [regexp.MatchString pattern s]; [None] when [pattern] does not
    compile. *)
Variable MatchString : string -> string -> option bool.

Definition validateText (field : Field) (v : value) : option error :=
  match v with
  | VString str =>
      let len := Z.of_nat (String.length str) in
      or_else
        match Min field with
        | Some min =>
            if (len <? min)%Z
            then invalid field ("must be at least " ++ itoa min ++ " characters")
            else None
        | None => None
        end
        (or_else
           match Max field with
           | Some max =>
               if (len >? max)%Z
               then invalid field ("must be at most " ++ itoa max ++ " characters")
               else None
           | None => None
           end
           (if negb (String.eqb (Pattern field) "") then
              match MatchString (Pattern field) str with
              | None => invalid field "invalid pattern"
              | Some false => invalid field "does not match required pattern"
              | Some true => None
              end
            else None))
  | _ => invalid field "must be a string"
  end.

(** The type switch of [validateNumber]. *)
Definition as_float64 (v : value) : option spec_float :=
  match v with
  | VFloat64 f => Some f
  | VInt n => Some (float64_of_int n)
  | VInt64 n => Some (float64_of_int n)
  | _ => None
  end.

Definition validateNumber (field : Field) (v : value) : option error :=
  match as_float64 v with
  | None => invalid field "must be a number"
  | Some num =>
      or_else
        match Min field with
        | Some min =>
            if SFltb num (float64_of_int min)
            then invalid field ("must be at least " ++ itoa min)
            else None
        | None => None
        end
        match Max field with
        | Some max =>
            if SFltb (float64_of_int max) num
            then invalid field ("must be at most " ++ itoa max)
            else None
        | None => None
        end
  end.

Definition validateBoolean (field : Field) (v : value) : option error :=
  match v with
  | VBool _ => None
  | _ => invalid field "must be a boolean"
  end.

Definition emailRegex : string :=
  "^[a-zA-Z0-9._%+-]+@[a-zA-Z0-9.-]+\.[a-zA-Z]{2,}$".

Definition urlRegex : string := "^https?://[^\s/$.?#].[^\s]*$".

(** [matched, _ := regexp.MatchString(...)]: the error is dropped and
    [matched] is then [false]. *)
Definition matched (pattern str : string) : bool :=
  match MatchString pattern str with
  | Some b => b
  | None => false
  end.

Definition validateEmail (field : Field) (v : value) : option error :=
  match v with
  | VString str =>
      if negb (matched emailRegex str)
      then invalid field "must be a valid email address"
      else None
  | _ => invalid field "must be a string"
  end.

Definition validateURL (field : Field) (v : value) : option error :=
  match v with
  | VString str =>
      if negb (matched urlRegex str)
      then invalid field "must be a valid URL"
      else None
  | _ => invalid field "must be a string"
  end.

Definition validateEnum (field : Field) (v : value) : option error :=
  match v with
  | VString str =>
      if existsb (String.eqb str) (Options field) then None
      else invalid field ("must be one of: " ++ Join (Options field) ", ")
  | _ => invalid field "must be a string"
  end.

Definition validateDatetime (field : Field) (v : value) : option error :=
  match v with
  | VString _ => None
  | _ => invalid field "must be a string"
  end.

(** The [switch field.Type] of [validateField], for a non-nil value. *)
Definition validateByType (field : Field) (v : value) : option error :=
  let t := Type_ field in
  if one_of t [FieldTypeText; FieldTypePassword] then validateText field v
  else if one_of t [FieldTypeNumber] then validateNumber field v
  else if one_of t [FieldTypeBoolean] then validateBoolean field v
  else if one_of t [FieldTypeEmail] then validateEmail field v
  else if one_of t [FieldTypeURL] then validateURL field v
  else if one_of t [FieldTypeEnum] then validateEnum field v
  else if one_of t [FieldTypeDatetime; FieldTypeDate; FieldTypeTime]
  then validateDatetime field v
  else None.

Definition validateField (field : Field) (v : value) : option error :=
  match v with
  | VNil =>
      if Nullable field then None
      else if Required field then invalid field "field is required"
      else None
  | _ => validateByType field v
  end.

(** The loop of [ValidateCreate] over [model.Fields]. *)
Fixpoint ValidateCreate_fields (fields : list Field)
         (data : list (string * value)) : option error :=
  match fields with
  | [] => None
  | field :: rest =>
      if Primary field && String.eqb (Type_ field) FieldTypeID then
        ValidateCreate_fields rest data
      else
        match map_get data (Name field) with
        | None =>
            if Required field then invalid field "field is required"
            else ValidateCreate_fields rest data
        | Some v =>
            match validateField field v with
            | Some err => Some err
            | None => ValidateCreate_fields rest data
            end
        end
  end.

Definition ValidateCreate (schema : Schema) (modelName : string)
           (data : list (string * value)) : option error :=
  match GetModel schema modelName with
  | None => Some (Errorf ("model " ++ modelName ++ " not found"))
  | Some model => ValidateCreate_fields (Fields model) data
  end.

Definition getField (model : Model) (fieldName : string) : option Field :=
  findField (Fields model) fieldName.

(** The loop of [ValidateUpdate] over the entries of [data], in the
    order in which [range] yields them. *)
Fixpoint ValidateUpdate_entries (model : Model)
         (data : list (string * value)) : option error :=
  match data with
  | [] => None
  | (fieldName, v) :: rest =>
      match getField model fieldName with
      | None => Some (ValidationError fieldName "field does not exist")
      | Some field =>
          if Primary field then
            Some (ValidationError fieldName "cannot update primary key")
          else
            match validateField field v with
            | Some err => Some err
            | None => ValidateUpdate_entries model rest
            end
      end
  end.

Definition ValidateUpdate (schema : Schema) (modelName : string)
           (data : list (string * value)) : option error :=
  match GetModel schema modelName with
  | None => Some (Errorf ("model " ++ modelName ++ " not found"))
  | Some model => ValidateUpdate_entries model data
  end.

End Validator.

End Validation.

(** ** Package database *)

Module Database.

Definition DatabaseType := string.
Definition DatabaseSQLite : DatabaseType := "sqlite".

(** The one-character string holding a double quote. *)
Definition dq : string := String "034"%char EmptyString.

(** [DB.quote]. *)
Definition quote (dbType : DatabaseType) (name : string) : string :=
  if String.eqb dbType DatabaseSQLite then dq ++ name ++ dq else name.

(** [escapeSQL]. *)
Definition escapeSQL (s : string) : string := double_single_quotes s.

Section Formatting.

(** [fmt.Sprint] of a [float64]. *)
Variable Sprint_float64 : spec_float -> string.

(** [strings.Map(unicode.ToLower, s)]: the lower-casing of a string that
    holds a byte above 127, by the Unicode tables of the library. *)
Variable Map_unicode_ToLower : string -> string.

Definition Sprint_byte (c : ascii) : string := itoa (Z.of_nat (nat_of_ascii c)).

(** [fmt.Sprint] of a dynamic value. *)
Fixpoint Sprint (v : value) : string :=
  match v with
  | VNil => "<nil>"
  | VString s => s
  | VBool true => "true"
  | VBool false => "false"
  | VInt n => itoa n
  | VInt64 n => itoa n
  | VFloat64 f => Sprint_float64 f
  | VBytes b => "[" ++ Join (map Sprint_byte (list_ascii_of_string b)) " " ++ "]"
  | VSlice l => "[" ++ Join (map Sprint l) " " ++ "]"
  end.

(** [buildWhereClause], the same text in [DB] and in [SQLiteDB]. *)
Definition buildWhereClause (dbType : DatabaseType) (filter : Filter)
  : outcome (string * value) :=
  let operator :=
    if String.eqb (Operator filter) "" then "=" else Operator filter in
  if String.eqb operator "like" then
    Returns (quote dbType (Filter_Field filter) ++ " LIKE ?",
             VString ("%" ++ Sprint (Value filter) ++ "%"))
  else if String.eqb operator "in" then
    match Value filter with
    | VSlice values =>
        let placeholders := map (fun _ => "?") values in
        Returns (quote dbType (Filter_Field filter) ++ " IN ("
                   ++ Join placeholders "," ++ ")",
                 VSlice values)
    | _ => Panics "interface conversion: interface {} is not []interface {}"
    end
  else
    Returns (quote dbType (Filter_Field filter) ++ " " ++ operator ++ " ?",
             Value filter).

(** The loop shared by [buildSelectQuery] and [Count]: one clause and
    one appended argument per filter. *)
Fixpoint whereLoop (dbType : DatabaseType) (filters : list Filter)
  : outcome (list string * list value) :=
  match filters with
  | [] => Returns ([], [])
  | filter :: rest =>
      match buildWhereClause dbType filter with
      | Panics msg => Panics msg
      | Returns (clause, arg) =>
          match whereLoop dbType rest with
          | Panics msg => Panics msg
          | Returns (whereClauses, args) =>
              Returns (clause :: whereClauses, arg :: args)
          end
      end
  end.

Definition orderClause (dbType : DatabaseType) (sort : SortField) : string :=
  quote dbType (Sort_Field sort) ++ " "
    ++ (if Desc sort then "DESC" else "ASC").

(** [SQLiteDB.buildSelectQuery]; [schema] is [db.schema], [None] when
    the pointer is nil. *)
Definition buildSelectQuery (dbType : DatabaseType) (schema : option Schema)
           (model : string) (params : QueryParams)
  : outcome (string * list value) :=
  let parts0 := ["SELECT * FROM " ++ quote dbType model] in
  match whereLoop dbType (Filters params) with
  | Panics msg => Panics msg
  | Returns (whereClauses, args0) =>
      let hasFilters := (0 <? List.length (Filters params))%nat in
      let parts1 :=
        if hasFilters
        then append parts0 ("WHERE " ++ Join whereClauses " AND ")
        else parts0 in
      let searchable :=
        if negb (String.eqb (Search params) "") then
          match schema with
          | None => []
          | Some s =>
              match GetModel s model with
              | Some m => Searchable (UI_List (UI m))
              | None => []
              end
          end
        else [] in
      let searchClauses :=
        map (fun field => quote dbType field ++ " LIKE ?") searchable in
      let searchArgs :=
        map (fun _ : string => VString ("%" ++ Search params ++ "%"))
            searchable in
      let parts2 :=
        if (0 <? List.length searchable)%nat then
          if hasFilters
          then append parts1 ("AND (" ++ Join searchClauses " OR " ++ ")")
          else append parts1 ("WHERE " ++ Join searchClauses " OR ")
        else parts1 in
      let parts3 :=
        if (0 <? List.length (Sorts params))%nat then
          append parts2 ("ORDER BY "
                       ++ Join (map (orderClause dbType) (Sorts params)) ", ")
        else append parts2 ("ORDER BY " ++ quote dbType "id" ++ " DESC") in
      let parts4 :=
        if (PageSize params >? 0)%Z then
          let limit := PageSize params in
          let offset := wrap64 ((Page params - 1) * PageSize params) in
          append parts3 ("LIMIT " ++ itoa limit ++ " OFFSET " ++ itoa offset)
        else parts3 in
      Returns (Join parts4 " ", (args0 ++ searchArgs)%list)
  end.

(** The statement and the arguments that [SQLiteDB.Count] hands to
    [QueryRow]. *)
Definition buildCountQuery (dbType : DatabaseType) (model : string)
           (filters : list Filter) : outcome (string * list value) :=
  let tableName := ToLower Map_unicode_ToLower model in
  let parts0 := ["SELECT COUNT(*) FROM " ++ quote dbType tableName] in
  match whereLoop dbType filters with
  | Panics msg => Panics msg
  | Returns (whereClauses, args) =>
      let parts1 :=
        if (0 <? List.length filters)%nat
        then append parts0 ("WHERE " ++ Join whereClauses " AND ")
        else parts0 in
      Returns (Join parts1 " ", args)
  end.

Definition buildInsertQuery (dbType : DatabaseType) (model : string)
           (data : list (string * value)) : string * list value :=
  let columns := map (fun e => quote dbType (fst e)) data in
  let placeholders := map (fun _ : string * value => "?") data in
  let args := map snd data in
  ("INSERT INTO " ++ quote dbType model ++ " (" ++ Join columns ", "
     ++ ") VALUES (" ++ Join placeholders ", " ++ ")", args).

Definition buildUpdateQuery (dbType : DatabaseType) (model : string)
           (id : value) (data : list (string * value)) : string * list value :=
  let setClauses := map (fun e => quote dbType (fst e) ++ " = ?") data in
  let args := append (map snd data) id in
  ("UPDATE " ++ quote dbType model ++ " SET " ++ Join setClauses ", "
     ++ " WHERE id = ?", args).

Definition buildDeleteQuery (dbType : DatabaseType) (model : string)
           (id : value) : string * list value :=
  ("DELETE FROM " ++ quote dbType model ++ " WHERE id = ?", [id]).

(** *** DDL synthesis *)

Definition getSQLiteType (field : Field) : string :=
  let t := Type_ field in
  if one_of t [FieldTypeID] then "INTEGER"
  else if one_of t [FieldTypeNumber] then "INTEGER"
  else if one_of t
            [FieldTypeText; FieldTypeEmail; FieldTypePassword;
             FieldTypePhone; FieldTypeURL; FieldTypeSlug; FieldTypeEnum;
             FieldTypeColor; FieldTypeMarkdown; FieldTypeJSON;
             FieldTypeCurrency; FieldTypeIP; FieldTypeUUID;
             FieldTypeDuration] then
    match Max field with
    | Some max =>
        if (max <? 255)%Z then "VARCHAR(" ++ itoa max ++ ")" else "TEXT"
    | None => "TEXT"
    end
  else if one_of t [FieldTypeBoolean] then "BOOLEAN"
  else if one_of t [FieldTypeDatetime; FieldTypeDate; FieldTypeTime]
  then "DATETIME"
  else if one_of t [FieldTypeFile; FieldTypeImage] then "TEXT"
  else if one_of t [FieldTypeArray] then "TEXT"
  else if one_of t [FieldTypeRelation] then "INTEGER"
  else if one_of t [FieldTypeLocation] then "TEXT"
  else "TEXT".

Definition formatDefaultValue (v : value) (fieldType : FieldType) : string :=
  match v with
  | VString s =>
      if String.eqb s "CURRENT_TIMESTAMP" then "CURRENT_TIMESTAMP"
      else "'" ++ escapeSQL s ++ "'"
  | VInt _ | VInt64 _ | VFloat64 _ => Sprint v
  | VBool true => "1"
  | VBool false => "0"
  | _ => "NULL"
  end.

Definition buildColumnDefinition (dbType : DatabaseType) (field : Field)
  : string :=
  let parts0 := [quote dbType (Name field); getSQLiteType field] in
  let parts1 :=
    if Primary field then
      if String.eqb (Type_ field) FieldTypeID
      then append parts0 ("PRIMARY KEY AUTOINCREMENT")
      else append parts0 ("PRIMARY KEY")
    else parts0 in
  let parts2 :=
    if Required field && negb (Primary field)
    then append parts1 ("NOT NULL") else parts1 in
  let parts3 :=
    if Unique field && negb (Primary field)
    then append parts2 ("UNIQUE") else parts2 in
  let parts4 :=
    match Default field with
    | VNil => parts3
    | d => append parts3 ("DEFAULT " ++ formatDefaultValue d (Type_ field))
    end in
  Join parts4 " ".

Definition foreignKey (dbType : DatabaseType) (field : Field) : list string :=
  if String.eqb (Type_ field) FieldTypeRelation
     && negb (String.eqb (RelatedTo field) "") then
    let constraint :=
      "FOREIGN KEY (" ++ quote dbType (Name field) ++ ") REFERENCES "
        ++ quote dbType (RelatedTo field) ++ "(id)" in
    [constraint ++
       (if String.eqb (OnDelete field) "cascade" then " ON DELETE CASCADE"
        else if String.eqb (OnDelete field) "restrict" then " ON DELETE RESTRICT"
        else if String.eqb (OnDelete field) "set_null" then " ON DELETE SET NULL"
        else "")]
  else [].

(** The statement executed by [createTable]. *)
Definition createTableQuery (dbType : DatabaseType) (name : string)
           (model : Model) : string :=
  let columns := map (buildColumnDefinition dbType) (Fields model) in
  let constraints := flat_map (foreignKey dbType) (Fields model) in
  let parts := (columns ++ constraints)%list in
  let nl := String "010"%char EmptyString in
  "CREATE TABLE IF NOT EXISTS " ++ quote dbType name ++ " (" ++ nl ++ "  "
    ++ Join parts ("," ++ nl ++ "  ") ++ nl ++ ")".

(** The statement executed by [createIndexes] for one indexed field. *)
Definition createIndexQuery (dbType : DatabaseType) (modelName : string)
           (field : Field) : string :=
  let indexName := "idx_" ++ modelName ++ "_" ++ Name field in
  "CREATE INDEX IF NOT EXISTS " ++ quote dbType indexName ++ " ON "
    ++ quote dbType modelName ++ " (" ++ quote dbType (Name field) ++ ")".

(** [DB.buildSelectQuery], the compiler of the embedded base type, which
    [SQLiteDB] overrides: the model is looked up first (a nil [db.schema]
    panics there), an unknown model gives the empty statement, and no
    ORDER BY is written when no sort field is given. *)
Definition DB_buildSelectQuery (dbType : DatabaseType) (schema : option Schema)
           (model : string) (params : QueryParams)
  : outcome (string * list value) :=
  match schema with
  | None => Panics nilDereference
  | Some s =>
      match GetModel s model with
      | None => Returns ("", [])
      | Some m =>
          let parts0 := ["SELECT * FROM " ++ quote dbType model] in
          match whereLoop dbType (Filters params) with
          | Panics msg => Panics msg
          | Returns (whereClauses, args0) =>
              let hasFilters := (0 <? List.length (Filters params))%nat in
              let parts1 :=
                if hasFilters
                then append parts0 ("WHERE " ++ Join whereClauses " AND ")
                else parts0 in
              let searchable :=
                if negb (String.eqb (Search params) "")
                then Searchable (UI_List (UI m)) else [] in
              let searchClauses :=
                map (fun field => quote dbType field ++ " LIKE ?") searchable in
              let searchArgs :=
                map (fun _ : string => VString ("%" ++ Search params ++ "%"))
                    searchable in
              let parts2 :=
                if (0 <? List.length searchable)%nat then
                  if hasFilters
                  then append parts1 ("AND (" ++ Join searchClauses " OR " ++ ")")
                  else append parts1 ("WHERE " ++ Join searchClauses " OR ")
                else parts1 in
              let parts3 :=
                if (0 <? List.length (Sorts params))%nat then
                  append parts2 ("ORDER BY "
                               ++ Join (map (orderClause dbType) (Sorts params)) ", ")
                else parts2 in
              let parts4 :=
                if (PageSize params >? 0)%Z then
                  let limit := PageSize params in
                  let offset := wrap64 ((Page params - 1) * PageSize params) in
                  append parts3 ("LIMIT " ++ itoa limit ++ " OFFSET " ++ itoa offset)
                else parts3 in
              Returns (Join parts4 " ", (args0 ++ searchArgs)%list)
          end
      end
  end.

End Formatting.

(** *** The connection and the [SQLiteDB] methods *)

(** [sql.Result]: both accessors can fail. *)
Record Result := {
  LastInsertId : error + Z;
  RowsAffected : error + Z
}.

(** A fetched row as [rows.Columns] and [rows.Scan] deliver it: the column
    names with their values, or the error of either call. *)
Definition RawRow : Type := error + list (string * value).

(** [*sql.Rows]: the rows that [Next] steps through and the error that
    [Err] reports once [Next] has returned false. *)
Record Rows := {
  Rows_next : list RawRow;
  Rows_Err : option error
}.

(** What was handed to the connection, in call order. *)
Inductive Call : Type :=
| CallExec (query : string) (args : list value)
| CallQuery (query : string) (args : list value).

Definition Call_query (c : Call) : string :=
  match c with
  | CallExec q _ => q
  | CallQuery q _ => q
  end.

Section Driver.

(** [fmt.Sprint] of a [float64]. *)
Variable Sprint_float64 : spec_float -> string.

(** [strings.Map(unicode.ToLower, s)]: the lower-casing of a string that
    holds a byte above 127, by the Unicode tables of the library. *)
Variable Map_unicode_ToLower : string -> string.

(** The state of the store behind the connection, and the driver: what a
    statement returns and how it changes the store. *)
Variable Store : Type.
Variable driver_Exec : Store -> string -> list value -> (error + Result) * Store.
Variable driver_Query : Store -> string -> list value -> (error + Rows) * Store.

(** Conversion of a column value by [Scan] into an [*int64]. *)
Variable convert_int64 : value -> error + Z.

(** The order in which the second [range] over [schema.Models] in
    [CreateSchema] visits the entries. *)
Variable second_range : list (string * Model) -> list (string * Model).

(** [SQLiteDB] with the embedded [DB]; [conn] is the connection that
    [Connect] opened, [trace] records the calls made on it. *)
Record SQLiteDB := {
  config : DatabaseConfig;
  dbType : DatabaseType;
  schema : option Schema;
  conn : Store;
  trace : list Call
}.

(** [NewSQLite] followed by [Connect] to [store]. *)
Definition NewSQLite (cfg : DatabaseConfig) (store : Store) : SQLiteDB :=
  {| config := cfg; dbType := DatabaseSQLite; schema := None;
     conn := store; trace := [] |}.

(** Methods with a pointer receiver: state passing over [SQLiteDB]. *)
Definition M (A : Type) : Type := SQLiteDB -> A * SQLiteDB.

Definition ret {A : Type} (a : A) : M A := fun db => (a, db).

Definition bind {A B : Type} (m : M A) (k : A -> M B) : M B :=
  fun db => let (a, db') := m db in k a db'.

Notation "x <- m ;; k" := (bind m (fun x => k))
  (at level 61, m at next level, right associativity).

Definition get_db : M SQLiteDB := fun db => (db, db).

Definition set_schema (s : Schema) : M unit :=
  fun db => (tt, {| config := config db; dbType := dbType db;
                    schema := Some s; conn := conn db; trace := trace db |}).

(** [db.conn.Exec(query, args...)]. *)
Definition conn_Exec (query : string) (args : list value) : M (error + Result) :=
  fun db =>
    let (r, store') := driver_Exec (conn db) query args in
    (r, {| config := config db; dbType := dbType db; schema := schema db;
           conn := store'; trace := append (trace db) (CallExec query args) |}).

(** [db.conn.Query(query, args...)]. *)
Definition conn_Query (query : string) (args : list value) : M (error + Rows) :=
  fun db =>
    let (r, store') := driver_Query (conn db) query args in
    (r, {| config := config db; dbType := dbType db; schema := schema db;
           conn := store'; trace := append (trace db) (CallQuery query args) |}).

Definition createTable (name : string) (model : Model) : M (option error) :=
  db <- get_db ;;
  r <- conn_Exec (createTableQuery Sprint_float64 (dbType db) name model) [] ;;
  ret (match r with inl err => Some err | inr _ => None end).

(** The loop of [createIndexes] over [model.Fields]. *)
Fixpoint createIndexes_fields (modelName : string) (fields : list Field)
  : M (option error) :=
  match fields with
  | [] => ret None
  | field :: rest =>
      if Index field && negb (Primary field) && negb (Unique field) then
        db <- get_db ;;
        r <- conn_Exec (createIndexQuery (dbType db) modelName field) [] ;;
        match r with
        | inl err => ret (Some err)
        | inr _ => createIndexes_fields modelName rest
        end
      else createIndexes_fields modelName rest
  end.

Definition createIndexes (modelName : string) (model : Model) : M (option error) :=
  createIndexes_fields modelName (Fields model).

(** The first loop of [CreateSchema]. *)
Fixpoint CreateSchema_tables (models : list (string * Model)) : M (option error) :=
  match models with
  | [] => ret None
  | (modelName, model) :: rest =>
      r <- createTable modelName model ;;
      match r with
      | Some err =>
          ret (Some (Errorf ("failed to create table " ++ modelName ++ ": "
                               ++ Error err)))
      | None => CreateSchema_tables rest
      end
  end.

(** The second loop of [CreateSchema]. *)
Fixpoint CreateSchema_indexes (models : list (string * Model)) : M (option error) :=
  match models with
  | [] => ret None
  | (modelName, model) :: rest =>
      r <- createIndexes modelName model ;;
      match r with
      | Some err =>
          ret (Some (Errorf ("failed to create indexes for " ++ modelName ++ ": "
                               ++ Error err)))
      | None => CreateSchema_indexes rest
      end
  end.

Definition CreateSchema (s : Schema) : M (option error) :=
  _ <- set_schema s ;;
  r <- CreateSchema_tables (Schema_Models s) ;;
  match r with
  | Some err => ret (Some err)
  | None => CreateSchema_indexes (second_range (Schema_Models s))
  end.

(** [scanRow]: byte slices become strings; a repeated column name
    overwrites the earlier entry. *)
Definition scanRow (raw : RawRow) : error + list (string * value) :=
  match raw with
  | inl err => inl err
  | inr columns =>
      inr (fold_left
             (fun result e =>
                map_set result (fst e)
                  match snd e with
                  | VBytes b => VString b
                  | val => val
                  end)
             columns [])
  end.

(** The [for rows.Next()] loop of [Query]: the first failing scan ends it. *)
Fixpoint scanRows (raws : list RawRow) : error + list (list (string * value)) :=
  match raws with
  | [] => inr []
  | raw :: rest =>
      match scanRow raw with
      | inl err => inl err
      | inr row =>
          match scanRows rest with
          | inl err => inl err
          | inr results => inr (row :: results)
          end
      end
  end.

(** [Query]: the result slice (a nil slice is the empty list) and the
    error. *)
Definition Query (model : string) (params : QueryParams)
  : M (outcome (list (list (string * value)) * option error)) :=
  db <- get_db ;;
  match buildSelectQuery Sprint_float64 (dbType db) (schema db) model params with
  | Panics msg => ret (Panics msg)
  | Returns (query, args) =>
      r <- conn_Query query args ;;
      match r with
      | inl err => ret (Returns ([], Some err))
      | inr rows =>
          match scanRows (Rows_next rows) with
          | inl err => ret (Returns ([], Some err))
          | inr results => ret (Returns (results, Rows_Err rows))
          end
      end
  end.

Definition executeQueryRow (query : string) (args : list value)
  : M (error + list (string * value)) :=
  r <- conn_Query query args ;;
  match r with
  | inl err => ret (inl err)
  | inr rows =>
      match Rows_next rows with
      | [] => ret (inl ErrNoRows)
      | raw :: _ => ret (scanRow raw)
      end
  end.

Definition Get (model : string) (id : value) : M (error + list (string * value)) :=
  db <- get_db ;;
  executeQueryRow ("SELECT * FROM " ++ quote (dbType db) model ++ " WHERE id = ?") [id].

Definition Create (model : string) (data : list (string * value))
  : M (error + value) :=
  db <- get_db ;;
  let (query, args) := buildInsertQuery (dbType db) model data in
  r <- conn_Exec query args ;;
  match r with
  | inl err => ret (inl err)
  | inr result =>
      match LastInsertId result with
      | inl err => ret (inl err)
      | inr lastID => ret (inr (VInt64 lastID))
      end
  end.

Definition Update (model : string) (id : value) (data : list (string * value))
  : M (option error) :=
  db <- get_db ;;
  let (query, args) := buildUpdateQuery (dbType db) model id data in
  r <- conn_Exec query args ;;
  ret (match r with inl err => Some err | inr _ => None end).

Definition Delete (model : string) (id : value) : M (option error) :=
  db <- get_db ;;
  let (query, args) := buildDeleteQuery (dbType db) model id in
  r <- conn_Exec query args ;;
  ret (match r with inl err => Some err | inr _ => None end).

(** [row.Scan(&count)] on the row of [QueryRow]: [count] keeps its zero
    value when the scan fails. *)
Definition scanCount (r : error + Rows) : Z * option error :=
  match r with
  | inl err => (0%Z, Some err)
  | inr rows =>
      match Rows_next rows with
      | [] =>
          (0%Z, Some match Rows_Err rows with
                     | Some err => err
                     | None => ErrNoRows
                     end)
      | inl err :: _ => (0%Z, Some err)
      | inr [(_, v)] :: _ =>
          match convert_int64 v with
          | inl err => (0%Z, Some err)
          | inr n => (n, None)
          end
      | inr _ :: _ =>
          (0%Z, Some (DriverError "sql: expected 1 destination arguments in Scan"))
      end
  end.

Definition Count (model : string) (filters : list Filter)
  : M (outcome (Z * option error)) :=
  db <- get_db ;;
  match buildCountQuery Sprint_float64 Map_unicode_ToLower (dbType db) model
                        filters with
  | Panics msg => ret (Panics msg)
  | Returns (query, args) =>
      r <- conn_Query query args ;;
      ret (Returns (scanCount r))
  end.

End Driver.

End Database.

(** ** Package api: the pure helpers of the request handlers *)

Module Api.

(** [url.Values]: the values given for each query key. *)
Definition Values : Type := list (string * list string).

(** [Values.Get]: the first value of the key, or the empty string. *)
Definition Values_Get (q : Values) (key : string) : string :=
  match map_get q key with
  | Some (v :: _) => v
  | _ => ""
  end.

Definition digit_of (c : ascii) : option Z :=
  let n := nat_of_ascii c in
  if ((48 <=? n) && (n <=? 57))%nat then Some (Z.of_nat n - 48)%Z else None.

Fixpoint parse_digits (s : string) (acc : Z) : option Z :=
  match s with
  | EmptyString => Some acc
  | String c rest =>
      match digit_of c with
      | None => None
      | Some d => parse_digits rest (10 * acc + d)%Z
      end
  end.

(** [strconv.Atoi]: an optional sign and at least one decimal digit, the
    value within the 64-bit [int]; [None] stands for a non-nil error. *)
Definition Atoi (s : string) : option Z :=
  let '(neg, body) :=
    match s with
    | String c rest =>
        if Ascii.eqb c "+"%char then (false, rest)
        else if Ascii.eqb c "-"%char then (true, rest)
        else (false, s)
    | EmptyString => (false, s)
    end in
  match body with
  | EmptyString => None
  | _ =>
      match parse_digits body 0 with
      | None => None
      | Some n =>
          let v := if neg then (- n)%Z else n in
          if ((- 2 ^ 63 <=? v) && (v <=? 2 ^ 63 - 1))%Z then Some v else None
      end
  end.

(** [strings.Split(s, ",")]. *)
Fixpoint Split_comma (s : string) : list string :=
  match s with
  | EmptyString => [EmptyString]
  | String c rest =>
      if Ascii.eqb c ","%char then EmptyString :: Split_comma rest
      else
        match Split_comma rest with
        | head :: tail => String c head :: tail
        | [] => [String c EmptyString]
        end
  end.

(** [strings.TrimPrefix(s, p)]. *)
Definition TrimPrefix (s p : string) : string :=
  if prefix p s then substring (String.length p) (String.length s - String.length p) s
  else s.

(** The body of the loop over the sort fields. *)
Definition parseSortField (field : string) : SortField :=
  if prefix "-" field
  then {| Sort_Field := substring 1 (String.length field - 1) field; Desc := true |}
  else {| Sort_Field := field; Desc := false |}.

(** The loop over [r.URL.Query()] that collects the filters. *)
Fixpoint parseFilters (q : Values) : list Filter :=
  match q with
  | [] => []
  | (key, values) :: rest =>
      match values with
      | v :: _ =>
          if prefix "filter." key
          then {| Filter_Field := TrimPrefix key "filter."; Operator := "=";
                  Value := VString v |} :: parseFilters rest
          else parseFilters rest
      | [] => parseFilters rest
      end
  end.

(** [API.parseQueryParams] on the query of the request. *)
Definition parseQueryParams (q : Values) : QueryParams :=
  let page :=
    if negb (String.eqb (Values_Get q "page") "") then
      match Atoi (Values_Get q "page") with
      | Some p => if (p >? 0)%Z then p else 1%Z
      | None => 1%Z
      end
    else 1%Z in
  let pageSize :=
    if negb (String.eqb (Values_Get q "page_size") "") then
      match Atoi (Values_Get q "page_size") with
      | Some ps => if ((ps >? 0) && (ps <=? 100))%Z then ps else 20%Z
      | None => 20%Z
      end
    else 20%Z in
  let sort :=
    if negb (String.eqb (Values_Get q "sort") "")
    then map parseSortField (Split_comma (Values_Get q "sort"))
    else [] in
  {| Page := page; PageSize := pageSize; Sorts := sort;
     Filters := parseFilters q; Search := Values_Get q "search" |}.

(** The page count that [handleList] reports: the division of two [int]
    truncates and panics on a zero divisor; one page is added for a
    remainder. *)
Definition totalPages (total pageSize : Z) : outcome Z :=
  if (pageSize =? 0)%Z
  then Panics "runtime error: integer divide by zero"
  else
    let pages := wrap64 (Z.quot total pageSize) in
    Returns
      (if (Z.rem total pageSize >? 0)%Z then wrap64 (pages + 1) else pages).

(** The names of the password fields of a model, in field order. *)
Definition passwordFields (model : Model) : list string :=
  map Name (filter (fun field => String.eqb (Type_ field) FieldTypePassword)
                   (Fields model)).

(** The inner loop that tells whether [key] is a password field. *)
Definition isPassword (pwFields : list string) (key : string) : bool :=
  existsb (fun pwField => String.eqb key pwField) pwFields.

(** [API.filterPasswordFieldsSingle]; the entries that are kept are
    listed in the visiting order of [record]. *)
Definition filterPasswordFieldsSingle (schema : Schema) (modelName : string)
           (record : list (string * value)) : list (string * value) :=
  match GetModel schema modelName with
  | None => record
  | Some model =>
      if (List.length (passwordFields model) =? 0)%nat then record
      else filter (fun e => negb (isPassword (passwordFields model) (fst e))) record
  end.

(** [API.filterPasswordFields]. *)
Definition filterPasswordFields (schema : Schema) (modelName : string)
           (records : list (list (string * value))) : list (list (string * value)) :=
  match GetModel schema modelName with
  | None => records
  | Some model =>
      if (List.length (passwordFields model) =? 0)%nat then records
      else map (filter (fun e => negb (isPassword (passwordFields model) (fst e))))
               records
  end.

(** [delete(m, k)]. *)
Fixpoint map_delete {T : Type} (m : list (string * T)) (k : string)
  : list (string * T) :=
  match m with
  | [] => []
  | (k', v) :: rest =>
      if String.eqb k' k then map_delete rest k else (k', v) :: map_delete rest k
  end.

(** The loop of [filterEmptyPasswordFields] over the fields of the model. *)
Fixpoint dropEmptyPasswords (fields : list Field) (data : list (string * value))
  : list (string * value) :=
  match fields with
  | [] => data
  | field :: rest =>
      if String.eqb (Type_ field) FieldTypePassword then
        match map_get data (Name field) with
        | Some VNil => dropEmptyPasswords rest (map_delete data (Name field))
        | Some (VString s) =>
            if String.eqb s ""
            then dropEmptyPasswords rest (map_delete data (Name field))
            else dropEmptyPasswords rest data
        | _ => dropEmptyPasswords rest data
        end
      else dropEmptyPasswords rest data
  end.

(** [API.filterEmptyPasswordFields]. *)
Definition filterEmptyPasswordFields (schema : Schema) (modelName : string)
           (data : list (string * value)) : list (string * value) :=
  match GetModel schema modelName with
  | None => data
  | Some model => dropEmptyPasswords (Fields model) data
  end.

End Api.

Import Validation Database.

Unset Implicit Arguments.

(** * Vocabulary of the properties and sample inputs *)

(** The number of [?] placeholders in a statement text. *)
Fixpoint placeholders (s : string) : nat :=
  match s with
  | EmptyString => 0
  | String c rest =>
      (if Ascii.eqb c "?"%char then 1 else 0) + placeholders rest
  end.

(** An oracle for [fmt.Sprint] on floats, for inputs that hold none. *)
Definition Sprint_no_float : spec_float -> string := fun _ => "".

Definition operator_of (filter : Filter) : string :=
  if String.eqb (Operator filter) "" then "=" else Operator filter.

(** The parameters of a plain listing: filters only. *)
Definition filterOnly (page : Z) (filters : list Filter) : QueryParams :=
  {| Page := page; PageSize := 0; Sorts := []; Filters := filters; Search := "" |}.

Definition bogusFilter : Filter :=
  {| Filter_Field := "age"; Operator := "bogus"; Value := VInt 18 |}.

Definition inFilter (field : string) (values : list value) : Filter :=
  {| Filter_Field := field; Operator := "in"; Value := VSlice values |}.

(** A field record with the given name, type and flags and no other
    setting. *)
Definition plainField (name : string) (t : FieldType)
           (primary required nullable : bool) : Field :=
  {| Name := name; Type_ := t; Primary := primary; Required := required;
     Unique := primary; Min := None; Max := None; Pattern := "";
     Options := []; Default := VNil; AutoNow := false; AutoNowAdd := false;
     Nullable := nullable; Index := false; RelatedTo := ""; OnDelete := "";
     ArrayType := "" |}.

Definition plainModel (name : string) (fields : list Field) : Model :=
  {| Model_Name := name; Fields := fields;
     Model_Permissions := {| P_Create := "authenticated"; P_Read := "all";
                             P_Update := "authenticated";
                             P_Delete := "authenticated" |};
     UI := {| UI_List := {| Columns := []; Sortable := []; Searchable := [] |};
              UI_Form := {| Form_Fields := [] |} |} |}.

(** A regular-expression oracle that matches everything. *)
Definition MatchString_any : string -> string -> option bool :=
  fun _ _ => Some true.

(** The fields that [ValidateCreate] looks at: every field but a primary
    field of type [id]. *)
Definition checkedOnCreate (field : Field) : bool :=
  negb (Primary field && String.eqb (Type_ field) FieldTypeID).

(** No bound and no pattern declared. *)
Definition unconstrained (field : Field) : Prop :=
  Min field = None /\ Max field = None /\ Pattern field = "".

(** A value of the kind that the type of the field asks for: a string for
    the text and temporal types, a number for [number], a boolean for
    [boolean], an address, a URL or a declared option for [email], [url]
    and [enum]; the remaining types accept every non-nil value. *)
Definition well_formed (MatchString : string -> string -> option bool)
           (field : Field) (v : value) : bool :=
  let t := Type_ field in
  match v with
  | VNil => false
  | _ =>
      if one_of t [FieldTypeText; FieldTypePassword; FieldTypeDatetime;
                   FieldTypeDate; FieldTypeTime] then
        match v with VString _ => true | _ => false end
      else if one_of t [FieldTypeNumber] then
        match v with VInt _ | VInt64 _ | VFloat64 _ => true | _ => false end
      else if one_of t [FieldTypeBoolean] then
        match v with VBool _ => true | _ => false end
      else if one_of t [FieldTypeEmail] then
        match v with
        | VString s => matched MatchString emailRegex s
        | _ => false
        end
      else if one_of t [FieldTypeURL] then
        match v with
        | VString s => matched MatchString urlRegex s
        | _ => false
        end
      else if one_of t [FieldTypeEnum] then
        match v with
        | VString s => existsb (String.eqb s) (Options field)
        | _ => false
        end
      else true
  end.

(** A product catalogue keyed by a text field. *)
Definition productModel : Model :=
  plainModel "Product"
    [plainField "sku" FieldTypeText true true false;
     plainField "label" FieldTypeText false false false].

Definition productSchema : Schema :=
  {| Schema_Models := [("Product", productModel)] |}.

(** The model of the concrete scenario of the specification. *)
Definition userModel : Model :=
  plainModel "User"
    [plainField "id" FieldTypeID true true false;
     plainField "name" FieldTypeText false true false;
     plainField "age" FieldTypeNumber false false false].

Definition userSchema : Schema :=
  {| Schema_Models := [("User", userModel)] |}.

(** The error that [ValidateUpdate] raises on a primary-key entry. *)
Definition primaryKeyUpdateError (key : string) : error :=
  ValidationError key "cannot update primary key".

(** The number of fields that a model configuration declares primary. *)
Definition primaryCount (model : ModelConfig) : nat :=
  List.length (filter (fun e => FC_Primary (snd e)) (MC_Fields model)).

(** The message of [err] names [name]. *)
Definition names (err : error) (name : string) : Prop :=
  Contains (Error err) name = true.

Definition plainFieldConfig (t : string) (primary : bool) : FieldConfig :=
  {| FC_Type := t; FC_Primary := primary; FC_Required := false;
     FC_Unique := false; FC_Min := 0; FC_Max := 0; FC_Pattern := "";
     FC_Options := []; FC_Default := VNil; FC_AutoNow := false;
     FC_AutoNowAdd := false; FC_Nullable := false; FC_Index := false;
     FC_To := ""; FC_OnDelete := ""; FC_Items := "" |}.

(** A model without a primary key and one with two. *)
Definition postConfig : ModelConfig :=
  {| MC_Fields := [("title", plainFieldConfig "text" false)];
     MC_UI := None; MC_Permissions := None |}.

Definition pairConfig : ModelConfig :=
  {| MC_Fields := [("left", plainFieldConfig "number" true);
                   ("right", plainFieldConfig "number" true)];
     MC_UI := None; MC_Permissions := None |}.

Definition sqliteConfig (appName : string) (models : list (string * ModelConfig))
  : Config :=
  {| App := {| App_Name := appName; App_Version := "1.0.0";
               App_Description := "" |};
     Database := {| Database_Type := "sqlite"; Database_Path := "./data.db";
                    Database_Connection := "" |};
     Models := models |}.

Definition pairSiteConfig : Config := sqliteConfig "shop" [("Pair", pairConfig)].

(** Statements of the two DDL phases, told apart by how they begin. *)
Definition isCreateTable (c : Call) : bool :=
  prefix "CREATE TABLE " (Call_query c).

Definition isCreateIndex (c : Call) : bool :=
  prefix "CREATE INDEX " (Call_query c).

(** What a pass over indexes adds to the trace: index statements only. *)
Definition indexCalls (calls : list Call) : Prop :=
  Forall (fun c => isCreateIndex c = true /\ isCreateTable c = false) calls.

(** The call that [createTable] makes for an entry of [schema.Models]. *)
Definition tableCall (Sf : spec_float -> string) (dbType : DatabaseType)
           (e : string * Model) : Call :=
  CallExec (createTableQuery Sf dbType (fst e) (snd e)) [].

(** A store that holds no row: every statement succeeds, a mutation
    affects no row, a query returns no row. *)
Definition emptyExec (store : unit) (query : string) (args : list value)
  : (error + Result) * unit :=
  (inr {| LastInsertId := inr 0%Z; RowsAffected := inr 0%Z |}, store).

Definition emptyQuery (store : unit) (query : string) (args : list value)
  : (error + Rows) * unit :=
  (inr {| Rows_next := []; Rows_Err := None |}, store).

Definition emptyDB : SQLiteDB unit :=
  NewSQLite {| Database_Type := "sqlite"; Database_Path := "./data.db";
               Database_Connection := "" |} tt.

(** [Scan] into an [*int64] for the integer values. *)
Definition convertInt64 (v : value) : error + Z :=
  match v with
  | VInt n => inr n
  | VInt64 n => inr n
  | _ => inl (DriverError "sql: Scan error: converting driver.Value to int64")
  end.

(** The WHERE part shared by the COUNT and the SELECT statement. *)
Definition whereText (filters : list Filter) (whereClauses : list string) : string :=
  if (0 <? List.length filters)%nat
  then " WHERE " ++ Join whereClauses " AND "
  else "".

(** The filter of the second concrete scenario of the specification. *)
Definition roleFilter : Filter :=
  {| Filter_Field := "role"; Operator := "="; Value := VString "admin" |}.

(** The model name [USER] with U+00DC for its first letter (the bytes 195
    and 156 in UTF-8, then [SER]), and the same name in small letters,
    with U+00FC (the bytes 195 and 188). *)
Definition capitalUserName : string :=
  String "195"%char (String "156"%char "SER").

Definition smallUserName : string :=
  String "195"%char (String "188"%char "ser").

(** [strings.Map(unicode.ToLower, s)] on text made of ASCII characters
    and of the characters U+0080 to U+00FF: after the lead byte 195 a
    capital letter (U+00C0 to U+00DE other than the sign U+00D7) takes
    the small letter 32 code points further on; an ASCII capital takes
    its small letter; every other byte stays. *)
Fixpoint lowerLatin1 (afterLead : bool) (s : string) : string :=
  match s with
  | EmptyString => EmptyString
  | String c rest =>
      let n := nat_of_ascii c in
      if afterLead then
        String (if (128 <=? n)%nat && (n <=? 158)%nat && negb (n =? 151)%nat
                then ascii_of_nat (n + 32) else c)
               (lowerLatin1 false rest)
      else String (lower_ascii c) (lowerLatin1 (n =? 195)%nat rest)
  end.

Definition Map_ToLower_Latin1 (s : string) : string := lowerLatin1 false s.

(** How SQLite compares two table names: byte by byte, after folding
    the ASCII letters and no other. *)
Definition sameTableSQLite (a b : string) : bool :=
  String.eqb (lower_bytes a) (lower_bytes b).

(** ** Vocabulary of the further properties *)

(** What [validateField] of the parser asks of a field declaration. *)
Definition fieldConfigOk (fc : FieldConfig) : Prop :=
  IsValid (FC_Type fc) = true
  /\ (FC_Type fc = FieldTypeEnum -> FC_Options fc <> [])
  /\ (FC_Type fc = FieldTypeRelation -> FC_To fc <> "")
  /\ (FC_Type fc = FieldTypeArray -> FC_Items fc <> "")
  /\ ~ (FC_Min fc > FC_Max fc /\ FC_Max fc > 0)%Z.

(** What [validateConfig] asks of the application and database settings. *)
Definition settingsOk (config : Config) : Prop :=
  let ty := Database_Type (Database config) in
  App_Name (App config) <> ""
  /\ (ty = "sqlite" \/ ty = "postgresql" \/ ty = "mysql")
  /\ (ty = "sqlite" -> Database_Path (Database config) <> "")
  /\ (ty <> "sqlite" -> Database_Connection (Database config) <> "").

(** The fields of type [id] that the configuration does not declare
    primary. *)
Definition undeclaredIds (model : ModelConfig) : nat :=
  List.length
    (filter (fun e => String.eqb (FC_Type (snd e)) "id" && negb (FC_Primary (snd e)))
            (MC_Fields model)).

(** A blog: a valid configuration with one model. *)
Definition articleConfig : ModelConfig :=
  {| MC_Fields := [("id", plainFieldConfig "id" true);
                   ("title", plainFieldConfig "text" false);
                   ("secret", plainFieldConfig "password" false)];
     MC_UI := None; MC_Permissions := None |}.

Definition blogConfig : Config := sqliteConfig "blog" [("Article", articleConfig)].

(** The [ui] section of a model, when there is one, holds both its
    [list] and its [form] part. *)
Definition uiComplete (mc : ModelConfig) : bool :=
  match MC_UI mc with
  | None => true
  | Some u =>
      match UMC_List u, UMC_Form u with
      | Some _, Some _ => true
      | _, _ => false
      end
  end.

(** What a call returned, when it did. *)
Definition returned {A : Type} (o : outcome A) : option A :=
  match o with
  | Returns a => Some a
  | Panics _ => None
  end.

(** The article model with a [ui] section that gives the list only. *)
Definition listOnlyConfig : ModelConfig :=
  {| MC_Fields := MC_Fields articleConfig;
     MC_UI := Some {| UMC_List := Some {| ULC_Columns := ["title"];
                                          ULC_Sortable := [];
                                          ULC_Searchable := [] |};
                      UMC_Form := None |};
     MC_Permissions := None |}.

(** The types for which [getSQLiteType] looks at the declared [max]. *)
Definition varcharTypes : list FieldType :=
  [FieldTypeText; FieldTypeEmail; FieldTypePassword; FieldTypePhone;
   FieldTypeURL; FieldTypeSlug; FieldTypeEnum; FieldTypeColor;
   FieldTypeMarkdown; FieldTypeJSON; FieldTypeCurrency; FieldTypeIP;
   FieldTypeUUID; FieldTypeDuration].

(** The field gets a [VARCHAR] column: its type is one of [varcharTypes]
    and it declares a [max] below 255. *)
Definition shortText (field : Field) : bool :=
  one_of (Type_ field) varcharTypes
  && match Max field with
     | Some max => (max <? 255)%Z
     | None => false
     end.

(** The types whose values [validateField] checks as strings. *)
Definition stringTypes : list FieldType :=
  [FieldTypeText; FieldTypePassword; FieldTypeEmail; FieldTypeURL;
   FieldTypeEnum; FieldTypeDatetime; FieldTypeDate; FieldTypeTime].

(** The types for which [validateField] has a rule. *)
Definition checkedTypes : list FieldType :=
  FieldTypeNumber :: FieldTypeBoolean :: stringTypes.

Definition is_string (v : value) : bool :=
  match v with VString _ => true | _ => false end.

Definition is_nil (v : value) : bool :=
  match v with VNil => true | _ => false end.

(** The argument that the WHERE loop appends for a filter. *)
Definition filterArg (Sf : spec_float -> string) (filter : Filter) : value :=
  if String.eqb (operator_of filter) "like"
  then VString ("%" ++ Sprint Sf (Value filter) ++ "%")
  else Value filter.

(** The searchable fields that a SELECT statement searches: those of the
    model, when a search term is given and the model is known. *)
Definition searchFields (schema : option Schema) (model : string)
           (params : QueryParams) : list string :=
  if negb (String.eqb (Search params) "") then
    match schema with
    | None => []
    | Some s =>
        match GetModel s model with
        | Some m => Searchable (UI_List (UI m))
        | None => []
        end
    end
  else [].

(** The same request without pagination. *)
Definition unpaged (params : QueryParams) : QueryParams :=
  {| Page := Page params; PageSize := 0; Sorts := Sorts params;
     Filters := Filters params; Search := Search params |}.

(** The SELECT statement for the users whose role is given. *)
Definition roleQuery : string :=
  "SELECT * FROM " ++ dq ++ "User" ++ dq ++ " WHERE " ++ dq ++ "role" ++ dq
    ++ " = ? ORDER BY " ++ dq ++ "id" ++ dq ++ " DESC".

(** The question marks that occur in the keys of a payload. *)
Definition nameMarks (data : list (string * value)) : nat :=
  list_sum (map (fun e => placeholders (fst e)) data).

(** Reading an escaped text back: a doubled single quote stands for one. *)
Fixpoint unescapeSQL (s : string) : string :=
  match s with
  | EmptyString => EmptyString
  | String c rest =>
      if Ascii.eqb c "'"%char then
        match rest with
        | String c' rest' =>
            if Ascii.eqb c' "'"%char then String c (unescapeSQL rest')
            else String c (unescapeSQL rest)
        | EmptyString => String c EmptyString
        end
      else String c (unescapeSQL rest)
  end.

(** The number of single quotes of a text. *)
Fixpoint singleQuotes (s : string) : nat :=
  match s with
  | EmptyString => 0
  | String c rest => (if Ascii.eqb c "'"%char then 1 else 0) + singleQuotes rest
  end.

(** Two field records that agree on what the table synthesis reads. *)
Definition sameColumn (f f' : Field) : Prop :=
  Name f = Name f' /\ Type_ f = Type_ f' /\ Primary f = Primary f'
  /\ Required f = Required f' /\ Unique f = Unique f' /\ Max f = Max f'
  /\ Default f = Default f' /\ RelatedTo f = RelatedTo f'
  /\ OnDelete f = OnDelete f'.

(** A required note that may not be null, and the same field declared
    nullable, indexed and with a pattern. *)
Definition noteField : Field := plainField "note" FieldTypeText false true false.

Definition noteFieldNullable : Field :=
  {| Name := "note"; Type_ := FieldTypeText; Primary := false; Required := true;
     Unique := false; Min := Some 3%Z; Max := None; Pattern := "^[a-z]+$";
     Options := []; Default := VNil; AutoNow := false; AutoNowAdd := false;
     Nullable := true; Index := true; RelatedTo := ""; OnDelete := "";
     ArrayType := "" |}.

(** The calls that [createIndexes] makes for an entry of [schema.Models]
    when every statement succeeds. *)
Definition indexCallsOf (dbType : DatabaseType) (e : string * Model) : list Call :=
  map (fun field => CallExec (createIndexQuery dbType (fst e) field) [])
      (filter (fun field => Index field && negb (Primary field)
                            && negb (Unique field))
              (Fields (snd e))).

(** A driver on which every statement fails. *)
Definition failingExec (store : unit) (query : string) (args : list value)
  : (error + Result) * unit :=
  (inl (DriverError "database is locked"), store).

(** Every statement succeeds on the driver. *)
Definition alwaysSucceeds {Store : Type}
           (driver_Exec : Store -> string -> list value -> (error + Result) * Store)
  : Prop :=
  forall store query args,
    exists result store', driver_Exec store query args = (inr result, store').

(** What [scanRow] stores for a scanned value. *)
Definition scanned (v : value) : value :=
  match v with
  | VBytes b => VString b
  | val => val
  end.

(** The request [?sort=name] for the users whose role is given. *)
Definition sortedRoleParams : QueryParams :=
  {| Page := 1; PageSize := 0;
     Sorts := [{| Sort_Field := "name"; Desc := false |}];
     Filters := [roleFilter]; Search := "" |}.

(** The request for the users whose role is given, without sort fields and
    without pagination. *)
Definition roleParams : QueryParams :=
  {| Page := 1; PageSize := 0; Sorts := []; Filters := [roleFilter]; Search := "" |}.

(** A value that [filterEmptyPasswordFields] takes for an empty password. *)
Definition emptyValue (o : option value) : bool :=
  match o with
  | Some VNil => true
  | Some (VString s) => String.eqb s ""
  | _ => false
  end.

(** The model has a password field of the given name. *)
Definition passwordField (model : Model) (key : string) : Prop :=
  exists field,
    In field (Fields model) /\ Type_ field = FieldTypePassword /\ Name field = key.

(** An account with a password, and its schema. *)
Definition accountModel : Model :=
  plainModel "Account"
    [plainField "id" FieldTypeID true true false;
     plainField "login" FieldTypeText false true false;
     plainField "secret" FieldTypePassword false true false].

Definition accountSchema : Schema :=
  {| Schema_Models := [("Account", accountModel)] |}.

(** * Properties *)

(** ** Strings *)

Lemma append_assoc (a b c : string) : (a ++ b) ++ c = a ++ (b ++ c).
Proof.
  induction a as [|ch a IH]; simpl; [reflexivity | now rewrite IH].
Qed.

Lemma length_append (a b : string) :
  String.length (a ++ b) = String.length a + String.length b.
Proof.
  induction a as [|ch a IH]; simpl; [reflexivity | now rewrite IH].
Qed.

Lemma eqb_neq_false (a b : string) : a <> b -> String.eqb a b = false.
Proof. intro H. now apply String.eqb_neq. Qed.

Lemma append_empty_r (a : string) : a ++ "" = a.
Proof.
  induction a as [|ch a IH]; simpl; [reflexivity | now rewrite IH].
Qed.

Lemma Join_1 (a sep : string) : Join [a] sep = a.
Proof. reflexivity. Qed.

Lemma Join_2 (a b sep : string) : Join [a; b] sep = a ++ sep ++ b.
Proof. reflexivity. Qed.

Lemma Join_3 (a b c sep : string) :
  Join [a; b; c] sep = a ++ sep ++ b ++ sep ++ c.
Proof. reflexivity. Qed.

Lemma placeholders_append (a b : string) :
  placeholders (a ++ b) = placeholders a + placeholders b.
Proof.
  induction a as [|ch a IH]; simpl; [reflexivity | rewrite IH; lia].
Qed.

Lemma placeholders_in_list (A : Type) (l : list A) :
  placeholders (Join (map (fun _ => "?") l) ",") = List.length l.
Proof.
  unfold Join.
  induction l as [|x l IH]; [reflexivity|].
  destruct l as [|y l]; [reflexivity|].
  change (placeholders ("?" ++ "," ++ String.concat "," (map (fun _ : A => "?") (y :: l)))
          = S (List.length (y :: l))).
  rewrite !placeholders_append, IH. reflexivity.
Qed.

(** ** Identifier quoting *)

(** C10: for every string [s] the SQLite quoting function returns the
    double quote, [s] unchanged and the double quote; nothing in [s] is
    escaped, so the result is two bytes longer than [s] whatever [s]
    holds, and the database built by [NewSQLite] quotes in this way. *)
Theorem quote_sqlite_is_plain_concatenation :
  forall s : string,
    quote DatabaseSQLite s = dq ++ s ++ dq
    /\ String.length (quote DatabaseSQLite s) = String.length s + 2
    /\ (forall (Store : Type) (cfg : DatabaseConfig) (store : Store),
          quote (dbType (NewSQLite cfg store)) s = dq ++ s ++ dq).
Proof.
  intro s. unfold quote. simpl. repeat split.
  rewrite length_append. simpl. lia.
Qed.

(** An embedded double quote stays as it is. *)
Example quote_keeps_embedded_quote :
  quote DatabaseSQLite ("a" ++ dq ++ "b") = dq ++ "a" ++ dq ++ "b" ++ dq.
Proof. reflexivity. Qed.

(** ** Operator dispatch *)

Lemma buildWhereClause_default Sf dbType (filter : Filter) :
  Operator filter <> "like" -> Operator filter <> "in" ->
  buildWhereClause Sf dbType filter
  = Returns (quote dbType (Filter_Field filter) ++ " " ++ operator_of filter ++ " ?",
             Value filter).
Proof.
  intros Hlike Hin. unfold buildWhereClause, operator_of.
  destruct (String.eqb_spec (Operator filter) "") as [E|E].
  - reflexivity.
  - rewrite (eqb_neq_false _ _ Hlike), (eqb_neq_false _ _ Hin). reflexivity.
Qed.

(** The only way for the WHERE loop not to return is the type assertion
    of an [in] filter whose value is not a list. *)
Lemma whereLoop_returns Sf dbType (filters : list Filter) :
  (forall f, In f filters -> Operator f = "in" -> exists l, Value f = VSlice l) ->
  exists whereClauses args,
    whereLoop Sf dbType filters = Returns (whereClauses, args).
Proof.
  induction filters as [|f rest IH]; intro Hin.
  - simpl. eauto.
  - cbn [whereLoop].
    destruct IH as (cs & args & ->); [intros g Hg; apply Hin; now right|].
    assert (Hf : exists clause arg,
               buildWhereClause Sf dbType f = Returns (clause, arg)).
    { unfold buildWhereClause.
      destruct (String.eqb (Operator f) "") eqn:He; [cbn; eauto|].
      destruct (String.eqb (Operator f) "like"); [eauto|].
      destruct (String.eqb_spec (Operator f) "in") as [E|E]; [|eauto].
      destruct (Hin f (or_introl eq_refl) E) as (l & ->). eauto. }
    destruct Hf as (clause & arg & ->). eauto.
Qed.

Lemma buildSelectQuery_returns Sf dbType (s : option Schema) (model : string)
      (params : QueryParams) :
  (forall f, In f (Filters params) -> Operator f = "in" ->
             exists l, Value f = VSlice l) ->
  exists query args,
    buildSelectQuery Sf dbType s model params = Returns (query, args).
Proof.
  intro Hin. unfold buildSelectQuery.
  destruct (whereLoop_returns Sf dbType (Filters params) Hin) as (cs & args & ->).
  eauto.
Qed.

(** C1 (as the code has it): a filter whose operator is neither [like] nor
    [in] always compiles; the operator text, or [=] for the empty
    operator, is placed as it is between the quoted field and the
    placeholder, and the SELECT statement carrying the filter is returned
    with the filter value as its only argument.  No operator makes the
    compiler report an error: a statement with any filters is returned
    unless the value of an [in] filter is not a list. *)
Theorem unknown_operator_is_passed_through :
  forall (Sf : spec_float -> string) (dbType : DatabaseType)
         (schema : option Schema) (model : string) (page : Z) (filter : Filter),
    Operator filter <> "like" ->
    Operator filter <> "in" ->
    buildWhereClause Sf dbType filter
    = Returns (quote dbType (Filter_Field filter) ++ " " ++ operator_of filter ++ " ?",
               Value filter)
    /\ buildSelectQuery Sf dbType schema model (filterOnly page [filter])
       = Returns ("SELECT * FROM " ++ quote dbType model ++ " WHERE "
                    ++ quote dbType (Filter_Field filter) ++ " "
                    ++ operator_of filter ++ " ?"
                    ++ " ORDER BY " ++ quote dbType "id" ++ " DESC",
                  [Value filter])
    /\ (forall params : QueryParams,
          In filter (Filters params) ->
          (forall f, In f (Filters params) -> Operator f = "in" ->
                     exists l, Value f = VSlice l) ->
          exists query args,
            buildSelectQuery Sf dbType schema model params
            = Returns (query, args)).
Proof.
  intros Sf dbType schema model page filter Hlike Hin.
  pose proof (buildWhereClause_default Sf dbType filter Hlike Hin) as Hw.
  split; [exact Hw|]. split.
  - unfold buildSelectQuery, filterOnly. cbn [Filters whereLoop].
    rewrite Hw. cbn -[quote String.append].
    unfold Join, append. cbn -[quote String.append].
    rewrite !append_assoc. reflexivity.
  - intros params _ Hlists. now apply buildSelectQuery_returns.
Qed.

(** C1, the claim as stated fails: the operator [bogus] is not empty and
    is none of the operators the data model lists, yet the SELECT
    statement is compiled and returned, with [bogus] in its text. *)
Lemma unknown_operator_not_rejected :
  Operator bogusFilter <> ""
  /\ ~ In (Operator bogusFilter)
          ["="; "like"; "in"; ">"; "<"; ">="; "<="; "!="; "<>"]
  /\ buildWhereClause Sprint_no_float DatabaseSQLite bogusFilter
     = Returns (dq ++ "age" ++ dq ++ " bogus ?", VInt 18)
  /\ buildSelectQuery Sprint_no_float DatabaseSQLite None "User"
                      (filterOnly 1 [bogusFilter])
     = Returns ("SELECT * FROM " ++ dq ++ "User" ++ dq ++ " WHERE " ++ dq
                  ++ "age" ++ dq ++ " bogus ? ORDER BY " ++ dq ++ "id" ++ dq
                  ++ " DESC", [VInt 18]).
Proof.
  repeat split; try discriminate.
  simpl. intros H.
  repeat (destruct H as [H|H]; [discriminate H|]). exact H.
Qed.

(** The operator [bogus] on the model [User]. *)
Lemma unknown_operator_is_passed_through_witness :
  Operator bogusFilter <> "like"
  /\ Operator bogusFilter <> "in"
  /\ buildWhereClause Sprint_no_float DatabaseSQLite bogusFilter
     = Returns (quote DatabaseSQLite (Filter_Field bogusFilter) ++ " "
                  ++ operator_of bogusFilter ++ " ?", Value bogusFilter)
  /\ buildSelectQuery Sprint_no_float DatabaseSQLite None "User"
                      (filterOnly 1 [bogusFilter])
     = Returns ("SELECT * FROM " ++ quote DatabaseSQLite "User" ++ " WHERE "
                  ++ quote DatabaseSQLite (Filter_Field bogusFilter) ++ " "
                  ++ operator_of bogusFilter ++ " ?"
                  ++ " ORDER BY " ++ quote DatabaseSQLite "id" ++ " DESC",
                [Value bogusFilter])
  /\ (forall params : QueryParams,
        In bogusFilter (Filters params) ->
        (forall f, In f (Filters params) -> Operator f = "in" ->
                   exists l, Value f = VSlice l) ->
        exists query args,
          buildSelectQuery Sprint_no_float DatabaseSQLite None "User" params
          = Returns (query, args)).
Proof.
  split; [discriminate|]. split; [discriminate|].
  apply (unknown_operator_is_passed_through Sprint_no_float DatabaseSQLite
           None "User" 1%Z bogusFilter); discriminate.
Defined.

(** ** The [in] operator *)

(** C5 (what the code does): for an [in] filter over a list of [n]
    values the SELECT statement holds [n] placeholders in its IN list,
    and it binds one argument for the filter, the list itself, not one
    argument per element; no value is written into the statement text. *)
Theorem in_filter_binds_the_list_as_one_argument :
  forall (Sf : spec_float -> string) (dbType : DatabaseType)
         (schema : option Schema) (model : string) (page : Z)
         (field : string) (values : list value),
    buildSelectQuery Sf dbType schema model (filterOnly page [inFilter field values])
    = Returns ("SELECT * FROM " ++ quote dbType model ++ " WHERE "
                 ++ quote dbType field ++ " IN ("
                 ++ Join (map (fun _ => "?") values) "," ++ ")"
                 ++ " ORDER BY " ++ quote dbType "id" ++ " DESC",
               [VSlice values])
    /\ placeholders (Join (map (fun _ : value => "?") values) ",")
       = List.length values
    /\ List.length [VSlice values] = 1.
Proof.
  intros Sf dbType schema model page field values.
  split; [|split; [apply placeholders_in_list | reflexivity]].
  unfold buildSelectQuery, filterOnly, inFilter.
  cbn -[quote String.append Join]. unfold append. cbn [app].
  rewrite Join_3. unfold Join at 1. cbn [String.concat].
  rewrite !append_assoc. reflexivity.
Qed.

(** The filter [id in (1, 2, 3)]: three placeholders, one argument. *)
Example in_filter_three_values :
  exists text : string,
    buildSelectQuery Sprint_no_float DatabaseSQLite None "User"
      (filterOnly 1 [inFilter "id" [VInt 1; VInt 2; VInt 3]])
    = Returns (text, [VSlice [VInt 1; VInt 2; VInt 3]])
    /\ text = "SELECT * FROM " ++ dq ++ "User" ++ dq ++ " WHERE " ++ dq ++ "id"
                ++ dq ++ " IN (?,?,?) ORDER BY " ++ dq ++ "id" ++ dq ++ " DESC"
    /\ placeholders text = 3.
Proof.
  eexists. split; [reflexivity|]. split; reflexivity.
Qed.

(** ** Nil values *)


(** ** Validation on create *)

Lemma ValidateCreate_fields_fails_iff
      (ms : string -> string -> option bool) (data : list (string * value))
      (fields : list Field) :
  ValidateCreate_fields ms fields data <> None
  <-> exists field,
        In field fields /\ checkedOnCreate field = true
        /\ ((Required field = true /\ map_get data (Name field) = None)
            \/ exists v, map_get data (Name field) = Some v
                         /\ validateField ms field v <> None).
Proof.
  induction fields as [|f rest IH].
  - simpl. split; [congruence | intros (x & [] & _)].
  - cbn [ValidateCreate_fields]. unfold checkedOnCreate in *.
    destruct (Primary f && String.eqb (Type_ f) FieldTypeID) eqn:Hskip.
    + rewrite IH. split.
      * intros (x & Hin & Hx). exists x. split; [now right | exact Hx].
      * intros (x & [<- | Hin] & Hc & Hx).
        -- rewrite Hskip in Hc. discriminate Hc.
        -- exists x. auto.
    + destruct (map_get data (Name f)) as [v|] eqn:Hget.
      * destruct (validateField ms f v) as [err|] eqn:Hv.
        -- split; [|congruence]. intros _. exists f.
           rewrite Hskip. repeat split; [now left|].
           right. exists v. split; [exact Hget | congruence].
        -- rewrite IH. split.
           ++ intros (x & Hin & Hx). exists x. split; [now right | exact Hx].
           ++ intros (x & [<- | Hin] & Hc & Hx).
              ** destruct Hx as [[_ Habs] | (v' & Hv' & Hfail)].
                 --- congruence.
                 --- rewrite Hget in Hv'. injection Hv' as <-. congruence.
              ** exists x. auto.
      * destruct (Required f) eqn:Hreq.
        -- split; [|unfold invalid; congruence]. intros _. exists f.
           rewrite Hskip. repeat split; [now left|]. left. auto.
        -- rewrite IH. split.
           ++ intros (x & Hin & Hx). exists x. split; [now right | exact Hx].
           ++ intros (x & [<- | Hin] & Hc & Hx).
              ** destruct Hx as [[Hr _] | (v' & Hv' & _)]; congruence.
              ** exists x. auto.
Qed.

Ltac eqb_cases t :=
  repeat match goal with
  | |- context [String.eqb t ?c] =>
      let E := fresh "E" in
      destruct (String.eqb_spec t c) as [E|E]; [rewrite E in *|]; cbn in *
  | H : context [String.eqb t ?c] |- _ =>
      let E := fresh "E" in
      destruct (String.eqb_spec t c) as [E|E]; [rewrite E in *|]; cbn in *
  end.

Lemma well_formed_accepted (ms : string -> string -> option bool)
      (field : Field) (v : value) :
  unconstrained field -> well_formed ms field v = true ->
  validateField ms field v = None.
Proof.
  intros (Hmin & Hmax & Hpat).
  unfold well_formed, validateField, validateByType, validateText,
    validateNumber, validateBoolean, validateEmail, validateURL,
    validateEnum, validateDatetime, as_float64, or_else, one_of.
  rewrite Hmin, Hmax, Hpat.
  generalize (Type_ field) as t. intros t Hwf.
  destruct v; try discriminate Hwf; cbn [existsb orb] in *.
  all: eqb_cases t.
  all: try discriminate Hwf; try reflexivity.
  all: rewrite ?Hwf; try reflexivity.
Qed.

(** C3 (as the code has it): for a model of the schema, [ValidateCreate]
    fails exactly when some field other than a primary field of type [id]
    is required and absent from the payload, or is present with a value
    that [validateField] rejects; a present value of the kind its type
    asks for, on a field that declares no bound and no pattern, is never
    rejected. *)
Theorem validateCreate_fails_iff_checked_field_fails :
  forall (MatchString : string -> string -> option bool) (schema : Schema)
         (modelName : string) (model : Model) (data : list (string * value)),
    GetModel schema modelName = Some model ->
    (ValidateCreate MatchString schema modelName data <> None
     <-> exists field,
           In field (Fields model) /\ checkedOnCreate field = true
           /\ ((Required field = true /\ map_get data (Name field) = None)
               \/ exists v, map_get data (Name field) = Some v
                            /\ validateField MatchString field v <> None))
    /\ (forall (field : Field) (v : value),
          unconstrained field -> well_formed MatchString field v = true ->
          validateField MatchString field v = None).
Proof.
  intros ms schema modelName model data Hm. split.
  - unfold ValidateCreate. rewrite Hm. apply ValidateCreate_fields_fails_iff.
  - intros field v. apply well_formed_accepted.
Qed.

(** The user model with the payload [{age: 200}]. *)
Lemma validateCreate_fails_iff_checked_field_fails_witness :
  GetModel userSchema "User" = Some userModel
  /\ (ValidateCreate MatchString_any userSchema "User" [("age", VInt 200)] <> None
      <-> exists field,
            In field (Fields userModel) /\ checkedOnCreate field = true
            /\ ((Required field = true
                 /\ map_get [("age", VInt 200)] (Name field) = None)
                \/ exists v, map_get [("age", VInt 200)] (Name field) = Some v
                             /\ validateField MatchString_any field v <> None))
  /\ (forall (field : Field) (v : value),
        unconstrained field -> well_formed MatchString_any field v = true ->
        validateField MatchString_any field v = None).
Proof.
  split; [reflexivity|].
  apply (validateCreate_fails_iff_checked_field_fails MatchString_any
           userSchema "User" userModel [("age", VInt 200)]).
  reflexivity.
Defined.

(** C3, the claim as stated fails: [sku] is a required primary field of
    type [text]; with an empty payload [ValidateCreate] fails on it,
    although no required field that is not primary is absent and no field
    is present at all. *)
Lemma validateCreate_rejects_absent_primary_text_field :
  GetModel productSchema "Product" = Some productModel
  /\ ValidateCreate MatchString_any productSchema "Product" []
     = Some (ValidationError "sku" "field is required")
  /\ ~ (exists field,
          In field (Fields productModel)
          /\ ((Required field = true /\ Primary field = false
               /\ map_get (@nil (string * value)) (Name field) = None)
              \/ exists v, map_get (@nil (string * value)) (Name field) = Some v
                           /\ validateField MatchString_any field v <> None)).
Proof.
  repeat split.
  intros (field & Hin & [(Hr & Hp & _) | (v & Hv & _)]).
  - simpl in Hin. destruct Hin as [<- | [<- | []]]; discriminate.
  - discriminate Hv.
Qed.

(** ** Validation on update *)

Lemma ValidateUpdate_entries_app (ms : string -> string -> option bool)
      (model : Model) (pre rest : list (string * value)) :
  ValidateUpdate_entries ms model (pre ++ rest)%list
  = match ValidateUpdate_entries ms model pre with
    | Some err => Some err
    | None => ValidateUpdate_entries ms model rest
    end.
Proof.
  induction pre as [|[k v] pre IH]; [reflexivity|].
  cbn [app ValidateUpdate_entries].
  destruct (getField model k) as [f|]; [|reflexivity].
  destruct (Primary f); [reflexivity|].
  destruct (validateField ms f v); [reflexivity | exact IH].
Qed.

(** The first entry that fails is the one whose error the loop returns. *)
Lemma ValidateUpdate_entries_first_failure
      (ms : string -> string -> option bool) (model : Model)
      (data : list (string * value)) (err : error) :
  ValidateUpdate_entries ms model data = Some err ->
  exists before k0 v0 after,
    data = (before ++ (k0, v0) :: after)%list
    /\ ValidateUpdate_entries ms model before = None
    /\ ValidateUpdate_entries ms model [(k0, v0)] = Some err.
Proof.
  induction data as [|[k v] rest IH]; [discriminate|].
  intro Herr.
  destruct (ValidateUpdate_entries ms model [(k, v)]) as [e|] eqn:Hhead.
  - exists [], k, v, rest. split; [reflexivity|]. split; [reflexivity|].
    rewrite <- Herr.
    change ((k, v) :: rest) with ([(k, v)] ++ rest)%list.
    now rewrite ValidateUpdate_entries_app, Hhead.
  - change ((k, v) :: rest) with ([(k, v)] ++ rest)%list in Herr.
    rewrite ValidateUpdate_entries_app, Hhead in Herr.
    destruct (IH Herr) as (before & k0 & v0 & after & -> & Hbefore & Hentry).
    exists ((k, v) :: before), k0, v0, after. split; [reflexivity|].
    split; [|exact Hentry].
    change ((k, v) :: before) with ([(k, v)] ++ before)%list.
    now rewrite ValidateUpdate_entries_app, Hhead.
Qed.

(** C4 (as the code has it): an update payload that holds the key of a
    primary field always fails validation; the error is the
    primary-key-update error for that key whenever the entries that the
    loop visits before it all pass, in particular when the key is visited
    first or is the only key.  Otherwise, that is, when the entries
    visited before the key do not all pass, the loop stops at the first
    of them that fails and returns the error of that entry. *)
Theorem validateUpdate_with_primary_key_fails :
  forall (MatchString : string -> string -> option bool) (schema : Schema)
         (modelName : string) (model : Model) (data : list (string * value))
         (key : string) (v : value) (field : Field),
    GetModel schema modelName = Some model ->
    In (key, v) data ->
    getField model key = Some field ->
    Primary field = true ->
    (exists err, ValidateUpdate MatchString schema modelName data = Some err)
    /\ (forall pre post,
          data = (pre ++ (key, v) :: post)%list ->
          ValidateUpdate_entries MatchString model pre = None ->
          ValidateUpdate MatchString schema modelName data
          = Some (primaryKeyUpdateError key))
    /\ (forall post,
          data = (key, v) :: post ->
          ValidateUpdate MatchString schema modelName data
          = Some (primaryKeyUpdateError key))
    /\ (forall pre post err,
          data = (pre ++ (key, v) :: post)%list ->
          ValidateUpdate_entries MatchString model pre = Some err ->
          ValidateUpdate MatchString schema modelName data = Some err
          /\ exists before k0 v0 between,
               pre = (before ++ (k0, v0) :: between)%list
               /\ ValidateUpdate_entries MatchString model before = None
               /\ ValidateUpdate_entries MatchString model [(k0, v0)] = Some err)
    /\ (forall before k0 v0 after err,
          data = (before ++ (k0, v0) :: after)%list ->
          ValidateUpdate_entries MatchString model before = None ->
          ValidateUpdate_entries MatchString model [(k0, v0)] = Some err ->
          ValidateUpdate MatchString schema modelName data = Some err).
Proof.
  intros ms schema modelName model data key v field Hm Hin Hf Hp.
  unfold ValidateUpdate. rewrite Hm.
  assert (Hhere : forall post,
             ValidateUpdate_entries ms model ((key, v) :: post)
             = Some (primaryKeyUpdateError key)).
  { intro post. cbn [ValidateUpdate_entries]. rewrite Hf, Hp. reflexivity. }
  split; [|split; [|split; [|split]]].
  - destruct (in_split _ _ Hin) as (pre & post & ->).
    rewrite ValidateUpdate_entries_app, Hhere.
    destruct (ValidateUpdate_entries ms model pre) as [err|]; eauto.
  - intros pre post -> Hpre.
    rewrite ValidateUpdate_entries_app, Hpre. apply Hhere.
  - intros post ->. apply Hhere.
  - intros pre post err -> Hpre. split.
    + now rewrite ValidateUpdate_entries_app, Hpre.
    + exact (ValidateUpdate_entries_first_failure ms model pre err Hpre).
  - intros before k0 v0 after err -> Hbefore Hentry.
    rewrite ValidateUpdate_entries_app, Hbefore.
    change ((k0, v0) :: after) with ([(k0, v0)] ++ after)%list.
    now rewrite ValidateUpdate_entries_app, Hentry.
Qed.

(** Three updates of a user that hold the primary key [id]: alone, after
    a name that passes, and after a name that fails. *)
Lemma validateUpdate_with_primary_key_fails_witness :
  GetModel userSchema "User" = Some userModel
  /\ In ("id", VInt 99) [("id", VInt 99)]
  /\ In ("id", VInt 99) [("name", VString "Ann"); ("id", VInt 99)]
  /\ In ("id", VInt 99) [("name", VInt 5); ("id", VInt 99)]
  /\ getField userModel "id" = Some (plainField "id" FieldTypeID true true false)
  /\ Primary (plainField "id" FieldTypeID true true false) = true
  /\ ValidateUpdate MatchString_any userSchema "User" [("id", VInt 99)]
     = Some (primaryKeyUpdateError "id")
  /\ ValidateUpdate MatchString_any userSchema "User"
       [("name", VString "Ann"); ("id", VInt 99)]
     = Some (primaryKeyUpdateError "id")
  /\ ValidateUpdate MatchString_any userSchema "User"
       [("name", VInt 5); ("id", VInt 99)]
     = Some (ValidationError "name" "must be a string").
Proof.
  split; [reflexivity|]. split; [simpl; tauto|]. split; [simpl; tauto|].
  split; [simpl; tauto|]. split; [reflexivity|]. split; [reflexivity|].
  split; [|split].
  - destruct (validateUpdate_with_primary_key_fails MatchString_any userSchema
                "User" userModel [("id", VInt 99)] "id" (VInt 99)
                (plainField "id" FieldTypeID true true false))
      as (_ & _ & Hfirst & _);
      [reflexivity | simpl; tauto | reflexivity | reflexivity |].
    exact (Hfirst [] eq_refl).
  - destruct (validateUpdate_with_primary_key_fails MatchString_any userSchema
                "User" userModel [("name", VString "Ann"); ("id", VInt 99)]
                "id" (VInt 99) (plainField "id" FieldTypeID true true false))
      as (_ & Hpass & _);
      [reflexivity | simpl; tauto | reflexivity | reflexivity |].
    exact (Hpass [("name", VString "Ann")] [] eq_refl eq_refl).
  - destruct (validateUpdate_with_primary_key_fails MatchString_any userSchema
                "User" userModel [("name", VInt 5); ("id", VInt 99)]
                "id" (VInt 99) (plainField "id" FieldTypeID true true false))
      as (_ & _ & _ & Hfail & _);
      [reflexivity | simpl; tauto | reflexivity | reflexivity |].
    exact (proj1 (Hfail [("name", VInt 5)] []
                        (ValidationError "name" "must be a string")
                        eq_refl eq_refl)).
Defined.

(** C4, the claim as stated fails: the payload holds the primary key [id],
    the loop visits [name] first, and the error returned is the one of
    [name], not the primary-key-update error. *)
Lemma validateUpdate_reports_earlier_entry :
  GetModel userSchema "User" = Some userModel
  /\ getField userModel "id" = Some (plainField "id" FieldTypeID true true false)
  /\ In ("id", VInt 99) [("name", VInt 5); ("id", VInt 99)]
  /\ ValidateUpdate MatchString_any userSchema "User"
       [("name", VInt 5); ("id", VInt 99)]
     = Some (ValidationError "name" "must be a string")
  /\ ValidateUpdate MatchString_any userSchema "User"
       [("name", VInt 5); ("id", VInt 99)]
     <> Some (primaryKeyUpdateError "id").
Proof.
  repeat split; try discriminate. simpl. right. left. reflexivity.
Qed.

(** ** Schema construction *)

Lemma prefix_append (s b : string) : prefix s (s ++ b) = true.
Proof.
  induction s as [|c s IH]; simpl; [destruct b; reflexivity|].
  destruct (ascii_dec c c) as [_|N]; [exact IH | now elim N].
Qed.

Lemma Contains_unfold (e s : string) :
  Contains e s
  = prefix s e || match e with
                  | EmptyString => false
                  | String _ rest => Contains rest s
                  end.
Proof. destruct e; reflexivity. Qed.

Lemma Contains_here (s b : string) : Contains (s ++ b) s = true.
Proof. rewrite Contains_unfold, prefix_append. reflexivity. Qed.

Lemma Contains_skip (a e s : string) :
  Contains e s = true -> Contains (a ++ e) s = true.
Proof.
  intro H. induction a as [|c a IH]; [exact H|].
  simpl String.append. rewrite Contains_unfold, IH. apply orb_true_r.
Qed.

Lemma Contains_cons (c : ascii) (e s : string) :
  Contains e s = true -> Contains (String c e) s = true.
Proof. intro H. rewrite Contains_unfold, H. apply orb_true_r. Qed.

Ltac names_it :=
  unfold names; cbn [Error];
  repeat (first [apply Contains_here | apply Contains_cons | apply Contains_skip]).

Lemma validateField_error_names (modelName fieldName : string)
      (field : FieldConfig) (err : error) :
  Parser.validateField modelName fieldName field = Some err ->
  names err modelName.
Proof.
  unfold Parser.validateField.
  repeat match goal with
  | |- context [if ?c then _ else _] => destruct c
  end; intros [= <-]; names_it.
Qed.

Lemma validateModel_fields_error_names (name : string)
      (fields : list (string * FieldConfig)) :
  forall (hasPrimary : bool) (err : error),
    validateModel_fields name fields hasPrimary = inl err -> names err name.
Proof.
  induction fields as [|[fieldName field] rest IH]; intros hp err; simpl.
  - discriminate.
  - destruct (FC_Primary field && hp).
    + intros [= <-]. names_it.
    + destruct (Parser.validateField name fieldName field) as [e|] eqn:Hv.
      * intros [= <-].
        eapply validateField_error_names; eassumption.
      * apply IH.
Qed.

(** When the loop runs to its end, at most one field is primary, and
    [hasPrimary] tells whether one is. *)
Lemma validateModel_fields_counts (name : string)
      (fields : list (string * FieldConfig)) :
  forall (hasPrimary result : bool),
    validateModel_fields name fields hasPrimary = inr result ->
    let n := List.length (filter (fun e => FC_Primary (snd e)) fields) in
    if hasPrimary then n = 0 /\ result = true
    else (n = 0 /\ result = false) \/ (n = 1 /\ result = true).
Proof.
  induction fields as [|[fieldName field] rest IH]; intros hp result; simpl.
  - intro H. inversion H; subst. destruct result; auto.
  - destruct (FC_Primary field) eqn:Hp; destruct hp; simpl;
      try discriminate;
      destruct (Parser.validateField name fieldName field);
      try discriminate; intro H; apply IH in H; simpl in H.
    + destruct H as [-> ->]. auto.
    + exact H.
    + exact H.
Qed.

Lemma validateModel_error_names (name : string) (model : ModelConfig)
      (err : error) :
  validateModel name model = Some err -> names err name.
Proof.
  unfold validateModel.
  destruct (List.length (MC_Fields model) =? 0)%nat.
  - intros [= <-]. names_it.
  - destruct (validateModel_fields name (MC_Fields model) false) as [e|b] eqn:Hf.
    + intros [= <-].
      eapply validateModel_fields_error_names; eassumption.
    + destruct (negb b); [|discriminate].
      intros [= <-]. names_it.
Qed.

Lemma validateModel_rejects (name : string) (model : ModelConfig) :
  primaryCount model <> 1 ->
  exists err, validateModel name model = Some err /\ names err name.
Proof.
  intro Hc.
  destruct (validateModel name model) as [err|] eqn:Hv.
  - exists err. split; [reflexivity|].
    eapply validateModel_error_names; eassumption.
  - exfalso. unfold validateModel in Hv.
    destruct (List.length (MC_Fields model) =? 0)%nat; [discriminate|].
    destruct (validateModel_fields name (MC_Fields model) false) as [e|b] eqn:Hf;
      [discriminate|].
    apply validateModel_fields_counts in Hf. cbn zeta in Hf.
    destruct Hf as [[_ ->] | [Hn _]]; [discriminate Hv|].
    apply Hc. exact Hn.
Qed.

Lemma validateConfig_models_rejects (models : list (string * ModelConfig))
      (name : string) (model : ModelConfig) :
  In (name, model) models -> primaryCount model <> 1 ->
  exists err pre n m post,
    models = (pre ++ (n, m) :: post)%list
    /\ validateConfig_models pre = None
    /\ validateModel n m = Some err
    /\ validateConfig_models models = Some err.
Proof.
  intros Hin Hc. induction models as [|[n0 m0] rest IH]; [destruct Hin|].
  destruct (validateModel n0 m0) as [e|] eqn:Hv.
  - exists e, [], n0, m0, rest. simpl. rewrite Hv. auto.
  - destruct Hin as [Heq | Hin].
    + inversion Heq; subst.
      destruct (validateModel_rejects name model Hc) as (e & He & _). congruence.
    + destruct (IH Hin) as (err & pre & n & m & post & -> & Hpre & Hnm & Hall).
      exists err, ((n0, m0) :: pre)%list, n, m, post.
      simpl. rewrite Hv. auto.
Qed.

Lemma validateConfig_models_app (pre rest : list (string * ModelConfig)) :
  validateConfig_models (pre ++ rest)%list
  = match validateConfig_models pre with
    | Some err => Some err
    | None => validateConfig_models rest
    end.
Proof.
  induction pre as [|[n m] pre IH]; [reflexivity|].
  simpl. destruct (validateModel n m); [reflexivity | exact IH].
Qed.

Lemma names_wrapped (err : error) (name : string) :
  names err name ->
  names (Errorf ("invalid configuration: " ++ Error err)) name.
Proof.
  unfold names. cbn [Error]. intro H.
  exact (Contains_skip "invalid configuration: " (Error err) name H).
Qed.

(** C7 (as the code has it): a model that declares no primary field, or
    two or more, is rejected by [validateModel] with an error that names
    it, and a configuration holding such a model never yields a
    configuration or a schema: [ParseConfig] returns an error and
    [LoadConfig] is not reached.  The error returned is the first one
    found: that of a check on the application or database settings, or
    that of the first model that fails validation, which it names; it
    names the offending model itself when the settings pass and every
    model visited before it passes. *)
Theorem primary_key_violation_fails_construction :
  forall (config : Config) (name : string) (model : ModelConfig),
    In (name, model) (Models config) ->
    primaryCount model <> 1 ->
    (exists err, validateModel name model = Some err /\ names err name)
    /\ (exists err,
          validateConfig config = Some err
          /\ ParseConfig config
             = inl (Errorf ("invalid configuration: " ++ Error err))
          /\ ParseAndLoad config
             = Returns (inl (Errorf ("invalid configuration: " ++ Error err)))
          /\ (validateConfig_header config = Some err
              \/ exists pre n m post,
                   Models config = (pre ++ (n, m) :: post)%list
                   /\ validateConfig_models pre = None
                   /\ validateModel n m = Some err
                   /\ names (Errorf ("invalid configuration: " ++ Error err)) n))
    /\ (forall pre post,
          validateConfig_header config = None ->
          Models config = (pre ++ (name, model) :: post)%list ->
          validateConfig_models pre = None ->
          exists err, ParseConfig config = inl err /\ names err name).
Proof.
  intros config name model Hin Hc.
  destruct (validateModel_rejects name model Hc) as (e0 & He0 & Hn0).
  split; [eauto|]. split.
  - unfold ParseAndLoad, ParseConfig, validateConfig.
    destruct (validateConfig_header config) as [eh|] eqn:Hh.
    + exists eh. auto.
    + destruct (validateConfig_models_rejects _ _ _ Hin Hc)
        as (err & pre & n & m & post & Hsplit & Hpre & Hnm & Hall).
      exists err. rewrite Hall. repeat split.
      right. exists pre, n, m, post. repeat split; auto.
      apply names_wrapped. eapply validateModel_error_names; eassumption.
  - intros pre post Hh Hsplit Hpre.
    unfold ParseConfig, validateConfig. rewrite Hh, Hsplit.
    rewrite validateConfig_models_app, Hpre. simpl. rewrite He0.
    eexists. split; [reflexivity|].
    apply names_wrapped. exact Hn0.
Qed.

(** A configuration whose only model declares two primary fields. *)
Lemma primary_key_violation_fails_construction_witness :
  In ("Pair", pairConfig) (Models pairSiteConfig)
  /\ primaryCount pairConfig <> 1
  /\ (exists err, validateModel "Pair" pairConfig = Some err /\ names err "Pair")
  /\ (exists err,
        validateConfig pairSiteConfig = Some err
        /\ ParseConfig pairSiteConfig
           = inl (Errorf ("invalid configuration: " ++ Error err))
        /\ ParseAndLoad pairSiteConfig
           = Returns (inl (Errorf ("invalid configuration: " ++ Error err)))
        /\ (validateConfig_header pairSiteConfig = Some err
            \/ exists pre n m post,
                 Models pairSiteConfig = (pre ++ (n, m) :: post)%list
                 /\ validateConfig_models pre = None
                 /\ validateModel n m = Some err
                 /\ names (Errorf ("invalid configuration: " ++ Error err)) n))
  /\ (forall pre post,
        validateConfig_header pairSiteConfig = None ->
        Models pairSiteConfig = (pre ++ ("Pair", pairConfig) :: post)%list ->
        validateConfig_models pre = None ->
        exists err, ParseConfig pairSiteConfig = inl err /\ names err "Pair").
Proof.
  split; [simpl; left; reflexivity|]. split; [discriminate|].
  apply (primary_key_violation_fails_construction pairSiteConfig "Pair" pairConfig);
    [simpl; left; reflexivity | discriminate].
Defined.

(** C7, the claim as stated fails: the model [Post] declares no primary
    field and construction fails, but the error is the one about the
    empty application name and does not name [Post]. *)
Lemma construction_error_may_not_name_the_model :
  In ("Post", postConfig) (Models (sqliteConfig "" [("Post", postConfig)]))
  /\ primaryCount postConfig = 0
  /\ ParseAndLoad (sqliteConfig "" [("Post", postConfig)])
     = Returns (inl (Errorf "invalid configuration: app.name is required"))
  /\ Contains (Error (Errorf "invalid configuration: app.name is required"))
              "Post" = false.
Proof.
  repeat split. simpl. left. reflexivity.
Qed.

(** ** The persistence engine *)

Section Engine.

Variable Sf : spec_float -> string.
Variable Store : Type.
Variable driver_Exec : Store -> string -> list value -> (error + Result) * Store.
Variable driver_Query : Store -> string -> list value -> (error + Rows) * Store.
Variable second_range : list (string * Model) -> list (string * Model).
Variable lower : string -> string.

Lemma conn_Exec_spec (query : string) (args : list value) (db : SQLiteDB Store) :
  let (r, db') := conn_Exec driver_Exec query args db in
  r = fst (driver_Exec (conn db) query args)
  /\ trace db' = append (trace db) (CallExec query args)
  /\ dbType db' = dbType db.
Proof.
  unfold conn_Exec. destruct (driver_Exec (conn db) query args) as [r store'].
  simpl. auto.
Qed.

Lemma createTable_spec (name : string) (model : Model) (db : SQLiteDB Store) :
  let (r, db') := createTable Sf driver_Exec name model db in
  trace db' = append (trace db) (tableCall Sf (dbType db) (name, model))
  /\ dbType db' = dbType db.
Proof.
  unfold createTable, bind, get_db, ret, tableCall. cbn [fst snd].
  pose proof (conn_Exec_spec (createTableQuery Sf (dbType db) name model) [] db) as H.
  destruct (conn_Exec driver_Exec (createTableQuery Sf (dbType db) name model) [] db)
    as [r db'].
  destruct H as (_ & Ht & Hd). auto.
Qed.

Lemma CreateSchema_tables_spec (models : list (string * Model)) :
  forall db : SQLiteDB Store,
    let (r, db') := CreateSchema_tables Sf driver_Exec models db in
    exists k,
      trace db'
      = (trace db ++ map (tableCall Sf (dbType db)) (firstn k models))%list
      /\ dbType db' = dbType db
      /\ (r = None -> k = List.length models).
Proof.
  induction models as [|[name model] rest IH]; intro db.
  - simpl. exists 0. simpl. rewrite app_nil_r. auto.
  - cbn [CreateSchema_tables]. unfold bind at 1.
    pose proof (createTable_spec name model db) as H1.
    destruct (createTable Sf driver_Exec name model db) as [r1 db1].
    destruct H1 as (Ht1 & Hd1).
    destruct r1 as [err|].
    + unfold ret. exists 1. cbn [firstn map]. repeat split; auto.
      discriminate.
    + specialize (IH db1).
      destruct (CreateSchema_tables Sf driver_Exec rest db1) as [r db'].
      destruct IH as (k & Ht & Hd & Hk).
      exists (S k). cbn [firstn map List.length].
      rewrite Ht, Ht1, Hd1. unfold append. rewrite <- app_assoc.
      repeat split; auto; congruence.
Qed.

Lemma createIndexQuery_is_index (dbType : DatabaseType) (modelName : string)
      (field : Field) :
  isCreateIndex (CallExec (createIndexQuery dbType modelName field) []) = true
  /\ isCreateTable (CallExec (createIndexQuery dbType modelName field) []) = false.
Proof. split; reflexivity. Qed.

Lemma tableCall_is_table (dbType : DatabaseType) (e : string * Model) :
  isCreateTable (tableCall Sf dbType e) = true
  /\ isCreateIndex (tableCall Sf dbType e) = false.
Proof. split; reflexivity. Qed.

Lemma createIndexes_fields_spec (modelName : string) (fields : list Field) :
  forall db : SQLiteDB Store,
    let (r, db') := createIndexes_fields driver_Exec modelName fields db in
    exists calls,
      trace db' = (trace db ++ calls)%list
      /\ indexCalls calls
      /\ dbType db' = dbType db.
Proof.
  induction fields as [|field rest IH]; intro db.
  - simpl. exists []. rewrite app_nil_r. repeat split. constructor.
  - cbn [createIndexes_fields].
    destruct (Index field && negb (Primary field) && negb (Unique field)).
    + unfold bind, get_db.
      pose proof (conn_Exec_spec (createIndexQuery (dbType db) modelName field) [] db) as H1.
      destruct (conn_Exec driver_Exec (createIndexQuery (dbType db) modelName field) [] db)
        as [r1 db1].
      destruct H1 as (_ & Ht1 & Hd1).
      destruct r1 as [err|res].
      * unfold ret. exists [CallExec (createIndexQuery (dbType db) modelName field) []].
        repeat split; auto.
        constructor; [apply createIndexQuery_is_index | constructor].
      * specialize (IH db1).
        destruct (createIndexes_fields driver_Exec modelName rest db1) as [r db'].
        destruct IH as (calls & Ht & Hc & Hd).
        exists (CallExec (createIndexQuery (dbType db) modelName field) [] :: calls).
        rewrite Ht, Ht1. unfold append. rewrite <- app_assoc.
        split; [reflexivity|]. split; [|congruence].
        constructor; [apply createIndexQuery_is_index | exact Hc].
    + apply IH.
Qed.

Lemma CreateSchema_indexes_spec (models : list (string * Model)) :
  forall db : SQLiteDB Store,
    let (r, db') := CreateSchema_indexes driver_Exec models db in
    exists calls,
      trace db' = (trace db ++ calls)%list
      /\ indexCalls calls
      /\ dbType db' = dbType db.
Proof.
  induction models as [|[name model] rest IH]; intro db.
  - simpl. exists []. rewrite app_nil_r. repeat split. constructor.
  - cbn [CreateSchema_indexes]. unfold bind at 1. unfold createIndexes.
    pose proof (createIndexes_fields_spec name (Fields model) db) as H1.
    destruct (createIndexes_fields driver_Exec name (Fields model) db) as [r1 db1].
    destruct H1 as (calls1 & Ht1 & Hc1 & Hd1).
    destruct r1 as [err|].
    + unfold ret. exists calls1. auto.
    + specialize (IH db1).
      destruct (CreateSchema_indexes driver_Exec rest db1) as [r db'].
      destruct IH as (calls & Ht & Hc & Hd).
      exists (calls1 ++ calls)%list.
      rewrite Ht, Ht1, <- app_assoc.
      split; [reflexivity|]. split; [|congruence].
      apply Forall_app. auto.
Qed.

(** C8: whatever the schema, the store and the outcome of each statement,
    the calls that [CreateSchema] makes are first CREATE TABLE statements,
    one per model in visiting order, and then CREATE INDEX statements
    only; no CREATE TABLE follows a CREATE INDEX, and as soon as one
    CREATE INDEX has been issued (or the call has succeeded) the CREATE
    TABLE of every model of the schema has been issued before it. *)
Theorem CreateSchema_tables_before_indexes :
  forall (s : Schema) (db : SQLiteDB Store),
    let (r, db') := CreateSchema Sf driver_Exec second_range s db in
    exists (k : nat) (calls : list Call),
      trace db'
      = (trace db
           ++ map (tableCall Sf (dbType db)) (firstn k (Schema_Models s))
           ++ calls)%list
      /\ Forall (fun c => isCreateTable c = true /\ isCreateIndex c = false)
                (map (tableCall Sf (dbType db)) (firstn k (Schema_Models s)))
      /\ Forall (fun c => isCreateIndex c = true /\ isCreateTable c = false) calls
      /\ (calls <> [] -> k = List.length (Schema_Models s))
      /\ (r = None -> k = List.length (Schema_Models s)).
Proof.
  intros s db. unfold CreateSchema, bind, set_schema.
  set (db0 := {| config := config db; dbType := dbType db; schema := Some s;
                 conn := conn db; trace := trace db |}).
  pose proof (CreateSchema_tables_spec (Schema_Models s) db0) as H1.
  destruct (CreateSchema_tables Sf driver_Exec (Schema_Models s) db0) as [r1 db1].
  destruct H1 as (k & Ht1 & Hd1 & Hk).
  change (dbType db0) with (dbType db) in *. change (trace db0) with (trace db) in *.
  assert (Htab : Forall (fun c => isCreateTable c = true /\ isCreateIndex c = false)
                        (map (tableCall Sf (dbType db)) (firstn k (Schema_Models s)))).
  { apply Forall_forall. intros c Hc. apply in_map_iff in Hc.
    destruct Hc as (e & <- & _). apply tableCall_is_table. }
  destruct r1 as [err|].
  - unfold ret. exists k, []. rewrite app_nil_r.
    split; [exact Ht1|]. split; [exact Htab|]. split; [constructor|].
    split; [congruence | discriminate].
  - pose proof (CreateSchema_indexes_spec (second_range (Schema_Models s)) db1) as H2.
    destruct (CreateSchema_indexes driver_Exec (second_range (Schema_Models s)) db1)
      as [r db'].
    destruct H2 as (calls & Ht & Hc & Hd).
    exists k, calls. rewrite Ht, Ht1, <- app_assoc.
    split; [reflexivity|]. split; [exact Htab|]. split; [exact Hc|].
    split; intros _; apply Hk; reflexivity.
Qed.

(** ** Mutations and reads by id *)

(** C9: [Update] and [Delete] return exactly the error of the one [Exec]
    call they make, so they return nil whenever the driver reports
    success, whatever the affected-row count (zero included); [Get]
    returns the no-rows error when its query yields no row. *)
Theorem update_delete_ignore_affected_rows :
  forall (db : SQLiteDB Store) (model : string) (id : value)
         (data : list (string * value)),
    (forall (result : Result) (store' : Store),
        driver_Exec (conn db) (fst (buildUpdateQuery (dbType db) model id data))
                    (snd (buildUpdateQuery (dbType db) model id data))
        = (inr result, store') ->
        fst (Update driver_Exec model id data db) = None)
    /\ (forall (result : Result) (store' : Store),
          driver_Exec (conn db) (fst (buildDeleteQuery (dbType db) model id))
                      (snd (buildDeleteQuery (dbType db) model id))
          = (inr result, store') ->
          fst (Delete driver_Exec model id db) = None)
    /\ (forall (rows : Rows) (store' : Store),
          driver_Query (conn db)
                       ("SELECT * FROM " ++ quote (dbType db) model ++ " WHERE id = ?")
                       [id]
          = (inr rows, store') ->
          Rows_next rows = [] ->
          fst (Get driver_Query model id db) = inl ErrNoRows).
Proof.
  intros db model id data. repeat split.
  - intros result store' H.
    unfold Update, bind, get_db, ret, conn_Exec.
    destruct (buildUpdateQuery (dbType db) model id data) as [q args].
    cbn [fst snd] in *. rewrite H. reflexivity.
  - intros result store' H.
    unfold Delete, bind, get_db, ret, conn_Exec.
    destruct (buildDeleteQuery (dbType db) model id) as [q args].
    cbn [fst snd] in *. rewrite H. reflexivity.
  - intros rows store' H Hnone.
    unfold Get, executeQueryRow, bind, get_db, ret, conn_Query.
    rewrite H, Hnone. reflexivity.
Qed.

(** ** COUNT and SELECT *)

(** The two compilers produce the same WHERE text and the same arguments;
    the COUNT statement reads from the lower-cased model name, the SELECT
    statement from the model name as given. *)
Lemma count_and_select_share_where (dbType : DatabaseType)
      (s : option Schema) (model : string) (filters : list Filter) (page : Z) :
  match whereLoop Sf dbType filters with
  | Panics msg =>
      buildCountQuery Sf lower dbType model filters = Panics msg
      /\ buildSelectQuery Sf dbType s model (filterOnly page filters) = Panics msg
  | Returns (whereClauses, args) =>
      buildCountQuery Sf lower dbType model filters
      = Returns ("SELECT COUNT(*) FROM " ++ quote dbType (ToLower lower model)
                   ++ whereText filters whereClauses, args)
      /\ buildSelectQuery Sf dbType s model (filterOnly page filters)
         = Returns ("SELECT * FROM " ++ quote dbType model
                      ++ whereText filters whereClauses
                      ++ " ORDER BY " ++ quote dbType "id" ++ " DESC", args)
  end.
Proof.
  unfold buildCountQuery, buildSelectQuery, filterOnly, whereText.
  cbn [Filters Search Sorts PageSize Page].
  destruct (whereLoop Sf dbType filters) as [[whereClauses args]|msg];
    [|split; reflexivity].
  cbn -[quote String.append Join Nat.ltb]. rewrite app_nil_r.
  destruct (0 <? List.length filters)%nat; unfold append;
    cbn -[quote String.append Join].
  - rewrite Join_2, Join_3, !append_assoc. split; reflexivity.
  - rewrite Join_1, Join_2, !append_assoc, append_empty_r. split; reflexivity.
Qed.

End Engine.

(** On a store without rows, updating, deleting and reading user 7. *)
Lemma update_delete_ignore_affected_rows_witness :
  emptyExec (conn emptyDB)
            (fst (buildUpdateQuery (dbType emptyDB) "User" (VInt 7)
                                   [("name", VString "Ann")]))
            (snd (buildUpdateQuery (dbType emptyDB) "User" (VInt 7)
                                   [("name", VString "Ann")]))
  = (inr {| LastInsertId := inr 0%Z; RowsAffected := inr 0%Z |}, tt)
  /\ fst (Update emptyExec "User" (VInt 7) [("name", VString "Ann")] emptyDB) = None
  /\ fst (Delete emptyExec "User" (VInt 7) emptyDB) = None
  /\ fst (Get emptyQuery "User" (VInt 7) emptyDB) = inl ErrNoRows.
Proof.
  split; [reflexivity|].
  destruct (update_delete_ignore_affected_rows unit emptyExec emptyQuery
              emptyDB "User" (VInt 7) [("name", VString "Ann")])
    as (Hupdate & Hdelete & Hget).
  split; [|split].
  - apply (Hupdate {| LastInsertId := inr 0%Z; RowsAffected := inr 0%Z |} tt).
    reflexivity.
  - apply (Hdelete {| LastInsertId := inr 0%Z; RowsAffected := inr 0%Z |} tt).
    reflexivity.
  - apply (Hget {| Rows_next := []; Rows_Err := None |} tt); reflexivity.
Defined.

Lemma lower_ascii_idempotent (c : ascii) :
  lower_ascii (lower_ascii c) = lower_ascii c.
Proof.
  destruct c as [[] [] [] [] [] [] [] []]; reflexivity.
Qed.

Lemma lower_bytes_idempotent (s : string) :
  lower_bytes (lower_bytes s) = lower_bytes s.
Proof.
  induction s as [|c s IH]; [reflexivity|].
  cbn [lower_bytes]. now rewrite lower_ascii_idempotent, IH.
Qed.

(** The lower-cased form of an ASCII name is the same table to SQLite. *)
Lemma ascii_name_same_table (lower : string -> string) (model : string) :
  isASCII model = true -> sameTableSQLite (ToLower lower model) model = true.
Proof.
  intro Hascii. unfold sameTableSQLite, ToLower. rewrite Hascii.
  apply String.eqb_eq.
  destruct (hasUpper model); [apply lower_bytes_idempotent | reflexivity].
Qed.

(** C2, at a model whose name holds a capital letter that is not ASCII,
    with the filter [role = admin]: the table is created and selected
    under the name as given, while [Count] sends its statement over the
    lower-cased name; the WHERE text and the bound argument are the same.
    SQLite folds only ASCII letters when it compares table names, so the
    lower-cased name is another table to it; for an ASCII name, whatever
    its letter case, the two names are the same table. *)
Theorem count_reads_another_table_than_select :
  ToLower Map_ToLower_Latin1 capitalUserName = smallUserName
  /\ trace (snd (createTable Sprint_no_float emptyExec capitalUserName userModel
                             emptyDB))
     = [CallExec (createTableQuery Sprint_no_float DatabaseSQLite
                                   capitalUserName userModel) []]
  /\ prefix ("CREATE TABLE IF NOT EXISTS " ++ dq ++ capitalUserName ++ dq ++ " ")
            (createTableQuery Sprint_no_float DatabaseSQLite capitalUserName
                              userModel)
     = true
  /\ trace (snd (Query Sprint_no_float emptyQuery capitalUserName
                       (filterOnly 1 [roleFilter]) emptyDB))
     = [CallQuery ("SELECT * FROM " ++ dq ++ capitalUserName ++ dq ++ " WHERE "
                     ++ dq ++ "role" ++ dq ++ " = ? ORDER BY " ++ dq ++ "id"
                     ++ dq ++ " DESC") [VString "admin"]]
  /\ trace (snd (Count Sprint_no_float Map_ToLower_Latin1 emptyQuery
                       convertInt64 capitalUserName [roleFilter] emptyDB))
     = [CallQuery ("SELECT COUNT(*) FROM " ++ dq ++ smallUserName ++ dq
                     ++ " WHERE " ++ dq ++ "role" ++ dq ++ " = ?")
                  [VString "admin"]]
  /\ sameTableSQLite smallUserName capitalUserName = false
  /\ (forall (lower : string -> string) (model : string),
        isASCII model = true ->
        sameTableSQLite (ToLower lower model) model = true).
Proof.
  split; [reflexivity|]. split; [reflexivity|]. split; [reflexivity|].
  split; [reflexivity|]. split; [reflexivity|]. split; [reflexivity|].
  exact ascii_name_same_table.
Qed.

(** * Further properties of the modelled code *)

(** ** Configuration validation *)

Lemma parser_validateField_ok_iff (modelName fieldName : string)
      (fc : FieldConfig) :
  Parser.validateField modelName fieldName fc = None <-> fieldConfigOk fc.
Proof.
  unfold Parser.validateField, fieldConfigOk, FieldTypeEnum, FieldTypeRelation,
    FieldTypeArray.
  destruct (IsValid (FC_Type fc)); cbn [negb];
    [|split; [discriminate | intros (Q & _); discriminate Q]].
  destruct (String.eqb_spec (FC_Type fc) "enum");
    destruct (String.eqb_spec (FC_Type fc) "relation");
    destruct (String.eqb_spec (FC_Type fc) "array");
    destruct (FC_Options fc) eqn:Ho;
    destruct (String.eqb_spec (FC_To fc) "");
    destruct (String.eqb_spec (FC_Items fc) "");
    destruct (Z.gtb_spec (FC_Min fc) (FC_Max fc));
    destruct (Z.gtb_spec (FC_Max fc) 0);
    cbn [andb List.length Nat.eqb];
    try congruence;
    (split; [intros Hgoal; try discriminate Hgoal
            | intros (_ & Q1 & Q2 & Q3 & Q4)]);
    try (exfalso; first [now apply Q1 | now apply Q2 | now apply Q3
                        | apply Q4; lia]);
    try reflexivity;
    repeat split; try discriminate; try congruence; try lia.
Qed.

Lemma validateModel_fields_all_ok (name : string)
      (fields : list (string * FieldConfig)) :
  forall (hasPrimary result : bool),
    validateModel_fields name fields hasPrimary = inr result ->
    Forall (fun e => fieldConfigOk (snd e)) fields.
Proof.
  induction fields as [|[fieldName field] rest IH]; intros hp result; simpl.
  - constructor.
  - destruct (FC_Primary field && hp); [discriminate|].
    destruct (Parser.validateField name fieldName field) eqn:Hv; [discriminate|].
    intro H. constructor; [|eapply IH; exact H].
    simpl. eapply parser_validateField_ok_iff. exact Hv.
Qed.

Lemma validateModel_fields_accepts (name : string)
      (fields : list (string * FieldConfig)) :
  forall hasPrimary : bool,
    Forall (fun e => fieldConfigOk (snd e)) fields ->
    List.length (filter (fun e => FC_Primary (snd e)) fields)
      + (if hasPrimary then 1 else 0) <= 1 ->
    validateModel_fields name fields hasPrimary
    = inr (hasPrimary
           || (0 <? List.length (filter (fun e => FC_Primary (snd e)) fields))%nat).
Proof.
  induction fields as [|[fieldName field] rest IH]; intros hp Hok Hc; simpl.
  - now rewrite orb_false_r.
  - inversion Hok as [|e l Hf Hrest]; subst. simpl in Hf.
    apply (parser_validateField_ok_iff name fieldName) in Hf.
    simpl in Hc. destruct (FC_Primary field) eqn:Hp; simpl in *.
    + destruct hp; [lia|]. simpl. rewrite Hf.
      rewrite IH; [reflexivity | assumption | lia].
    + rewrite Hf, orb_false_r. now apply IH.
Qed.

Lemma validateModel_accepts_iff (name : string) (model : ModelConfig) :
  validateModel name model = None
  <-> MC_Fields model <> []
      /\ primaryCount model = 1
      /\ Forall (fun e => fieldConfigOk (snd e)) (MC_Fields model).
Proof.
  unfold validateModel, primaryCount. split.
  - destruct (MC_Fields model) as [|e l] eqn:Hf; [discriminate|].
    cbn [List.length Nat.eqb]. rewrite <- Hf.
    destruct (validateModel_fields name (MC_Fields model) false) as [err|b] eqn:Hv;
      [discriminate|].
    pose proof (validateModel_fields_counts _ _ _ _ Hv) as Hc. cbn zeta in Hc.
    pose proof (validateModel_fields_all_ok _ _ _ _ Hv) as Hok.
    destruct b; [|discriminate]. intros _.
    destruct Hc as [[_ Hb] | [Hn _]]; [discriminate Hb|].
    repeat split; [rewrite Hf; discriminate | exact Hn | exact Hok].
  - intros (Hne & Hc & Hok).
    destruct (MC_Fields model) as [|e l] eqn:Hf; [now elim Hne|].
    cbn [List.length Nat.eqb]. rewrite <- Hf in *.
    rewrite (validateModel_fields_accepts name (MC_Fields model) false Hok);
      [|lia].
    rewrite Hc. reflexivity.
Qed.

Lemma validateConfig_header_ok_iff (config : Config) :
  validateConfig_header config = None <-> settingsOk config.
Proof.
  unfold validateConfig_header, settingsOk. cbn zeta.
  destruct (String.eqb_spec (App_Name (App config)) "");
    destruct (String.eqb_spec (Database_Type (Database config)) "sqlite");
    destruct (String.eqb_spec (Database_Type (Database config)) "postgresql");
    destruct (String.eqb_spec (Database_Type (Database config)) "mysql");
    destruct (String.eqb_spec (Database_Path (Database config)) "");
    destruct (String.eqb_spec (Database_Connection (Database config)) "");
    cbn [negb andb]; try congruence;
    (split; [intros Hgoal; try discriminate Hgoal
            | intros (Q1 & Q2 & Q3 & Q4)]);
    try (exfalso; first [now apply Q1 | now apply Q3 | now apply Q4
                        | destruct Q2 as [Q2 | [Q2 | Q2]]; congruence]);
    try reflexivity;
    repeat split; auto; try congruence.
Qed.

Lemma validateConfig_models_accepts_iff (models : list (string * ModelConfig)) :
  validateConfig_models models = None
  <-> forall n m, In (n, m) models -> validateModel n m = None.
Proof.
  induction models as [|[n0 m0] rest IH]; simpl.
  - split; [intros _ n m [] | reflexivity].
  - destruct (validateModel n0 m0) eqn:Hv.
    + split; [discriminate|]. intro H.
      specialize (H n0 m0 (or_introl eq_refl)). congruence.
    + rewrite IH. split.
      * intros H n m [E|Hin]; [inversion E; subst; exact Hv | now apply H].
      * intros H n m Hin. apply H. now right.
Qed.

(** X1: [validateConfig] accepts a configuration exactly when the
    application has a name, the database type is one of sqlite, postgresql
    and mysql with its path or connection string set, and every model has
    at least one field, exactly one field declared primary, and only
    fields of a known type with the settings their type needs (options
    for [enum], a target for [relation], an item type for [array]) and
    with [min] not above a positive [max]. *)
Theorem validateConfig_accepts_iff :
  forall config : Config,
    validateConfig config = None
    <-> settingsOk config
        /\ forall (name : string) (model : ModelConfig),
             In (name, model) (Models config) ->
             MC_Fields model <> []
             /\ primaryCount model = 1
             /\ forall (fieldName : string) (field : FieldConfig),
                  In (fieldName, field) (MC_Fields model) -> fieldConfigOk field.
Proof.
  intro config. unfold validateConfig.
  rewrite <- validateConfig_header_ok_iff.
  destruct (validateConfig_header config) as [err|].
  - split; [discriminate | intros [H _]; discriminate H].
  - rewrite validateConfig_models_accepts_iff. split.
    + intro H. split; [reflexivity|]. intros name model Hin.
      apply H, validateModel_accepts_iff in Hin.
      destruct Hin as (Hne & Hc & Hok).
      split; [exact Hne|]. split; [exact Hc|].
      intros fieldName field Hf.
      rewrite Forall_forall in Hok. exact (Hok _ Hf).
    + intros [_ H] n m Hin. apply validateModel_accepts_iff.
      destruct (H n m Hin) as (Hne & Hc & Hok).
      split; [exact Hne|]. split; [exact Hc|].
      apply Forall_forall. intros [fn fc] Hf. exact (Hok fn fc Hf).
Qed.

(** ** Post-processing and schema construction *)

Lemma processField_Primary (field : FieldConfig) :
  FC_Primary (processField field)
  = FC_Primary field || String.eqb (FC_Type field) "id".
Proof.
  unfold processField.
  destruct (String.eqb (FC_Type field) "id") eqn:Hid;
    destruct (FC_Primary field) eqn:Hp; cbn [negb andb orb];
    destruct ((String.eqb (FC_Type field) "datetime"
               || String.eqb (FC_Type field) "date"
               || String.eqb (FC_Type field) "time")
              && (FC_AutoNow field || FC_AutoNowAdd field));
    cbn; rewrite ?Hp; reflexivity.
Qed.

Lemma processField_Type (field : FieldConfig) :
  FC_Type (processField field) = FC_Type field.
Proof.
  unfold processField.
  destruct (String.eqb (FC_Type field) "id" && negb (FC_Primary field));
    destruct ((String.eqb (FC_Type field) "datetime"
               || String.eqb (FC_Type field) "date"
               || String.eqb (FC_Type field) "time")
              && (FC_AutoNow field || FC_AutoNowAdd field));
    destruct (FC_Primary field); reflexivity.
Qed.

Lemma processField_bounds (field : FieldConfig) :
  FC_Min (processField field) = FC_Min field
  /\ FC_Max (processField field) = FC_Max field.
Proof.
  unfold processField.
  destruct (String.eqb (FC_Type field) "id" && negb (FC_Primary field));
    destruct ((String.eqb (FC_Type field) "datetime"
               || String.eqb (FC_Type field) "date"
               || String.eqb (FC_Type field) "time")
              && (FC_AutoNow field || FC_AutoNowAdd field));
    destruct (FC_Primary field); split; reflexivity.
Qed.

(** X2: post-processing keeps the field names and their order, and makes
    every field of type [id] primary without looking at the other
    fields: the processed model has as many primary fields as the
    configuration declares plus one for each [id] field that it does not
    declare primary. *)
Theorem processModel_primary_count :
  forall model : ModelConfig,
    map fst (MC_Fields (processModel model)) = map fst (MC_Fields model)
    /\ primaryCount (processModel model)
       = primaryCount model + undeclaredIds model.
Proof.
  intro model. unfold processModel, primaryCount, undeclaredIds.
  cbn [MC_Fields]. split.
  - rewrite map_map. reflexivity.
  - induction (MC_Fields model) as [|[n f] rest IH]; [reflexivity|].
    cbn [map filter fst snd]. rewrite processField_Primary.
    destruct (FC_Primary f); destruct (String.eqb (FC_Type f) "id");
      cbn [orb andb negb List.length]; rewrite IH; lia.
Qed.

Lemma processField_flags (field : FieldConfig) :
  FC_Primary field = true ->
  FC_Required (processField field) = true /\ FC_Unique (processField field) = true.
Proof.
  intro Hp. unfold processField. rewrite Hp.
  destruct (String.eqb (FC_Type field) "id" && negb true);
    destruct ((String.eqb (FC_Type field) "datetime"
               || String.eqb (FC_Type field) "date"
               || String.eqb (FC_Type field) "time")
              && (FC_AutoNow field || FC_AutoNowAdd field));
    split; reflexivity.
Qed.

Lemma processField_Options (field : FieldConfig) :
  FC_Options (processField field) = FC_Options field.
Proof.
  unfold processField.
  destruct (String.eqb (FC_Type field) "id" && negb (FC_Primary field));
    destruct ((String.eqb (FC_Type field) "datetime"
               || String.eqb (FC_Type field) "date"
               || String.eqb (FC_Type field) "time")
              && (FC_AutoNow field || FC_AutoNowAdd field));
    destruct (FC_Primary field); reflexivity.
Qed.

Lemma loadModel_Returns (name : string) (mc : ModelConfig) (model : Model) :
  loadModel name mc = Returns model ->
  Model_Name model = name
  /\ Fields model = map (fun e => loadField (fst e) (snd e)) (MC_Fields mc)
  /\ loadUI (MC_UI mc) = Returns (UI model).
Proof.
  unfold loadModel. destruct (loadUI (MC_UI mc)) as [ui|msg]; [|discriminate].
  intros [= <-]. auto.
Qed.

Lemma loadModel_complete (name : string) (mc : ModelConfig) :
  if uiComplete mc
  then exists model, loadModel name mc = Returns model
  else loadModel name mc = Panics nilDereference.
Proof.
  unfold uiComplete, loadModel, loadUI.
  destruct (MC_UI mc) as [[[list|] [form|]]|]; cbn; eauto.
Qed.

Lemma loadModels_In (l : list (string * ModelConfig)) :
  forall (ms : list (string * Model)) (name : string) (model : Model),
    loadModels l = Returns ms ->
    In (name, model) ms ->
    exists mc, In (name, mc) l /\ loadModel name mc = Returns model.
Proof.
  induction l as [|[n mc] rest IH]; intros ms name model; cbn [loadModels].
  - intros [= <-] [].
  - destruct (loadModel n mc) as [m|msg] eqn:Hm; [|discriminate].
    destruct (loadModels rest) as [loaded|msg]; [|discriminate].
    intros [= <-] [[= <- <-]|Hin].
    + exists mc. split; [now left | exact Hm].
    + destruct (IH loaded name model eq_refl Hin) as (mc' & Hin' & Hm').
      exists mc'. split; [now right | exact Hm'].
Qed.

Lemma ParseAndLoad_inr (config : Config) (schema : Schema) :
  ParseAndLoad config = Returns (inr schema) ->
  validateConfig config = None
  /\ loadModels (map (fun e => (fst e, processModel (snd e))) (Models config))
     = Returns (Schema_Models schema).
Proof.
  unfold ParseAndLoad, ParseConfig, LoadConfig.
  destruct (validateConfig config); [discriminate|].
  unfold processConfig. cbn [Models].
  destruct (loadModels _) as [ms|msg]; [|discriminate].
  intros [= <-]. split; reflexivity.
Qed.

Lemma filter_nonempty_exists (A : Type) (p : A -> bool) (l : list A) :
  List.length (filter p l) = 1 -> exists x, In x l /\ p x = true.
Proof.
  intro H. destruct (filter p l) as [|x rest] eqn:Hf; [discriminate H|].
  exists x. apply filter_In. rewrite Hf. now left.
Qed.

(** X3: in every schema that [ParseConfig] and [LoadConfig] build, each
    model carries its map key as name and has at least one field and at
    least one primary field; every field has a known type, is primary
    when its type is [id], is required and unique when it is primary and
    not of type [id], keeps only positive bounds with [min] not above
    [max] when both are kept, and has options when its type is [enum]. *)
Theorem loaded_schema_invariants :
  forall (config : Config) (schema : Schema) (name : string) (model : Model),
    ParseAndLoad config = Returns (inr schema) ->
    In (name, model) (Schema_Models schema) ->
    Model_Name model = name
    /\ Fields model <> []
    /\ (exists field, In field (Fields model) /\ Primary field = true)
    /\ forall field,
         In field (Fields model) ->
         IsValid (Type_ field) = true
         /\ (Type_ field = FieldTypeID -> Primary field = true)
         /\ (Primary field = true ->
             Type_ field = FieldTypeID
             \/ (Required field = true /\ Unique field = true))
         /\ (forall a, Min field = Some a -> (0 < a)%Z)
         /\ (forall b, Max field = Some b -> (0 < b)%Z)
         /\ (forall a b, Min field = Some a -> Max field = Some b -> (a <= b)%Z)
         /\ (Type_ field = FieldTypeEnum -> Options field <> []).
Proof.
  intros config schema name model Hload Hin.
  apply ParseAndLoad_inr in Hload. destruct Hload as [Hvalid Hmodels].
  destruct (loadModels_In _ _ _ _ Hmodels Hin) as (pmc & Hpmc & Hmodel).
  apply in_map_iff in Hpmc.
  destruct Hpmc as ([n mc] & Heq & Hmc). cbn [fst snd] in Heq.
  injection Heq as <- <-.
  apply loadModel_Returns in Hmodel. destruct Hmodel as (Hname & Hfs & _).
  assert (Hm : MC_Fields mc <> []
               /\ primaryCount mc = 1
               /\ forall fieldName field,
                    In (fieldName, field) (MC_Fields mc) -> fieldConfigOk field).
  { unfold validateConfig in Hvalid.
    destruct (validateConfig_header config); [discriminate|].
    rewrite validateConfig_models_accepts_iff in Hvalid.
    pose proof (Hvalid n mc Hmc) as Hv. apply validateModel_accepts_iff in Hv.
    destruct Hv as (Hne & Hc & Hok). split; [exact Hne|]. split; [exact Hc|].
    intros fieldName field Hf. rewrite Forall_forall in Hok. exact (Hok _ Hf). }
  destruct Hm as (Hne & Hcount & Hfields).
  rewrite Hfs. cbn [processModel MC_Fields].
  rewrite map_map. cbn [fst snd].
  split; [exact Hname|]. split; [|split].
  - destruct (MC_Fields mc); [now elim Hne | discriminate].
  - apply filter_nonempty_exists in Hcount. destruct Hcount as ([fn fc] & Hf & Hp).
    exists (loadField fn (processField fc)). split.
    + apply in_map_iff. exists (fn, fc). auto.
    + cbn [loadField Primary]. rewrite processField_Primary.
      cbn [snd] in Hp. rewrite Hp. reflexivity.
  - intros field Hf. apply in_map_iff in Hf.
    destruct Hf as ([fn fc] & <- & Hf). cbn [fst snd].
    destruct (Hfields fn fc Hf) as (Hty & Henum & _ & _ & Hmm).
    destruct (processField_bounds fc) as [Hmin Hmax].
    cbn [loadField Type_ Primary Required Unique Min Max Options].
    rewrite processField_Type, processField_Primary, processField_Options,
      Hmin, Hmax.
    split; [exact Hty|]. split; [|split; [|split; [|split; [|split]]]].
    + intros ->. apply orb_true_r.
    + intro Hp. destruct (FC_Primary fc) eqn:Hfp.
      * right. now apply processField_flags.
      * left. cbn [orb] in Hp. now apply String.eqb_eq.
    + intros a. destruct (Z.gtb_spec (FC_Min fc) 0); [|discriminate].
      intros [= <-]. assumption.
    + intros b. destruct (Z.gtb_spec (FC_Max fc) 0); [|discriminate].
      intros [= <-]. assumption.
    + intros a b.
      destruct (Z.gtb_spec (FC_Min fc) 0); [|discriminate].
      destruct (Z.gtb_spec (FC_Max fc) 0); [|discriminate].
      intros [= <-] [= <-].
      destruct (Z.le_gt_cases (FC_Min fc) (FC_Max fc)) as [Hle|Hgt]; [exact Hle|].
      exfalso. apply Hmm. lia.
    + exact Henum.
Qed.

(** The blog configuration and its article model. *)
Lemma loaded_schema_invariants_witness :
  exists (schema : Schema) (model : Model),
    ParseAndLoad blogConfig = Returns (inr schema)
    /\ In ("Article", model) (Schema_Models schema)
    /\ Model_Name model = "Article"
    /\ Fields model <> [].
Proof.
  eexists. eexists.
  assert (Hload : ParseAndLoad blogConfig
                  = Returns (inr {| Schema_Models := [("Article", _)] |}))
    by reflexivity.
  split; [exact Hload|]. split; [left; reflexivity|].
  destruct (loaded_schema_invariants blogConfig _ "Article" _ Hload
              (or_introl eq_refl))
    as (Hname & Hfields & _).
  split; [exact Hname | exact Hfields].
Defined.

Lemma In_firstn_In (A : Type) (n : nat) (l : list A) (x : A) :
  In x (firstn n l) -> In x l.
Proof.
  revert l. induction n as [|n IH]; intros [|y l]; simpl; auto.
  - intros [].
  - intros [E|H]; auto.
Qed.

(** X4: when a model configuration gives no [ui] section, the lists that
    are generated for it name fields of the model only: every searchable
    name is a field of type [text], [email] or [number] that is not
    primary, every listed column is a field that is neither primary nor a
    password, and at most five columns are listed. *)
Theorem generated_ui_names_model_fields :
  forall (name : string) (mc : ModelConfig),
    MC_UI mc = None ->
    exists model,
      loadModel name (processModel mc) = Returns model
      /\ (forall s,
            In s (Searchable (UI_List (UI model))) ->
            exists field,
              In field (Fields model)
              /\ Name field = s /\ Primary field = false
              /\ (Type_ field = FieldTypeText \/ Type_ field = FieldTypeEmail
                  \/ Type_ field = FieldTypeNumber))
      /\ (forall c,
            In c (Columns (UI_List (UI model))) ->
            exists field,
              In field (Fields model)
              /\ Name field = c /\ Primary field = false
              /\ Type_ field <> FieldTypePassword)
      /\ List.length (Columns (UI_List (UI model))) <= 5.
Proof.
  intros name mc Hui.
  unfold loadModel, processModel. rewrite Hui.
  cbn [MC_UI MC_Fields loadUI generateDefaultUI UMC_List UMC_Form].
  eexists. split; [reflexivity|].
  cbn [UI UI_List Fields Searchable Columns ULC_Searchable ULC_Columns].
  set (fields := map (fun e => (fst e, processField (snd e))) (MC_Fields mc)).
  split; [|split].
  - intros s Hs. apply in_map_iff in Hs. destruct Hs as ([fn fc] & <- & Hf).
    apply filter_In in Hf. destruct Hf as [Hin Hp]. cbn [fst snd] in *.
    exists (loadField fn fc). split; [|split; [reflexivity|]].
    + apply in_map_iff. exists (fn, fc). auto.
    + cbn [loadField Primary Type_].
      apply andb_true_iff in Hp. destruct Hp as [Hl Ht].
      apply andb_true_iff in Hl. destruct Hl as [_ Hnp].
      split; [now apply negb_true_iff|].
      apply orb_true_iff in Ht. destruct Ht as [Ht|Ht];
        [apply orb_true_iff in Ht; destruct Ht as [Ht|Ht]|];
        apply String.eqb_eq in Ht; auto.
  - intros c Hc.
    assert (Hc' : In c (map fst (filter
                (fun e : string * FieldConfig =>
                   negb (String.eqb (FC_Type (snd e)) "password")
                   && negb (FC_Primary (snd e))) fields))).
    { destruct (5 <? _)%nat in Hc; [eapply In_firstn_In; exact Hc | exact Hc]. }
    apply in_map_iff in Hc'. destruct Hc' as ([fn fc] & <- & Hf).
    apply filter_In in Hf. destruct Hf as [Hin Hp]. cbn [fst snd] in *.
    exists (loadField fn fc). split; [|split; [reflexivity|]].
    + apply in_map_iff. exists (fn, fc). auto.
    + cbn [loadField Primary Type_].
      apply andb_true_iff in Hp. destruct Hp as [Hpw Hnp].
      split; [now apply negb_true_iff|].
      apply negb_true_iff in Hpw. now apply String.eqb_neq.
  - destruct (Nat.ltb_spec 5 (List.length (map fst (filter
                (fun e : string * FieldConfig =>
                   negb (String.eqb (FC_Type (snd e)) "password")
                   && negb (FC_Primary (snd e))) fields)))) as [Hlt|Hle].
    + apply firstn_le_length.
    + exact Hle.
Qed.

(** The article model, whose configuration has no [ui] section. *)
Lemma generated_ui_names_model_fields_witness :
  MC_UI articleConfig = None
  /\ exists model,
       loadModel "Article" (processModel articleConfig) = Returns model
       /\ Searchable (UI_List (UI model)) = ["title"]
       /\ List.length (Columns (UI_List (UI model))) <= 5.
Proof.
  split; [reflexivity|].
  destruct (generated_ui_names_model_fields "Article" articleConfig eq_refl)
    as (model & Hmodel & _ & _ & Hlen).
  exists model. split; [exact Hmodel|]. split; [|exact Hlen].
  cbv in Hmodel. injection Hmodel as <-. reflexivity.
Defined.

Lemma map_get_map (A B : Type) (g : string -> A -> B) (l : list (string * A))
      (k : string) :
  map_get (map (fun e => (fst e, g (fst e) (snd e))) l) k
  = option_map (g k) (map_get l k).
Proof.
  induction l as [|[k' v] rest IH]; [reflexivity|].
  cbn [map map_get fst snd].
  destruct (String.eqb_spec k' k) as [->|_]; [reflexivity | exact IH].
Qed.

Lemma findField_loaded (l : list (string * FieldConfig)) (fieldName : string) :
  findField (map (fun e => loadField (fst e) (snd e)) l) fieldName
  = option_map (loadField fieldName) (map_get l fieldName).
Proof.
  induction l as [|[k' v] rest IH]; [reflexivity|].
  cbn [map findField map_get fst snd loadField Name].
  destruct (String.eqb_spec k' fieldName) as [->|_]; [reflexivity | exact IH].
Qed.

Lemma processModel_uiComplete (mc : ModelConfig) :
  uiComplete (processModel mc) = uiComplete mc.
Proof.
  unfold uiComplete, processModel. destruct (MC_UI mc); reflexivity.
Qed.

Lemma processed_uiComplete (l : list (string * ModelConfig)) :
  forallb (fun e => uiComplete (snd e))
          (map (fun e => (fst e, processModel (snd e))) l)
  = forallb (fun e => uiComplete (snd e)) l.
Proof.
  induction l as [|[n mc] rest IH]; [reflexivity|].
  cbn [map forallb fst snd]. now rewrite processModel_uiComplete, IH.
Qed.

Lemma map_get_Some_In (T : Type) (l : list (string * T)) (k : string) (v : T) :
  map_get l k = Some v -> In (k, v) l.
Proof.
  induction l as [|[a b] rest IH]; cbn [map_get]; [discriminate|].
  destruct (String.eqb_spec a k) as [->|_].
  - intros [= ->]. now left.
  - intro H. right. now apply IH.
Qed.

(** The loop of [LoadConfig] returns one model per entry, under the same
    key, when every [ui] section is complete, and panics otherwise. *)
Lemma loadModels_complete (l : list (string * ModelConfig)) :
  if forallb (fun e => uiComplete (snd e)) l
  then exists ms,
         loadModels l = Returns ms
         /\ forall modelName,
              map_get ms modelName
              = match map_get l modelName with
                | None => None
                | Some mc => returned (loadModel modelName mc)
                end
  else loadModels l = Panics nilDereference.
Proof.
  induction l as [|[n mc] rest IH]; cbn [forallb loadModels snd].
  - exists []. split; reflexivity.
  - pose proof (loadModel_complete n mc) as Hmc.
    destruct (uiComplete mc); cbn [andb].
    + destruct Hmc as (model & Hmodel). rewrite Hmodel.
      destruct (forallb (fun e => uiComplete (snd e)) rest).
      * destruct IH as (ms & -> & Hget).
        exists ((n, model) :: ms). split; [reflexivity|].
        intro modelName. cbn [map_get].
        destruct (String.eqb_spec n modelName) as [<-|_];
          [now rewrite Hmodel | apply Hget].
      * now rewrite IH.
    + now rewrite Hmc.
Qed.

(** X5: [LoadConfig] returns a schema, with a nil error, exactly when
    every [ui] section that a model gives holds both its list and its
    form part; looking a model or a field up in that schema gives the
    model or field loaded from the entry that the same name has in the
    configuration, and nothing when the configuration has no such entry.
    When some [ui] section lacks a part, [LoadConfig] panics on the nil
    pointer; validation does not look at the [ui] sections and
    post-processing keeps a given one as it is, so a configuration that
    passes [ParseConfig] can make [LoadConfig] panic. *)
Theorem LoadConfig_lookup :
  forall config : Config,
    (if forallb (fun e => uiComplete (snd e)) (Models config)
     then exists schema : Schema,
            LoadConfig config = Returns (inr schema)
            /\ (forall modelName,
                   GetModel schema modelName
                   = match map_get (Models config) modelName with
                     | None => None
                     | Some mc => returned (loadModel modelName mc)
                     end)
            /\ (forall modelName fieldName,
                   GetField schema modelName fieldName
                   = match map_get (Models config) modelName with
                     | None => None
                     | Some mc =>
                         option_map (loadField fieldName)
                                    (map_get (MC_Fields mc) fieldName)
                     end)
     else LoadConfig config = Panics nilDereference)
    /\ (validateConfig config = None ->
        forallb (fun e => uiComplete (snd e)) (Models config) = false ->
        ParseAndLoad config = Panics nilDereference).
Proof.
  intro config. split.
  - unfold LoadConfig.
    pose proof (loadModels_complete (Models config)) as Hl.
    destruct (forallb (fun e => uiComplete (snd e)) (Models config)) eqn:Hall;
      [|now rewrite Hl].
    destruct Hl as (ms & -> & Hget).
    eexists. split; [reflexivity|].
    unfold GetField, GetModel. cbn [Schema_Models].
    split; [exact Hget|].
    intros modelName fieldName. rewrite Hget.
    destruct (map_get (Models config) modelName) as [mc|] eqn:Hmc;
      [|reflexivity].
    apply map_get_Some_In in Hmc.
    rewrite forallb_forall in Hall. specialize (Hall _ Hmc). cbn [snd] in Hall.
    pose proof (loadModel_complete modelName mc) as Hc. rewrite Hall in Hc.
    destruct Hc as (model & Hmodel). rewrite Hmodel.
    apply loadModel_Returns in Hmodel. destruct Hmodel as (_ & Hfs & _).
    cbn [returned]. rewrite Hfs. apply findField_loaded.
  - intros Hvalid Hui. unfold ParseAndLoad, ParseConfig, LoadConfig.
    rewrite Hvalid. unfold processConfig. cbn [Models].
    pose proof (loadModels_complete
                  (map (fun e => (fst e, processModel (snd e)))
                       (Models config))) as Hl.
    rewrite processed_uiComplete, Hui in Hl. now rewrite Hl.
Qed.

(** A blog whose article model gives a [ui] section with the list only:
    the configuration passes validation and schema construction panics. *)
Lemma LoadConfig_lookup_witness :
  validateConfig (sqliteConfig "blog" [("Article", listOnlyConfig)]) = None
  /\ forallb (fun e => uiComplete (snd e))
             (Models (sqliteConfig "blog" [("Article", listOnlyConfig)]))
     = false
  /\ ParseAndLoad (sqliteConfig "blog" [("Article", listOnlyConfig)])
     = Panics nilDereference.
Proof.
  split; [reflexivity|]. split; [reflexivity|].
  exact (proj2 (LoadConfig_lookup
                  (sqliteConfig "blog" [("Article", listOnlyConfig)]))
               eq_refl eq_refl).
Defined.

(** ** Validation *)

(** X6: [ValidateUpdate] accepts a payload exactly when the model exists
    and every key of the payload names a field of the model that is not
    primary and whose value [validateField] accepts; in particular one
    key that names no field of the model makes the update fail. *)
Theorem validateUpdate_accepts_iff :
  forall (MatchString : string -> string -> option bool) (schema : Schema)
         (modelName : string) (data : list (string * value)),
    ValidateUpdate MatchString schema modelName data = None
    <-> exists model,
          GetModel schema modelName = Some model
          /\ forall key v,
               In (key, v) data ->
               exists field,
                 getField model key = Some field
                 /\ Primary field = false
                 /\ validateField MatchString field v = None.
Proof.
  intros ms schema modelName data. unfold ValidateUpdate.
  destruct (GetModel schema modelName) as [model|].
  2:{ split; [discriminate | intros (m & H & _); discriminate H]. }
  assert (H : ValidateUpdate_entries ms model data = None
              <-> forall key v,
                    In (key, v) data ->
                    exists field,
                      getField model key = Some field
                      /\ Primary field = false
                      /\ validateField ms field v = None).
  { induction data as [|[k v] rest IH]; cbn [ValidateUpdate_entries].
    - split; [intros _ key v [] | reflexivity].
    - destruct (getField model k) as [f|] eqn:Hf.
      + destruct (Primary f) eqn:Hp.
        * split; [discriminate|]. intro H.
          destruct (H k v (or_introl eq_refl)) as (f' & Hf' & Hp' & _).
          congruence.
        * destruct (validateField ms f v) eqn:Hv.
          -- split; [discriminate|]. intro H.
             destruct (H k v (or_introl eq_refl)) as (f' & Hf' & _ & Hv').
             congruence.
          -- rewrite IH. split.
             ++ intros H key v' [E|Hin].
                ** injection E as <- <-. exists f. auto.
                ** now apply H.
             ++ intros H key v' Hin. apply H. now right.
      + split; [discriminate|]. intro H.
        destruct (H k v (or_introl eq_refl)) as (f' & Hf' & _). congruence. }
  rewrite H. split.
  - intro Hall. exists model. auto.
  - intros (m & [= <-] & Hall). exact Hall.
Qed.

Lemma ValidateCreate_fields_ext (ms : string -> string -> option bool)
      (fields : list Field) (data data' : list (string * value)) :
  (forall field, In field fields ->
                 map_get data (Name field) = map_get data' (Name field)) ->
  ValidateCreate_fields ms fields data = ValidateCreate_fields ms fields data'.
Proof.
  induction fields as [|f rest IH]; intro H; [reflexivity|].
  cbn [ValidateCreate_fields].
  rewrite <- (H f (or_introl eq_refl)).
  rewrite IH by (intros g Hg; apply H; now right). reflexivity.
Qed.

Lemma findField_None (fields : list Field) (key : string) :
  findField fields key = None ->
  forall field, In field fields -> Name field <> key.
Proof.
  induction fields as [|f rest IH]; simpl; [intros _ g []|].
  destruct (String.eqb_spec (Name f) key) as [E|E]; [discriminate|].
  intros H g [<-|Hg]; [exact E | now apply IH].
Qed.

Lemma map_get_skip (T : Type) (pre post : list (string * T))
      (k k' : string) (v : T) :
  k <> k' ->
  map_get (pre ++ (k, v) :: post)%list k' = map_get (pre ++ post)%list k'.
Proof.
  intro Hne. induction pre as [|[a b] pre IH]; cbn [app map_get].
  - now rewrite (eqb_neq_false _ _ Hne).
  - now rewrite IH.
Qed.

(** X7: [ValidateCreate] looks the fields of the model up in the payload
    and nothing else: a payload entry whose key names no field of the
    model changes nothing, wherever it stands and whatever its value, so
    a create payload with unknown keys is accepted when it is accepted
    without them. *)
Theorem validateCreate_ignores_unknown_keys :
  forall (MatchString : string -> string -> option bool) (schema : Schema)
         (modelName : string) (model : Model)
         (pre post : list (string * value)) (key : string) (v : value),
    GetModel schema modelName = Some model ->
    getField model key = None ->
    ValidateCreate MatchString schema modelName (pre ++ (key, v) :: post)%list
    = ValidateCreate MatchString schema modelName (pre ++ post)%list.
Proof.
  intros ms schema modelName model pre post key v Hm Hf.
  unfold ValidateCreate. rewrite Hm.
  apply ValidateCreate_fields_ext. intros field Hin.
  apply map_get_skip. intro E.
  exact (findField_None _ _ Hf field Hin (eq_sym E)).
Qed.

(** A user payload with a key that the model does not have. *)
Lemma validateCreate_ignores_unknown_keys_witness :
  GetModel userSchema "User" = Some userModel
  /\ getField userModel "is_admin" = None
  /\ ValidateCreate MatchString_any userSchema "User"
       ([("name", VString "Ann")] ++ ("is_admin", VBool true) :: [])%list
     = ValidateCreate MatchString_any userSchema "User"
         ([("name", VString "Ann")] ++ [])%list.
Proof.
  split; [reflexivity|]. split; [reflexivity|].
  apply (validateCreate_ignores_unknown_keys MatchString_any userSchema "User"
           userModel [("name", VString "Ann")] [] "is_admin" (VBool true));
    reflexivity.
Defined.

(** X8: a string passes [validateText] exactly when its byte length is
    within the declared bounds and, when a pattern is declared, the
    pattern compiles and matches; a value that is not a string never
    passes. *)
Theorem validateText_accepts_iff :
  forall (MatchString : string -> string -> option bool) (field : Field)
         (v : value),
    validateText MatchString field v = None
    <-> exists s,
          v = VString s
          /\ (forall min, Min field = Some min ->
                          (min <= Z.of_nat (String.length s))%Z)
          /\ (forall max, Max field = Some max ->
                          (Z.of_nat (String.length s) <= max)%Z)
          /\ (Pattern field = ""
              \/ MatchString (Pattern field) s = Some true).
Proof.
  intros ms field v. unfold validateText, or_else, invalid.
  destruct v; try (split; [discriminate | intros (s0 & E & _); discriminate E]).
  destruct (Min field) as [min|];
    [destruct (Z.ltb_spec (Z.of_nat (String.length s)) min)|];
    (destruct (Max field) as [max|];
     [destruct (Z.gtb_spec (Z.of_nat (String.length s)) max)|]);
    destruct (String.eqb_spec (Pattern field) "") as [Ep|Ep]; cbn [negb];
    try destruct (ms (Pattern field) s) as [[|]|] eqn:Hms;
    (split;
     [intros Hgoal;
      first [discriminate Hgoal
            | exists s; split; [reflexivity|];
              repeat split; try (intros x [= <-]; lia); try discriminate; auto]
     | intros (s0 & [= <-] & Q1 & Q2 & Q3);
       try reflexivity;
       try (specialize (Q1 _ eq_refl); lia);
       try (specialize (Q2 _ eq_refl); lia);
       try (destruct Q3 as [Q3|Q3]; congruence)]).
Qed.

(** X9: for a field of type [text], [password], [email], [url], [enum],
    [datetime], [date] or [time], every value that is neither nil nor a
    string is rejected with [must be a string], whatever else the field
    declares. *)
Theorem string_types_reject_other_values :
  forall (MatchString : string -> string -> option bool) (field : Field)
         (v : value),
    one_of (Type_ field) stringTypes = true ->
    is_nil v = false ->
    is_string v = false ->
    validateField MatchString field v
    = Some (ValidationError (Name field) "must be a string").
Proof.
  intros ms field v.
  unfold validateField, validateByType, validateText, validateNumber,
    validateBoolean, validateEmail, validateURL, validateEnum,
    validateDatetime, invalid, one_of, stringTypes.
  generalize (Type_ field) as t. intros t Hty Hnil Hstr.
  destruct v; try discriminate Hnil; try discriminate Hstr;
    cbn [existsb orb] in *; eqb_cases t;
    try discriminate Hty; reflexivity.
Qed.

(** A number given for the name of a user. *)
Lemma string_types_reject_other_values_witness :
  one_of (Type_ (plainField "name" FieldTypeText false true false)) stringTypes
  = true
  /\ is_nil (VInt 5) = false
  /\ is_string (VInt 5) = false
  /\ validateField MatchString_any
       (plainField "name" FieldTypeText false true false) (VInt 5)
     = Some (ValidationError "name" "must be a string").
Proof.
  split; [reflexivity|]. split; [reflexivity|]. split; [reflexivity|].
  apply (string_types_reject_other_values MatchString_any
           (plainField "name" FieldTypeText false true false) (VInt 5));
    reflexivity.
Defined.

(** X10: a field whose type is none of the ten types that have a rule
    ([id], [relation], [uuid], [json], [phone] and the like, or an unknown
    type) accepts every value that is not nil: no kind of value, bound,
    pattern or option is checked for it. *)
Theorem unchecked_types_accept_every_value :
  forall (MatchString : string -> string -> option bool) (field : Field)
         (v : value),
    one_of (Type_ field) checkedTypes = false ->
    is_nil v = false ->
    validateField MatchString field v = None.
Proof.
  intros ms field v.
  unfold validateField, validateByType, one_of, checkedTypes, stringTypes.
  generalize (Type_ field) as t. intros t Hty Hnil.
  destruct v; try discriminate Hnil;
    cbn [existsb orb] in *; eqb_cases t;
    try discriminate Hty; reflexivity.
Qed.

(** A number given for a field of type [uuid]. *)
Lemma unchecked_types_accept_every_value_witness :
  one_of (Type_ (plainField "token" FieldTypeUUID false true false)) checkedTypes
  = false
  /\ is_nil (VInt 5) = false
  /\ validateField MatchString_any
       (plainField "token" FieldTypeUUID false true false) (VInt 5) = None.
Proof.
  split; [reflexivity|]. split; [reflexivity|].
  apply (unchecked_types_accept_every_value MatchString_any
           (plainField "token" FieldTypeUUID false true false) (VInt 5));
    reflexivity.
Defined.

(** ** The statement compiler *)

Lemma whereLoop_args (Sf : spec_float -> string) (dbType : DatabaseType)
      (filters : list Filter) :
  forall whereClauses args,
    whereLoop Sf dbType filters = Returns (whereClauses, args) ->
    args = map (filterArg Sf) filters
    /\ List.length whereClauses = List.length filters.
Proof.
  induction filters as [|f rest IH]; intros cs args; cbn [whereLoop].
  - intros [= <- <-]. auto.
  - destruct (buildWhereClause Sf dbType f) as [[clause arg]|msg] eqn:Hw;
      [|discriminate].
    destruct (whereLoop Sf dbType rest) as [[cs' args']|msg]; [|discriminate].
    intros [= <- <-]. destruct (IH cs' args' eq_refl) as [-> Hlen].
    cbn [map List.length]. rewrite Hlen. split; [|reflexivity].
    f_equal. unfold buildWhereClause in Hw. unfold filterArg, operator_of.
    destruct (String.eqb
                (if String.eqb (Operator f) "" then "=" else Operator f) "like").
    + now injection Hw as _ <-.
    + destruct (String.eqb
                  (if String.eqb (Operator f) "" then "=" else Operator f) "in").
      * destruct (Value f); try discriminate Hw. now injection Hw as _ <-.
      * now injection Hw as _ <-.
Qed.

(** X11: the arguments that a compiled SELECT statement binds are one per
    filter, in filter order (the filter value, wrapped in [%] signs for
    [like]), followed by the search term wrapped in [%] signs once per
    searchable field of the model; sorting and pagination bind nothing. *)
Theorem select_arguments :
  forall (Sf : spec_float -> string) (dbType : DatabaseType)
         (schema : option Schema) (model : string) (params : QueryParams)
         (query : string) (args : list value),
    buildSelectQuery Sf dbType schema model params = Returns (query, args) ->
    args
    = (map (filterArg Sf) (Filters params)
         ++ map (fun _ : string => VString ("%" ++ Search params ++ "%"))
                (searchFields schema model params))%list.
Proof.
  intros Sf dbType schema model params query args.
  unfold buildSelectQuery, searchFields.
  destruct (whereLoop Sf dbType (Filters params)) as [[cs args0]|msg] eqn:Hw;
    [|discriminate].
  apply whereLoop_args in Hw. destruct Hw as [-> _].
  intros [= _ <-]. reflexivity.
Qed.

(** The role filter on the user model. *)
Lemma select_arguments_witness :
  buildSelectQuery Sprint_no_float DatabaseSQLite None "User"
    (filterOnly 1 [roleFilter])
  = Returns (roleQuery, [VString "admin"])
  /\ [VString "admin"]
     = (map (filterArg Sprint_no_float) (Filters (filterOnly 1 [roleFilter]))
          ++ map (fun _ : string =>
                    VString ("%" ++ Search (filterOnly 1 [roleFilter]) ++ "%"))
                 (searchFields None "User" (filterOnly 1 [roleFilter])))%list.
Proof.
  split; [reflexivity|].
  apply (select_arguments Sprint_no_float DatabaseSQLite None "User"
           (filterOnly 1 [roleFilter]) roleQuery [VString "admin"]).
  reflexivity.
Defined.

Lemma Join_append (l : list string) (x sep : string) :
  l <> [] -> Join (append l x) sep = Join l sep ++ sep ++ x.
Proof.
  unfold Join, append. induction l as [|a l IH]; [congruence|]. intros _.
  destruct l as [|b l]; [reflexivity|].
  change (a ++ sep ++ String.concat sep ((b :: l) ++ [x])%list
          = (a ++ sep ++ String.concat sep (b :: l)) ++ sep ++ x).
  rewrite IH by discriminate. now rewrite !append_assoc.
Qed.

Lemma append_not_nil (A : Type) (l : list A) (x : A) : append l x <> [].
Proof. unfold append. destruct l; discriminate. Qed.

Lemma wrap64_small (n : Z) :
  (- 2 ^ 63 <= n < 2 ^ 63)%Z -> wrap64 n = n.
Proof.
  intro H. unfold wrap64. rewrite Z.mod_small; lia.
Qed.

(** X12: with a positive page size the SELECT statement is the statement
    of the same request without pagination followed by
    [LIMIT pageSize OFFSET (page - 1) * pageSize], with the same
    arguments; the offset is computed in 64 bits, and it is the exact
    product when the page is at least 1 and the product is below 2^63. *)
Theorem pagination_appends_limit_and_offset :
  forall (Sf : spec_float -> string) (dbType : DatabaseType)
         (schema : option Schema) (model : string) (params : QueryParams),
    (PageSize params > 0)%Z ->
    buildSelectQuery Sf dbType schema model params
    = match buildSelectQuery Sf dbType schema model (unpaged params) with
      | Returns (query, args) =>
          Returns (query ++ " LIMIT " ++ itoa (PageSize params) ++ " OFFSET "
                     ++ itoa (wrap64 ((Page params - 1) * PageSize params)),
                   args)
      | Panics msg => Panics msg
      end
    /\ ((1 <= Page params)%Z ->
        ((Page params - 1) * PageSize params < 2 ^ 63)%Z ->
        wrap64 ((Page params - 1) * PageSize params)
        = ((Page params - 1) * PageSize params)%Z).
Proof.
  intros Sf dbType schema model params Hps. split.
  - unfold buildSelectQuery, unpaged.
    cbn [Page PageSize Sorts Filters Search].
    destruct (whereLoop Sf dbType (Filters params)) as [[cs args0]|msg];
      [|reflexivity].
    assert (Hgt : (PageSize params >? 0)%Z = true) by (apply Z.gtb_lt; lia).
    rewrite Hgt. change (0 >? 0)%Z with false. cbv iota.
    destruct (0 <? List.length (Sorts params))%nat;
      rewrite Join_append by apply append_not_nil; reflexivity.
  - intros Hp Hlt. apply wrap64_small. nia.
Qed.

(** The second page of twenty users. *)
Lemma pagination_appends_limit_and_offset_witness :
  (PageSize {| Page := 2; PageSize := 20; Sorts := []; Filters := [];
               Search := "" |} > 0)%Z
  /\ buildSelectQuery Sprint_no_float DatabaseSQLite None "User"
       {| Page := 2; PageSize := 20; Sorts := []; Filters := []; Search := "" |}
     = Returns ("SELECT * FROM " ++ dq ++ "User" ++ dq ++ " ORDER BY " ++ dq
                  ++ "id" ++ dq ++ " DESC LIMIT 20 OFFSET 20", []).
Proof.
  split; [reflexivity|].
  destruct (pagination_appends_limit_and_offset Sprint_no_float DatabaseSQLite
              None "User"
              {| Page := 2; PageSize := 20; Sorts := []; Filters := [];
                 Search := "" |}) as [H _]; [reflexivity|].
  rewrite H. reflexivity.
Defined.

Lemma placeholders_Join (l : list string) (sep : string) :
  placeholders (Join l sep)
  = list_sum (map placeholders l) + Nat.pred (List.length l) * placeholders sep.
Proof.
  unfold Join. induction l as [|a l IH]; [reflexivity|].
  destruct l as [|b l]; [simpl; lia|].
  change (placeholders (a ++ sep ++ String.concat sep (b :: l))
          = list_sum (map placeholders (a :: b :: l))
            + Nat.pred (List.length (a :: b :: l)) * placeholders sep).
  rewrite !placeholders_append, IH. simpl. lia.
Qed.

Lemma placeholders_quote (dbType : DatabaseType) (name : string) :
  placeholders (quote dbType name) = placeholders name.
Proof.
  unfold quote. destruct (String.eqb dbType DatabaseSQLite); [|reflexivity].
  rewrite !placeholders_append. simpl. lia.
Qed.

Lemma list_sum_quoted (A : Type) (dbType : DatabaseType) (suffix : string)
      (key : A -> string) (l : list A) :
  list_sum (map placeholders (map (fun e => quote dbType (key e) ++ suffix) l))
  = list_sum (map (fun e => placeholders (key e)) l)
    + List.length l * placeholders suffix.
Proof.
  induction l as [|a l IH]; [reflexivity|].
  change (placeholders (quote dbType (key a) ++ suffix)
          + list_sum (map placeholders
                          (map (fun e => quote dbType (key e) ++ suffix) l))
          = placeholders (key a) + list_sum (map (fun e => placeholders (key e)) l)
            + S (List.length l) * placeholders suffix).
  rewrite placeholders_append, placeholders_quote, IH. lia.
Qed.

Lemma list_sum_quoted_plain (A : Type) (dbType : DatabaseType)
      (key : A -> string) (l : list A) :
  list_sum (map placeholders (map (fun e => quote dbType (key e)) l))
  = list_sum (map (fun e => placeholders (key e)) l).
Proof.
  induction l as [|a l IH]; [reflexivity|].
  change (placeholders (quote dbType (key a))
          + list_sum (map placeholders (map (fun e => quote dbType (key e)) l))
          = placeholders (key a) + list_sum (map (fun e => placeholders (key e)) l)).
  rewrite placeholders_quote, IH. reflexivity.
Qed.

Lemma list_sum_marks (A : Type) (l : list A) :
  list_sum (map placeholders (map (fun _ : A => "?") l)) = List.length l.
Proof.
  induction l as [|a l IH]; [reflexivity|].
  change (1 + list_sum (map placeholders (map (fun _ : A => "?") l))
          = S (List.length l)).
  rewrite IH. reflexivity.
Qed.

(** X13: each of the INSERT, UPDATE and DELETE statements holds as many
    placeholders as it binds arguments, apart from the question marks
    that the model name and the payload keys themselves contain, which
    are written into the statement as they are: an INSERT binds one
    argument per payload entry, in payload order, an UPDATE one per entry
    and the id last, a DELETE the id alone. *)
Theorem mutation_placeholders_match_arguments :
  forall (dbType : DatabaseType) (model : string) (id : value)
         (data : list (string * value)),
    (placeholders (fst (buildInsertQuery dbType model data))
     = List.length (snd (buildInsertQuery dbType model data))
       + placeholders model + nameMarks data
     /\ snd (buildInsertQuery dbType model data) = map snd data)
    /\ (placeholders (fst (buildUpdateQuery dbType model id data))
        = List.length (snd (buildUpdateQuery dbType model id data))
          + placeholders model + nameMarks data
        /\ snd (buildUpdateQuery dbType model id data)
           = (map snd data ++ [id])%list)
    /\ (placeholders (fst (buildDeleteQuery dbType model id))
        = List.length (snd (buildDeleteQuery dbType model id))
          + placeholders model
        /\ snd (buildDeleteQuery dbType model id) = [id]).
Proof.
  intros dbType model id data.
  unfold buildInsertQuery, buildUpdateQuery, buildDeleteQuery, nameMarks, append.
  cbn [fst snd]. repeat split.
  - rewrite !placeholders_append, !placeholders_Join, placeholders_quote.
    rewrite (list_sum_quoted_plain _ dbType fst), list_sum_marks.
    rewrite !length_map. simpl. lia.
  - rewrite !placeholders_append, !placeholders_Join, placeholders_quote.
    rewrite (list_sum_quoted _ dbType " = ?" fst).
    rewrite length_app, !length_map. simpl. lia.
  - rewrite !placeholders_append, placeholders_quote. simpl. lia.
Qed.

(** ** Default values and column types *)

Lemma unescape_escape (s : string) : unescapeSQL (escapeSQL s) = s.
Proof.
  unfold escapeSQL. induction s as [|c s IH]; [reflexivity|].
  cbn [double_single_quotes].
  destruct (Ascii.eqb c "'"%char) eqn:Hc.
  - cbn [unescapeSQL]. rewrite Hc. now rewrite IH.
  - cbn [unescapeSQL]. rewrite Hc. now rewrite IH.
Qed.

Lemma singleQuotes_escape (s : string) :
  singleQuotes (escapeSQL s) = 2 * singleQuotes s.
Proof.
  unfold escapeSQL. induction s as [|c s IH]; [reflexivity|].
  cbn [double_single_quotes].
  destruct (Ascii.eqb c "'"%char) eqn:Hc; cbn [singleQuotes];
    rewrite Hc, IH; lia.
Qed.

(** X14: a text default other than [CURRENT_TIMESTAMP] is written as a
    quoted literal whose content is the text with every single quote
    doubled: the content holds twice the single quotes of the text, and
    reading doubled quotes back as one gives the text again.  The text
    [CURRENT_TIMESTAMP] itself is never quoted: it is written as the
    keyword. *)
Theorem default_text_is_escaped :
  forall (Sf : spec_float -> string) (s : string) (t : FieldType),
    s <> "CURRENT_TIMESTAMP" ->
    formatDefaultValue Sf (VString s) t = "'" ++ escapeSQL s ++ "'"
    /\ unescapeSQL (escapeSQL s) = s
    /\ singleQuotes (escapeSQL s) = 2 * singleQuotes s
    /\ formatDefaultValue Sf (VString "CURRENT_TIMESTAMP") t = "CURRENT_TIMESTAMP".
Proof.
  intros Sf s t Hs. unfold formatDefaultValue.
  rewrite (eqb_neq_false _ _ Hs).
  repeat split; [apply unescape_escape | apply singleQuotes_escape].
Qed.

(** The default text [it's]. *)
Lemma default_text_is_escaped_witness :
  "it's" <> "CURRENT_TIMESTAMP"
  /\ formatDefaultValue Sprint_no_float (VString "it's") FieldTypeText
     = "'" ++ escapeSQL "it's" ++ "'"
  /\ unescapeSQL (escapeSQL "it's") = "it's"
  /\ singleQuotes (escapeSQL "it's") = 2 * singleQuotes "it's"
  /\ formatDefaultValue Sprint_no_float (VString "CURRENT_TIMESTAMP") FieldTypeText
     = "CURRENT_TIMESTAMP".
Proof.
  split; [discriminate|].
  apply (default_text_is_escaped Sprint_no_float "it's" FieldTypeText).
  discriminate.
Defined.

(** X15: the column type that the SQLite schema gives a field is the
    type that [FieldType.SQLType] names for its type, one of INTEGER,
    TEXT, BOOLEAN and DATETIME, for every field but one kind: a field
    whose type is one of the fourteen types [text], [email], [password],
    [phone], [url], [slug], [enum], [color], [markdown], [json],
    [currency], [ip], [uuid] and [duration] and that declares a [max]
    below 255 gets [VARCHAR(max)], which is none of the four.  A field of
    type [file], [image], [array] or [location], or of an unknown type,
    stays TEXT whatever its [max]. *)
Theorem column_type_follows_SQLType :
  forall field : Field,
    In (SQLType (Type_ field)) ["INTEGER"; "TEXT"; "BOOLEAN"; "DATETIME"]
    /\ (shortText field = false ->
        getSQLiteType field = SQLType (Type_ field))
    /\ (shortText field = true ->
        SQLType (Type_ field) = "TEXT"
        /\ getSQLiteType field <> SQLType (Type_ field)
        /\ exists max,
             Max field = Some max /\ (max < 255)%Z
             /\ getSQLiteType field = "VARCHAR(" ++ itoa max ++ ")")
    /\ (one_of (Type_ field) varcharTypes = false ->
        getSQLiteType field = SQLType (Type_ field))
    /\ (forall max,
          one_of (Type_ field) varcharTypes = true ->
          Max field = Some max -> (max < 255)%Z ->
          getSQLiteType field = "VARCHAR(" ++ itoa max ++ ")").
Proof.
  intro field. unfold shortText, getSQLiteType, SQLType, varcharTypes, one_of.
  generalize (Type_ field) as t. intro t.
  destruct (Max field) as [max|];
    [destruct (Z.ltb_spec max 255)|];
    cbn [existsb orb]; eqb_cases t; cbn [andb];
    (split; [simpl; tauto|]);
    (split; [intro; first [discriminate | reflexivity]|]);
    (split; [intro; first [discriminate
                          | split; [reflexivity|];
                            split; [discriminate|];
                            exists max; repeat split; assumption]|]);
    (split; [intro; first [discriminate | reflexivity]|]);
    intros max' Ht Hm Hlt;
    first [discriminate Ht | discriminate Hm
          | injection Hm as <-; first [reflexivity | lia]].
Qed.

(** X16: the CREATE TABLE statement of a model is a function of the table
    name and, for each field in order, of its name, type, primary,
    required and unique flags, [max], default, relation target and
    delete policy: the nullable and index flags, [min], the pattern and
    the options of a field never change the table. *)
Theorem table_ignores_nullable_and_other_settings :
  forall (Sf : spec_float -> string) (dbType : DatabaseType) (name : string)
         (model model' : Model),
    Forall2 sameColumn (Fields model) (Fields model') ->
    createTableQuery Sf dbType name model = createTableQuery Sf dbType name model'.
Proof.
  intros Sf dbType name model model' H. unfold createTableQuery.
  assert (Hc : map (buildColumnDefinition Sf dbType) (Fields model)
               = map (buildColumnDefinition Sf dbType) (Fields model')).
  { induction H as [|f f' l l' Hf _ IH]; [reflexivity|].
    cbn [map]. rewrite IH. f_equal.
    destruct Hf as (Hn & Ht & Hp & Hr & Hu & Hm & Hd & _).
    unfold buildColumnDefinition, getSQLiteType.
    now rewrite Hn, Ht, Hp, Hr, Hu, Hm, Hd. }
  assert (Hk : flat_map (foreignKey dbType) (Fields model)
               = flat_map (foreignKey dbType) (Fields model')).
  { clear Hc. induction H as [|f f' l l' Hf _ IH]; [reflexivity|].
    cbn [flat_map]. rewrite IH. f_equal.
    destruct Hf as (Hn & Ht & _ & _ & _ & _ & _ & Hrel & Hod).
    unfold foreignKey. now rewrite Hn, Ht, Hrel, Hod. }
  now rewrite Hc, Hk.
Qed.

(** The note field, and the same field declared nullable. *)
Lemma table_ignores_nullable_and_other_settings_witness :
  Forall2 sameColumn (Fields (plainModel "Memo" [noteField]))
          (Fields (plainModel "Memo" [noteFieldNullable]))
  /\ createTableQuery Sprint_no_float DatabaseSQLite "Memo"
       (plainModel "Memo" [noteField])
     = createTableQuery Sprint_no_float DatabaseSQLite "Memo"
         (plainModel "Memo" [noteFieldNullable]).
Proof.
  assert (H : Forall2 sameColumn (Fields (plainModel "Memo" [noteField]))
                      (Fields (plainModel "Memo" [noteFieldNullable]))).
  { constructor; [repeat split; reflexivity | constructor]. }
  split; [exact H|].
  exact (table_ignores_nullable_and_other_settings Sprint_no_float
           DatabaseSQLite "Memo" (plainModel "Memo" [noteField])
           (plainModel "Memo" [noteFieldNullable]) H).
Defined.

(** ** Schema creation *)

Section SchemaCreation.

Variable Sf : spec_float -> string.
Variable Store : Type.
Variable driver_Exec : Store -> string -> list value -> (error + Result) * Store.
Variable second_range : list (string * Model) -> list (string * Model).

Lemma conn_Exec_succeeds (query : string) (args : list value)
      (db : SQLiteDB Store) :
  alwaysSucceeds driver_Exec ->
  exists result db',
    conn_Exec driver_Exec query args db = (inr result, db')
    /\ trace db' = append (trace db) (CallExec query args)
    /\ dbType db' = dbType db /\ schema db' = schema db.
Proof.
  intro Hok. unfold conn_Exec.
  destruct (Hok (conn db) query args) as (result & store' & ->).
  eexists. eexists. repeat split.
Qed.

Lemma CreateSchema_tables_succeeds (models : list (string * Model)) :
  alwaysSucceeds driver_Exec ->
  forall db : SQLiteDB Store,
  exists db',
    CreateSchema_tables Sf driver_Exec models db = (None, db')
    /\ trace db' = (trace db ++ map (tableCall Sf (dbType db)) models)%list
    /\ dbType db' = dbType db /\ schema db' = schema db.
Proof.
  intro Hok. induction models as [|[name model] rest IH]; intro db.
  - exists db. simpl. rewrite app_nil_r. auto.
  - cbn [CreateSchema_tables]. unfold bind at 1.
    unfold createTable, bind, get_db, ret.
    destruct (conn_Exec_succeeds (createTableQuery Sf (dbType db) name model)
                                 [] db Hok)
      as (result & db1 & -> & Ht1 & Hd1 & Hs1).
    destruct (IH db1) as (db' & -> & Ht & Hd & Hs).
    exists db'. split; [reflexivity|].
    rewrite Ht, Ht1, Hd1. unfold append, tableCall. cbn [map fst snd].
    rewrite <- app_assoc. repeat split; congruence.
Qed.

Lemma createIndexes_fields_succeeds (modelName : string) (fields : list Field) :
  alwaysSucceeds driver_Exec ->
  forall db : SQLiteDB Store,
  exists db',
    createIndexes_fields driver_Exec modelName fields db = (None, db')
    /\ trace db'
       = (trace db
            ++ map (fun field =>
                      CallExec (createIndexQuery (dbType db) modelName field) [])
                   (filter (fun field => Index field && negb (Primary field)
                                         && negb (Unique field)) fields))%list
    /\ dbType db' = dbType db /\ schema db' = schema db.
Proof.
  intro Hok. induction fields as [|field rest IH]; intro db.
  - exists db. simpl. rewrite app_nil_r. auto.
  - cbn [createIndexes_fields filter].
    destruct (Index field && negb (Primary field) && negb (Unique field)).
    + unfold bind, get_db.
      destruct (conn_Exec_succeeds (createIndexQuery (dbType db) modelName field)
                                   [] db Hok)
        as (result & db1 & -> & Ht1 & Hd1 & Hs1).
      destruct (IH db1) as (db' & -> & Ht & Hd & Hs).
      exists db'. split; [reflexivity|].
      rewrite Ht, Ht1, Hd1. unfold append. cbn [map].
      rewrite <- app_assoc. repeat split; congruence.
    + apply IH.
Qed.

Lemma CreateSchema_indexes_succeeds (models : list (string * Model)) :
  alwaysSucceeds driver_Exec ->
  forall db : SQLiteDB Store,
  exists db',
    CreateSchema_indexes driver_Exec models db = (None, db')
    /\ trace db' = (trace db ++ flat_map (indexCallsOf (dbType db)) models)%list
    /\ dbType db' = dbType db /\ schema db' = schema db.
Proof.
  intro Hok. induction models as [|[name model] rest IH]; intro db.
  - exists db. simpl. rewrite app_nil_r. auto.
  - cbn [CreateSchema_indexes]. unfold bind at 1. unfold createIndexes.
    destruct (createIndexes_fields_succeeds name (Fields model) Hok db)
      as (db1 & -> & Ht1 & Hd1 & Hs1).
    destruct (IH db1) as (db' & -> & Ht & Hd & Hs).
    exists db'. split; [reflexivity|].
    rewrite Ht, Ht1, Hd1. cbn [flat_map]. unfold indexCallsOf at 2.
    cbn [fst snd]. rewrite <- app_assoc. repeat split; congruence.
Qed.

(** X17: on a store where every statement succeeds, [CreateSchema]
    returns nil, records the schema in the database value, and makes
    exactly these calls: one CREATE TABLE per model, in visiting order,
    then, for each model in the visiting order of the second pass, one
    CREATE INDEX per field that is flagged [index] and is neither primary
    nor unique, in field order. *)
Theorem CreateSchema_on_success :
  alwaysSucceeds driver_Exec ->
  forall (s : Schema) (db : SQLiteDB Store),
  exists db',
    CreateSchema Sf driver_Exec second_range s db = (None, db')
    /\ schema db' = Some s
    /\ trace db'
       = (trace db
            ++ map (tableCall Sf (dbType db)) (Schema_Models s)
            ++ flat_map (indexCallsOf (dbType db))
                        (second_range (Schema_Models s)))%list.
Proof.
  intros Hok s db. unfold CreateSchema, bind, set_schema.
  set (db0 := {| config := config db; dbType := dbType db; schema := Some s;
                 conn := conn db; trace := trace db |}).
  destruct (CreateSchema_tables_succeeds (Schema_Models s) Hok db0)
    as (db1 & -> & Ht1 & Hd1 & Hs1).
  destruct (CreateSchema_indexes_succeeds (second_range (Schema_Models s)) Hok db1)
    as (db' & -> & Ht & Hd & Hs).
  exists db'. split; [reflexivity|]. split; [rewrite Hs, Hs1; reflexivity|].
  rewrite Ht, Ht1, Hd1, <- app_assoc. reflexivity.
Qed.

End SchemaCreation.

Import Api.

(** On a store where every statement succeeds: the schema of the users. *)
Lemma CreateSchema_on_success_witness :
  alwaysSucceeds emptyExec
  /\ exists db',
       CreateSchema Sprint_no_float emptyExec (fun models => models)
                    userSchema emptyDB = (None, db')
       /\ schema db' = Some userSchema
       /\ trace db'
          = (trace emptyDB
               ++ map (tableCall Sprint_no_float (dbType emptyDB))
                      (Schema_Models userSchema)
               ++ flat_map (indexCallsOf (dbType emptyDB))
                           (Schema_Models userSchema))%list.
Proof.
  assert (Hok : alwaysSucceeds emptyExec).
  { intros store query args. eexists. eexists. reflexivity. }
  split; [exact Hok|].
  exact (CreateSchema_on_success Sprint_no_float unit emptyExec
           (fun models => models) Hok userSchema emptyDB).
Defined.

Section SchemaErrors.

Variable Sf : spec_float -> string.
Variable Store : Type.
Variable driver_Exec : Store -> string -> list value -> (error + Result) * Store.
Variable second_range : list (string * Model) -> list (string * Model).

(** The error of a statement is the error that the driver gave. *)
Lemma conn_Exec_error (query : string) (args : list value) (db : SQLiteDB Store) :
  schema (snd (conn_Exec driver_Exec query args db)) = schema db
  /\ forall err,
       fst (conn_Exec driver_Exec query args db) = inl err ->
       exists store, fst (driver_Exec store query args) = inl err.
Proof.
  unfold conn_Exec.
  destruct (driver_Exec (conn db) query args) as [r store'] eqn:Hd.
  cbn [fst snd schema]. split; [reflexivity|].
  intros err ->. exists (conn db). now rewrite Hd.
Qed.

Lemma createIndexes_fields_error (modelName : string) (fields : list Field) :
  forall db : SQLiteDB Store,
    schema (snd (createIndexes_fields driver_Exec modelName fields db)) = schema db
    /\ forall err,
         fst (createIndexes_fields driver_Exec modelName fields db) = Some err ->
         exists store query, fst (driver_Exec store query []) = inl err.
Proof.
  induction fields as [|field rest IH]; intro db.
  - cbn. split; [reflexivity | discriminate].
  - cbn [createIndexes_fields].
    destruct (Index field && negb (Primary field) && negb (Unique field));
      [|apply IH].
    unfold bind, get_db.
    destruct (conn_Exec_error (createIndexQuery (dbType db) modelName field) [] db)
      as [Hs He].
    destruct (conn_Exec driver_Exec (createIndexQuery (dbType db) modelName field)
                        [] db) as [[cause|result] db1].
    + unfold ret in *; cbn [fst snd] in *. split; [exact Hs|].
      intros err [= <-]. destruct (He cause eq_refl) as [store Hd]. eauto.
    + cbn [fst snd] in Hs. destruct (IH db1) as [Hs1 He1].
      split; [now rewrite Hs1 | exact He1].
Qed.

Lemma CreateSchema_tables_error (models : list (string * Model)) :
  forall db : SQLiteDB Store,
    schema (snd (CreateSchema_tables Sf driver_Exec models db)) = schema db
    /\ forall err,
         fst (CreateSchema_tables Sf driver_Exec models db) = Some err ->
         exists name cause store query,
           In name (map fst models)
           /\ fst (driver_Exec store query []) = inl cause
           /\ err = Errorf ("failed to create table " ++ name ++ ": " ++ Error cause).
Proof.
  induction models as [|[name model] rest IH]; intro db.
  - cbn. split; [reflexivity | discriminate].
  - cbn [CreateSchema_tables]. unfold bind at 1.
    unfold createTable, bind, get_db, ret.
    destruct (conn_Exec_error (createTableQuery Sf (dbType db) name model) [] db)
      as [Hs He].
    destruct (conn_Exec driver_Exec (createTableQuery Sf (dbType db) name model)
                        [] db) as [[cause|result] db1].
    + cbn [fst snd] in *. split; [exact Hs|].
      intros err [= <-]. destruct (He cause eq_refl) as [store Hd].
      exists name, cause, store, (createTableQuery Sf (dbType db) name model).
      cbn [map fst]. split; [now left | split; [exact Hd | reflexivity]].
    + cbn [fst snd] in Hs. destruct (IH db1) as [Hs1 He1].
      split; [now rewrite Hs1|].
      intros err Herr.
      destruct (He1 err Herr) as (n & cause & store & query & Hin & Hd & ->).
      exists n, cause, store, query. cbn [map fst].
      split; [now right | split; [exact Hd | reflexivity]].
Qed.

Lemma CreateSchema_indexes_error (models : list (string * Model)) :
  forall db : SQLiteDB Store,
    schema (snd (CreateSchema_indexes driver_Exec models db)) = schema db
    /\ forall err,
         fst (CreateSchema_indexes driver_Exec models db) = Some err ->
         exists name cause store query,
           In name (map fst models)
           /\ fst (driver_Exec store query []) = inl cause
           /\ err = Errorf ("failed to create indexes for " ++ name ++ ": "
                              ++ Error cause).
Proof.
  induction models as [|[name model] rest IH]; intro db.
  - cbn. split; [reflexivity | discriminate].
  - cbn [CreateSchema_indexes]. unfold bind, createIndexes.
    destruct (createIndexes_fields_error name (Fields model) db) as [Hs He].
    destruct (createIndexes_fields driver_Exec name (Fields model) db)
      as [[cause|] db1].
    + unfold ret in *; cbn [fst snd] in *. split; [exact Hs|].
      intros err [= <-]. destruct (He cause eq_refl) as (store & query & Hd).
      exists name, cause, store, query. cbn [map fst].
      split; [now left | split; [exact Hd | reflexivity]].
    + cbn [fst snd] in Hs. destruct (IH db1) as [Hs1 He1].
      split; [now rewrite Hs1|].
      intros err Herr.
      destruct (He1 err Herr) as (n & cause & store & query & Hin & Hd & ->).
      exists n, cause, store, query. cbn [map fst].
      split; [now right | split; [exact Hd | reflexivity]].
Qed.

(** X18: whatever the driver answers, [CreateSchema] leaves the schema
    recorded in the database value, also when it fails; and an error that
    it returns is an error of the driver wrapped with the name of a model
    of the schema: [failed to create table <name>: <cause>] from the first
    pass, [failed to create indexes for <name>: <cause>] from the second. *)
Theorem CreateSchema_records_schema_and_wraps_errors :
  forall (s : Schema) (db : SQLiteDB Store),
    schema (snd (CreateSchema Sf driver_Exec second_range s db)) = Some s
    /\ forall err,
         fst (CreateSchema Sf driver_Exec second_range s db) = Some err ->
         exists name cause store query,
           fst (driver_Exec store query []) = inl cause
           /\ ((In name (map fst (Schema_Models s))
                /\ err = Errorf ("failed to create table " ++ name ++ ": "
                                   ++ Error cause))
               \/ (In name (map fst (second_range (Schema_Models s)))
                   /\ err = Errorf ("failed to create indexes for " ++ name ++ ": "
                                      ++ Error cause))).
Proof.
  intros s db. unfold CreateSchema, bind, set_schema.
  set (db0 := {| config := config db; dbType := dbType db; schema := Some s;
                 conn := conn db; trace := trace db |}).
  destruct (CreateSchema_tables_error (Schema_Models s) db0) as [Hs He].
  destruct (CreateSchema_tables Sf driver_Exec (Schema_Models s) db0)
    as [[e|] db1].
  - unfold ret in *; cbn [fst snd] in *. split; [exact Hs|].
    intros err [= <-].
    destruct (He e eq_refl) as (n & cause & store & query & Hin & Hd & ->).
    exists n, cause, store, query. auto.
  - cbn [fst snd] in Hs.
    destruct (CreateSchema_indexes_error (second_range (Schema_Models s)) db1)
      as [Hs1 He1].
    split; [now rewrite Hs1|].
    intros err Herr.
    destruct (He1 err Herr) as (n & cause & store & query & Hin & Hd & ->).
    exists n, cause, store, query. auto.
Qed.

End SchemaErrors.

(** *** Reading rows *)

Lemma map_get_map_set (T : Type) (m : list (string * T)) (k k' : string) (v : T) :
  map_get (map_set m k v) k' = if String.eqb k k' then Some v else map_get m k'.
Proof.
  induction m as [|[a b] rest IH]; cbn [map_set map_get].
  - reflexivity.
  - destruct (String.eqb_spec a k) as [->|Hak]; cbn [map_get].
    + destruct (String.eqb k k'); reflexivity.
    + rewrite IH. destruct (String.eqb_spec a k') as [->|_]; [|reflexivity].
      now rewrite (eqb_neq_false _ _ (not_eq_sym Hak)).
Qed.

Lemma map_set_keys (T : Type) (m : list (string * T)) (k : string) (v : T) :
  forall key, In key (map fst (map_set m k v)) <-> key = k \/ In key (map fst m).
Proof.
  induction m as [|[a b] rest IH]; intro key; cbn [map_set map fst In].
  - intuition congruence.
  - destruct (String.eqb_spec a k) as [->|Hak]; cbn [map fst In].
    + intuition congruence.
    + rewrite IH. intuition congruence.
Qed.

Lemma map_set_NoDup (T : Type) (m : list (string * T)) (k : string) (v : T) :
  NoDup (map fst m) -> NoDup (map fst (map_set m k v)).
Proof.
  induction m as [|[a b] rest IH]; cbn [map_set map fst]; intro Hnd.
  - constructor; [intros [] | constructor].
  - inversion Hnd as [|x l Hnotin Hrest]; subst.
    destruct (String.eqb_spec a k) as [->|Hak]; cbn [map fst].
    + constructor; assumption.
    + constructor; [|now apply IH].
      rewrite map_set_keys. intros [E|Hin]; [congruence | contradiction].
Qed.

Lemma map_get_In (T : Type) (m : list (string * T)) (k : string) (v : T) :
  NoDup (map fst m) -> In (k, v) m -> map_get m k = Some v.
Proof.
  induction m as [|[a b] rest IH]; cbn [map fst map_get In]; [intros _ []|].
  intros Hnd [[= -> ->]|Hin].
  - now rewrite String.eqb_refl.
  - inversion Hnd as [|x l Hnotin Hrest]; subst.
    destruct (String.eqb_spec a k) as [->|_]; [|now apply IH].
    exfalso. apply Hnotin. change k with (fst (k, v)). now apply in_map.
Qed.

Lemma map_get_app (T : Type) (l l' : list (string * T)) (k : string) :
  map_get (l ++ l')%list k
  = match map_get l k with Some v => Some v | None => map_get l' k end.
Proof.
  induction l as [|[a b] rest IH]; cbn [app map_get]; [reflexivity|].
  destruct (String.eqb a k); [reflexivity | exact IH].
Qed.

(** The loop of [scanRow] from any map built so far. *)
Lemma scanRow_loop (columns : list (string * value)) :
  forall result : list (string * value),
    NoDup (map fst result) ->
    let result' :=
      fold_left (fun result e => map_set result (fst e) (scanned (snd e)))
                columns result in
    NoDup (map fst result')
    /\ forall col,
         map_get result' col
         = match map_get (rev columns) col with
           | Some v => Some (scanned v)
           | None => map_get result col
           end.
Proof.
  induction columns as [|[c v] rest IH]; intros result Hnd; cbn [fold_left rev].
  - split; [exact Hnd | reflexivity].
  - destruct (IH (map_set result c (scanned v)) (map_set_NoDup _ result c _ Hnd))
      as [Hnd' Hget].
    cbn [fst snd]. split; [exact Hnd'|].
    intro col. rewrite Hget, map_get_app, map_get_map_set. cbn [map_get].
    destruct (map_get (rev rest) col); [reflexivity|].
    destruct (String.eqb c col); reflexivity.
Qed.

Lemma fold_left_ext (A B : Type) (f g : A -> B -> A) :
  (forall a b, f a b = g a b) ->
  forall (l : list B) (a : A), fold_left f l a = fold_left g l a.
Proof.
  intros Hfg l. induction l as [|b rest IH]; intro a; cbn [fold_left].
  - reflexivity.
  - rewrite Hfg. apply IH.
Qed.

Lemma scanRow_fold (columns : list (string * value)) :
  scanRow (inr columns)
  = inr (fold_left (fun result e => map_set result (fst e) (scanned (snd e)))
                   columns []).
Proof.
  unfold scanRow. f_equal. apply fold_left_ext.
  intros result e. destruct (snd e); reflexivity.
Qed.

(** X19: [scanRow] on a fetched row returns a map: every column name
    occurs once, a name that the row repeats carries the value of its last
    occurrence, a byte slice is stored as a string and every other value
    as it is, so no byte slice is left in the record. *)
Theorem scanRow_last_column_wins :
  forall columns : list (string * value),
    exists row,
      scanRow (inr columns) = inr row
      /\ NoDup (map fst row)
      /\ (forall col,
            map_get row col = option_map scanned (map_get (rev columns) col))
      /\ (forall col b, ~ In (col, VBytes b) row).
Proof.
  intro columns.
  destruct (scanRow_loop columns [] (NoDup_nil _)) as [Hnd Hget].
  eexists. split; [apply scanRow_fold|].
  split; [exact Hnd|]. split.
  - intro col. etransitivity; [apply Hget|].
    destruct (map_get (rev columns) col); reflexivity.
  - intros col b Hin. pose proof (map_get_In _ _ col _ Hnd Hin) as Hcol.
    cbv zeta in Hget. rewrite Hget in Hcol.
    destruct (map_get (rev columns) col) as [[]|]; discriminate.
Qed.

Lemma scanRows_spec (raws : list RawRow) :
  match scanRows raws with
  | inr results => Forall2 (fun raw row => scanRow raw = inr row) raws results
  | inl e => exists raw, In raw raws /\ scanRow raw = inl e
  end.
Proof.
  induction raws as [|raw rest IH]; cbn [scanRows]; [constructor|].
  destruct (scanRow raw) as [e|row] eqn:Hraw.
  - exists raw. split; [now left | exact Hraw].
  - destruct (scanRows rest) as [e|results].
    + destruct IH as (raw' & Hin & Hscan). exists raw'. split; [now right | exact Hscan].
    + constructor; assumption.
Qed.

(** X20: when the statement compiles, [Query] hands exactly that statement
    to the connection, once, and leaves the schema as it is.  It returns
    no record and the error when the driver refuses the statement or a
    row cannot be scanned; otherwise one record per fetched row, in order,
    together with what [rows.Err] reports. *)
Theorem Query_returns_all_rows_or_none :
  forall (Sf : spec_float -> string) (Store : Type)
         (driver_Query : Store -> string -> list value -> (error + Rows) * Store)
         (db : SQLiteDB Store) (model : string) (params : QueryParams)
         (query : string) (args : list value),
    buildSelectQuery Sf (dbType db) (schema db) model params = Returns (query, args) ->
    exists results err db',
      Query Sf driver_Query model params db = (Returns (results, err), db')
      /\ trace db' = append (trace db) (CallQuery query args)
      /\ schema db' = schema db
      /\ match fst (driver_Query (conn db) query args) with
         | inl e => results = [] /\ err = Some e
         | inr rows =>
             (Forall2 (fun raw row => scanRow raw = inr row)
                      (Rows_next rows) results
              /\ err = Rows_Err rows)
             \/ (results = []
                 /\ exists raw e,
                      In raw (Rows_next rows) /\ scanRow raw = inl e
                      /\ err = Some e)
         end.
Proof.
  intros Sf Store driver_Query db model params query args Hq.
  unfold Query, bind, get_db. rewrite Hq. unfold conn_Query.
  destruct (driver_Query (conn db) query args) as [[e|rows] store'].
  - eexists. eexists. eexists. split; [reflexivity|]. cbn. auto.
  - cbn [fst]. pose proof (scanRows_spec (Rows_next rows)) as Hrows.
    destruct (scanRows (Rows_next rows)) as [e|results].
    + eexists. eexists. eexists. split; [reflexivity|]. cbn [trace schema].
      split; [reflexivity|]. split; [reflexivity|]. right.
      destruct Hrows as (raw & Hin & Hscan). split; [reflexivity|].
      exists raw, e. auto.
    + eexists. eexists. eexists. split; [reflexivity|]. cbn [trace schema].
      split; [reflexivity|]. split; [reflexivity|]. left. auto.
Qed.

(** The users whose role is given, on a store without rows. *)
Lemma Query_returns_all_rows_or_none_witness :
  buildSelectQuery Sprint_no_float (dbType emptyDB) (schema emptyDB) "User"
                   roleParams
  = Returns (roleQuery, [VString "admin"])
  /\ exists results err db',
       Query Sprint_no_float emptyQuery "User" roleParams emptyDB
       = (Returns (results, err), db')
       /\ trace db' = append (trace emptyDB) (CallQuery roleQuery [VString "admin"])
       /\ schema db' = schema emptyDB
       /\ match fst (emptyQuery (conn emptyDB) roleQuery [VString "admin"]) with
          | inl e => results = [] /\ err = Some e
          | inr rows =>
              (Forall2 (fun raw row => scanRow raw = inr row)
                       (Rows_next rows) results
               /\ err = Rows_Err rows)
              \/ (results = []
                  /\ exists raw e,
                       In raw (Rows_next rows) /\ scanRow raw = inl e
                       /\ err = Some e)
          end.
Proof.
  assert (Hq : buildSelectQuery Sprint_no_float (dbType emptyDB) (schema emptyDB)
                                "User" roleParams
               = Returns (roleQuery, [VString "admin"])) by reflexivity.
  split; [exact Hq|].
  exact (Query_returns_all_rows_or_none Sprint_no_float unit emptyQuery emptyDB
           "User" roleParams roleQuery [VString "admin"] Hq).
Defined.

(** *** The compiler of the base type and its SQLite override *)

(** X21: for a model of the schema, the SELECT compiler of the base type
    [DB] and the one of [SQLiteDB] give the same outcome when the request
    names a sort field.  Without sort fields and without pagination the
    SQLite statement is the statement of the base type followed by
    [ORDER BY "id" DESC], with the same arguments. *)
Theorem sqlite_select_adds_default_order :
  forall (Sf : spec_float -> string) (dbType : DatabaseType) (s : Schema)
         (model : string) (m : Model) (params : QueryParams),
    GetModel s model = Some m ->
    (Sorts params <> [] ->
     buildSelectQuery Sf dbType (Some s) model params
     = DB_buildSelectQuery Sf dbType (Some s) model params)
    /\ (Sorts params = [] -> (PageSize params <= 0)%Z ->
        forall query args,
          DB_buildSelectQuery Sf dbType (Some s) model params
          = Returns (query, args) ->
          buildSelectQuery Sf dbType (Some s) model params
          = Returns (query ++ " ORDER BY " ++ quote dbType "id" ++ " DESC", args)).
Proof.
  intros Sf dbType s model m params Hm.
  unfold buildSelectQuery, DB_buildSelectQuery. rewrite Hm.
  destruct (whereLoop Sf dbType (Filters params)) as [[whereClauses args0]|msg].
  - split.
    + intro Hsort. destruct (Sorts params); [congruence | reflexivity].
    + intros -> Hsize query args. cbn [List.length Nat.ltb Nat.leb].
      destruct (Z.gtb_spec (PageSize params) 0) as [Hpos|_]; [lia|].
      intros [= <- <-]. rewrite Join_append; [reflexivity|].
      repeat match goal with
             | |- context [if ?b then _ else _] => destruct b
             end;
        first [apply append_not_nil | discriminate].
  - split; [reflexivity|]. intros _ _ query args. discriminate.
Qed.

(** The users whose role is given, sorted by name and unsorted. *)
Lemma sqlite_select_adds_default_order_witness :
  GetModel userSchema "User" = Some userModel
  /\ buildSelectQuery Sprint_no_float DatabaseSQLite (Some userSchema) "User"
                      sortedRoleParams
     = DB_buildSelectQuery Sprint_no_float DatabaseSQLite (Some userSchema)
                           "User" sortedRoleParams
  /\ buildSelectQuery Sprint_no_float DatabaseSQLite (Some userSchema) "User"
                      roleParams
     = Returns (("SELECT * FROM " ++ dq ++ "User" ++ dq ++ " WHERE " ++ dq
                   ++ "role" ++ dq ++ " = ?")
                  ++ " ORDER BY " ++ quote DatabaseSQLite "id" ++ " DESC",
                [VString "admin"]).
Proof.
  split; [reflexivity|]. split.
  - apply (sqlite_select_adds_default_order Sprint_no_float DatabaseSQLite
             userSchema "User" userModel sortedRoleParams eq_refl).
    discriminate.
  - apply (sqlite_select_adds_default_order Sprint_no_float DatabaseSQLite
             userSchema "User" userModel roleParams eq_refl);
      [reflexivity | cbn; lia | reflexivity].
Defined.

(** *** The request parser of the handlers *)

Lemma Atoi_range (s : string) (v : Z) :
  Atoi s = Some v -> (- 2 ^ 63 <= v < 2 ^ 63)%Z.
Proof.
  unfold Atoi.
  destruct (match s with
            | EmptyString => (false, s)
            | String c rest =>
                if Ascii.eqb c "+" then (false, rest)
                else if Ascii.eqb c "-" then (true, rest) else (false, s)
            end) as [neg body].
  destruct body as [|c body]; [discriminate|].
  destruct (parse_digits (String c body) 0) as [n|]; [|discriminate].
  destruct ((- 2 ^ 63 <=? (if neg then (- n)%Z else n))
            && ((if neg then (- n)%Z else n) <=? 2 ^ 63 - 1))%Z eqn:Hr;
    [|discriminate].
  intros [= <-]. apply andb_true_iff in Hr. destruct Hr as [Hlo Hhi].
  apply Z.leb_le in Hlo, Hhi. lia.
Qed.

Lemma prefix_TrimPrefix (p s : string) :
  prefix p s = true -> s = p ++ TrimPrefix s p.
Proof.
  unfold TrimPrefix. intro Hp. rewrite Hp. revert s Hp.
  induction p as [|c p IH]; intros s Hp.
  - cbn [String.length String.append]. rewrite Nat.sub_0_r.
    clear Hp. induction s as [|d s IHs]; [reflexivity|].
    cbn [String.length substring]. now rewrite <- IHs.
  - destruct s as [|d s]; [discriminate|]. cbn [prefix] in Hp.
    destruct (ascii_dec c d) as [->|]; [|discriminate].
    cbn [String.length substring String.append Nat.sub]. f_equal. now apply IH.
Qed.

Lemma parseFilters_spec (q : Values) :
  forall f,
    In f (parseFilters q) ->
    Operator f = "="
    /\ exists v others,
         In ("filter." ++ Filter_Field f, v :: others) q /\ Value f = VString v.
Proof.
  induction q as [|[key values] rest IH]; intros f; cbn [parseFilters]; [intros []|].
  assert (Hrest : In f (parseFilters rest) ->
                  Operator f = "="
                  /\ exists v others,
                       In ("filter." ++ Filter_Field f, v :: others)
                          ((key, values) :: rest)
                       /\ Value f = VString v).
  { intro Hin. destruct (IH f Hin) as (Hop & v & others & Hq & Hv).
    split; [exact Hop|]. exists v, others. split; [now right | exact Hv]. }
  destruct values as [|v others]; [exact Hrest|].
  destruct (prefix "filter." key) eqn:Hp; [|exact Hrest].
  intros [<-|Hin]; [|exact (Hrest Hin)].
  cbn [Operator Filter_Field Value]. split; [reflexivity|].
  exists v, others. split; [|reflexivity].
  left. now rewrite <- (prefix_TrimPrefix _ _ Hp).
Qed.

Lemma parseQueryParams_PageSize (q : Values) :
  (1 <= PageSize (parseQueryParams q) <= 100)%Z.
Proof.
  unfold parseQueryParams. cbn [PageSize].
  destruct (negb (Values_Get q "page_size" =? "")); [|lia].
  destruct (Atoi (Values_Get q "page_size")) as [ps|]; [|lia].
  destruct ((ps >? 0) && (ps <=? 100))%Z eqn:Hb; [|lia].
  apply andb_true_iff in Hb. destruct Hb as [Hlo Hhi].
  apply Z.gtb_lt in Hlo. apply Z.leb_le in Hhi. lia.
Qed.

(** X22: whatever the query string holds, the request that
    [parseQueryParams] builds has a page of at least 1, a page size
    between 1 and 100, and only equality filters: each comes from a query
    key [filter.<field>] and carries the first value of that key as a
    string. *)
Theorem parsed_request_is_bounded :
  forall q : Values,
    (1 <= Page (parseQueryParams q) < 2 ^ 63)%Z
    /\ (1 <= PageSize (parseQueryParams q) <= 100)%Z
    /\ forall f,
         In f (Filters (parseQueryParams q)) ->
         Operator f = "="
         /\ exists v others,
              In ("filter." ++ Filter_Field f, v :: others) q
              /\ Value f = VString v.
Proof.
  intro q. split; [|split].
  - unfold parseQueryParams. cbn [Page].
    destruct (negb (Values_Get q "page" =? "")); [|lia].
    destruct (Atoi (Values_Get q "page")) as [p|] eqn:Ha; [|lia].
    apply Atoi_range in Ha.
    destruct (Z.gtb_spec p 0); lia.
  - apply parseQueryParams_PageSize.
  - apply parseFilters_spec.
Qed.

(** X23: the SELECT statement of a parsed request always compiles,
    whatever the query string, the schema and the model name: it ends
    with the LIMIT and OFFSET of the page, and every argument that it
    binds is a string. *)
Theorem parsed_request_always_compiles :
  forall (Sf : spec_float -> string) (dbType : DatabaseType)
         (schema : option Schema) (model : string) (q : Values),
    exists body args,
      buildSelectQuery Sf dbType schema model (parseQueryParams q)
      = Returns (body ++ " LIMIT " ++ itoa (PageSize (parseQueryParams q))
                   ++ " OFFSET "
                   ++ itoa (wrap64 ((Page (parseQueryParams q) - 1)
                                    * PageSize (parseQueryParams q))),
                 args)
      /\ forall a, In a args -> exists text, a = VString text.
Proof.
  intros Sf dbType schema model q.
  pose proof (parseQueryParams_PageSize q) as Hsize.
  pose proof (parseFilters_spec q) as Hfilters.
  change (parseFilters q) with (Filters (parseQueryParams q)) in Hfilters.
  set (params := parseQueryParams q) in *.
  unfold buildSelectQuery.
  destruct (whereLoop Sf dbType (Filters params)) as [[cs args0]|msg] eqn:Hw.
  - destruct (whereLoop_args Sf dbType (Filters params) cs args0 Hw) as [-> _].
    assert (Hgt : (PageSize params >? 0)%Z = true) by (apply Z.gtb_lt; lia).
    rewrite Hgt.
    assert (Hargs : forall a,
               In a (map (filterArg Sf) (Filters params)
                       ++ map (fun _ : string => VString ("%" ++ Search params ++ "%"))
                              (searchFields schema model params))%list ->
               exists text, a = VString text); [|clear Hw].
    { intros a Ha. apply in_app_or in Ha. destruct Ha as [Ha|Ha].
      * apply in_map_iff in Ha. destruct Ha as (f & <- & Hf).
        destruct (Hfilters f Hf) as (Hop & v & _ & _ & Hv).
        unfold filterArg, operator_of. rewrite Hop, Hv. cbn. eauto.
      * apply in_map_iff in Ha. destruct Ha as (field & <- & _). eauto. }
    unfold searchFields in Hargs.
    destruct (0 <? List.length (Sorts params))%nat;
      rewrite Join_append by apply append_not_nil;
      eexists; eexists; (split; [reflexivity | exact Hargs]).
  - exfalso.
    destruct (whereLoop_returns Sf dbType (Filters params)) as (cs & args & Hr).
    + intros f Hf Hin. destruct (Hfilters f Hf) as (Hop & _). congruence.
    + congruence.
Qed.

(** X24: for a count that is not negative and a positive page size, the
    page count of [handleList] is the least number of pages that hold all
    records: [total <= pages * pageSize < total + pageSize]; nothing
    overflows and the division does not panic. *)
Theorem totalPages_is_ceiling :
  forall total pageSize : Z,
    (0 <= total < 2 ^ 63)%Z -> (0 < pageSize < 2 ^ 63)%Z ->
    exists pages,
      totalPages total pageSize = Returns pages
      /\ (total <= pages * pageSize < total + pageSize)%Z.
Proof.
  intros total pageSize Ht Hp. unfold totalPages.
  destruct (Z.eqb_spec pageSize 0) as [E|_]; [lia|].
  rewrite Z.quot_div_nonneg, Z.rem_mod_nonneg by lia.
  pose proof (Z.div_mod total pageSize ltac:(lia)) as Hdm.
  pose proof (Z.mod_pos_bound total pageSize ltac:(lia)) as Hm.
  assert (Hq : (0 <= total / pageSize <= total)%Z).
  { split; [apply Z.div_pos; lia|]. apply Z.div_le_upper_bound; nia. }
  rewrite (wrap64_small (total / pageSize)) by lia.
  destruct (Z.gtb_spec (total mod pageSize) 0) as [Hr|Hr].
  - assert (Hlt : (total / pageSize < total)%Z) by nia.
    rewrite wrap64_small by lia.
    eexists. split; [reflexivity|]. nia.
  - eexists. split; [reflexivity|]. nia.
Qed.

(** Forty-five records in pages of twenty. *)
Lemma totalPages_is_ceiling_witness :
  (0 <= 45 < 2 ^ 63)%Z /\ (0 < 20 < 2 ^ 63)%Z
  /\ exists pages,
       totalPages 45 20 = Returns pages
       /\ (45 <= pages * 20 < 45 + 20)%Z.
Proof.
  split; [lia|]. split; [lia|].
  apply (totalPages_is_ceiling 45 20); lia.
Defined.

(** *** Password fields in the handlers *)

Lemma isPassword_In (pwFields : list string) (key : string) :
  isPassword pwFields key = true <-> In key pwFields.
Proof.
  unfold isPassword. rewrite existsb_exists. split.
  - intros (pw & Hin & He). apply String.eqb_eq in He. now subst.
  - intro Hin. exists key. split; [exact Hin | apply String.eqb_refl].
Qed.

Lemma passwordFields_In (model : Model) (key : string) :
  In key (passwordFields model) <-> passwordField model key.
Proof.
  unfold passwordFields, passwordField. rewrite in_map_iff. split.
  - intros (field & Hn & Hin). apply filter_In in Hin. destruct Hin as [Hin Ht].
    apply String.eqb_eq in Ht. eauto.
  - intros (field & Hin & Ht & Hn). exists field. split; [exact Hn|].
    apply filter_In. split; [exact Hin|]. rewrite Ht. apply String.eqb_refl.
Qed.

(** X25: for a model of the schema, [filterPasswordFieldsSingle] keeps
    exactly the entries of the record whose key is not the name of a
    password field of the model: no password field is left in the copy,
    and nothing else is dropped. *)
Theorem password_fields_are_dropped :
  forall (schema : Schema) (modelName : string) (model : Model)
         (record : list (string * value)),
    GetModel schema modelName = Some model ->
    forall key v,
      In (key, v) (filterPasswordFieldsSingle schema modelName record)
      <-> In (key, v) record /\ ~ passwordField model key.
Proof.
  intros schema modelName model record Hm key v.
  unfold filterPasswordFieldsSingle. rewrite Hm.
  rewrite <- passwordFields_In.
  destruct (List.length (passwordFields model) =? 0)%nat eqn:Hlen.
  - apply Nat.eqb_eq, length_zero_iff_nil in Hlen. rewrite Hlen.
    cbn [In]. tauto.
  - rewrite filter_In. cbn [fst]. rewrite negb_true_iff.
    rewrite <- isPassword_In.
    destruct (isPassword (passwordFields model) key); intuition congruence.
Qed.

(** An account read back: the secret is dropped, the login is kept. *)
Lemma password_fields_are_dropped_witness :
  GetModel accountSchema "Account" = Some accountModel
  /\ (In ("login", VString "ann")
         (filterPasswordFieldsSingle accountSchema "Account"
            [("login", VString "ann"); ("secret", VString "x1")])
      <-> In ("login", VString "ann")
             [("login", VString "ann"); ("secret", VString "x1")]
          /\ ~ passwordField accountModel "login")
  /\ (In ("secret", VString "x1")
         (filterPasswordFieldsSingle accountSchema "Account"
            [("login", VString "ann"); ("secret", VString "x1")])
      <-> In ("secret", VString "x1")
             [("login", VString "ann"); ("secret", VString "x1")]
          /\ ~ passwordField accountModel "secret").
Proof.
  split; [reflexivity|]. split.
  - exact (password_fields_are_dropped accountSchema "Account" accountModel
             [("login", VString "ann"); ("secret", VString "x1")] eq_refl
             "login" (VString "ann")).
  - exact (password_fields_are_dropped accountSchema "Account" accountModel
             [("login", VString "ann"); ("secret", VString "x1")] eq_refl
             "secret" (VString "x1")).
Defined.

(** X26: [filterPasswordFields] treats every record of the list as
    [filterPasswordFieldsSingle] treats one record, and keeps their number
    and order. *)
Theorem filterPasswordFields_maps_single :
  forall (schema : Schema) (modelName : string)
         (records : list (list (string * value))),
    filterPasswordFields schema modelName records
    = map (filterPasswordFieldsSingle schema modelName) records.
Proof.
  intros schema modelName records.
  unfold filterPasswordFields, filterPasswordFieldsSingle.
  destruct (GetModel schema modelName) as [model|]; [|now rewrite map_id].
  destruct (List.length (passwordFields model) =? 0)%nat;
    [now rewrite map_id | reflexivity].
Qed.

Lemma map_get_map_delete (T : Type) (m : list (string * T)) (k k' : string) :
  map_get (map_delete m k) k' = if String.eqb k k' then None else map_get m k'.
Proof.
  induction m as [|[a b] rest IH]; cbn [map_delete map_get].
  - destruct (String.eqb k k'); reflexivity.
  - destruct (String.eqb_spec a k) as [->|Hak].
    + rewrite IH. destruct (String.eqb k k'); reflexivity.
    + cbn [map_get]. rewrite IH.
      destruct (String.eqb_spec a k') as [->|_]; [|reflexivity].
      now rewrite (eqb_neq_false _ _ (not_eq_sym Hak)).
Qed.

Lemma dropEmptyPasswords_spec (fields : list Field) :
  forall (data : list (string * value)) (key : string),
    map_get (dropEmptyPasswords fields data) key
    = if existsb (fun field => String.eqb (Type_ field) FieldTypePassword
                               && String.eqb (Name field) key) fields
         && emptyValue (map_get data key)
      then None else map_get data key.
Proof.
  induction fields as [|field rest IH]; intros data key;
    cbn [dropEmptyPasswords existsb].
  - reflexivity.
  - destruct (String.eqb (Type_ field) FieldTypePassword); cbn [andb orb];
      [|apply IH].
    assert (Hkeep : emptyValue (map_get data (Name field)) = false ->
                    map_get (dropEmptyPasswords rest data) key
                    = if ((Name field =? key)
                          || existsb (fun field0 =>
                                        (Type_ field0 =? FieldTypePassword)
                                        && (Name field0 =? key)) rest)
                         && emptyValue (map_get data key)
                      then None else map_get data key).
    { intro He. rewrite IH.
      destruct (String.eqb_spec (Name field) key) as [E|_]; [|reflexivity].
      rewrite <- E, He, andb_false_r. reflexivity. }
    assert (Hdrop : emptyValue (map_get data (Name field)) = true ->
                    map_get (dropEmptyPasswords rest (map_delete data (Name field)))
                            key
                    = if ((Name field =? key)
                          || existsb (fun field0 =>
                                        (Type_ field0 =? FieldTypePassword)
                                        && (Name field0 =? key)) rest)
                         && emptyValue (map_get data key)
                      then None else map_get data key).
    { intro He. rewrite IH, map_get_map_delete.
      destruct (String.eqb_spec (Name field) key) as [E|_]; [|reflexivity].
      rewrite <- E, He, andb_false_r. reflexivity. }
    destruct (map_get data (Name field)) as [[| s | | | | | |]|] eqn:Hget;
      try (apply Hkeep; reflexivity).
    + apply Hdrop. reflexivity.
    + cbn [emptyValue] in Hkeep, Hdrop.
      destruct (String.eqb s ""); [apply Hdrop | apply Hkeep]; reflexivity.
Qed.

(** X27: for a model of the schema, [filterEmptyPasswordFields] removes
    from the payload exactly the keys that name a password field of the
    model and carry nil or the empty string; every other key keeps its
    value, a password that is not empty included. *)
Theorem empty_passwords_are_removed :
  forall (schema : Schema) (modelName : string) (model : Model)
         (data : list (string * value)),
    GetModel schema modelName = Some model ->
    forall key,
      map_get (filterEmptyPasswordFields schema modelName data) key
      = if isPassword (passwordFields model) key && emptyValue (map_get data key)
        then None else map_get data key.
Proof.
  intros schema modelName model data Hm key.
  unfold filterEmptyPasswordFields. rewrite Hm, dropEmptyPasswords_spec.
  replace (existsb (fun field => (Type_ field =? FieldTypePassword)
                                 && (Name field =? key)) (Fields model))
    with (isPassword (passwordFields model) key); [reflexivity|].
  unfold isPassword, passwordFields.
  induction (Fields model) as [|field rest IH]; [reflexivity|].
  cbn [filter existsb].
  destruct (Type_ field =? FieldTypePassword); cbn [map existsb andb orb].
  - rewrite IH, (String.eqb_sym key). reflexivity.
  - exact IH.
Qed.

(** An account update with an empty secret: the secret is removed, the
    login is kept. *)
Lemma empty_passwords_are_removed_witness :
  GetModel accountSchema "Account" = Some accountModel
  /\ map_get (filterEmptyPasswordFields accountSchema "Account"
                [("login", VString "ann"); ("secret", VString "")]) "secret"
     = None
  /\ map_get (filterEmptyPasswordFields accountSchema "Account"
                [("login", VString "ann"); ("secret", VString "")]) "login"
     = Some (VString "ann").
Proof.
  split; [reflexivity|]. split.
  - rewrite (empty_passwords_are_removed accountSchema "Account" accountModel
               [("login", VString "ann"); ("secret", VString "")] eq_refl).
    reflexivity.
  - rewrite (empty_passwords_are_removed accountSchema "Account" accountModel
               [("login", VString "ann"); ("secret", VString "")] eq_refl).
    reflexivity.
Defined.
